(** * Green-Cut-Sim: turn-resolution and financial engine

    A shallow embedding of [finance.ts] (computeFinancials) and of the
    [Engine] class of [engine.ts] (event generation, signal resolution,
    turn resolution), with the properties of the specification stated and
    proved over it.

    Numbers.  A JavaScript [number] is an IEEE-754 binary64 value, and the
    file reads numbers in two ways.

    - In the main embedding (the modules [JS], [Finance], [Engine],
      [Evaluator] and [Server]) a number is an exact rational ([Q]): every
      arithmetic operator is the exact operation, comparisons are the
      exact order, and there is neither NaN nor an infinity.  Properties
      stated there are about the structure of the code: which value is
      stored where, which branch is taken, which bounds a clamp enforces.
      Equality of numbers is [Qeq] ([==]) unless a value is passed through
      untouched, in which case it is Leibniz equality.  No division of the
      code divides by zero: the denominators are positive constants, a
      [Math.max(1, ...)], or the revenue of a turn, which is positive
      ([turn_revenue_positive]).

    - Where a property depends on rounding, on overflow or on NaN (the
      balance and cash-reconciliation checks of [computeFinancials], the
      clamp of the deltas), the code is embedded a second time on Rocq's
      primitive binary64 floats (the modules [B64], [Finance64] and
      [Engine64]), whose operations are those of the program.

    Strings are [string]s of 8-bit code units. *)

From Stdlib Require Import ZArith QArith Qminmax Qabs Qround Lqa Lia.
From Stdlib Require Import List String Ascii Bool Permutation DecimalString.
From Stdlib Require Floats.

#[local] Set Warnings "-register-all".
#[local] Set Warnings "-inexact-float".

Import ListNotations.

Local Open Scope string_scope.
Local Open Scope list_scope.
Local Open Scope Q_scope.

(** ** JavaScript primitives on numbers *)

Module JS.

Definition Math_max (a b : Q) : Q := Qmax a b.
Definition Math_min (a b : Q) : Q := Qmin a b.
Definition Math_abs (a : Q) : Q := Qabs a.

(** [Math.round]: nearest integer, ties towards plus infinity. *)
Definition Math_round (x : Q) : Q := inject_Z (Qfloor (x + (1 # 2))).

Definition ltb (a b : Q) : bool :=
  match a ?= b with Lt => true | _ => false end.
Definition leb (a b : Q) : bool :=
  match a ?= b with Gt => false | _ => true end.
Definition gtb (a b : Q) : bool := ltb b a.
Definition eqb (a b : Q) : bool := Qeq_bool a b.

(** [x || d] on numbers: [0] is the only falsy rational. *)
Definition or_num (x d : Q) : Q := if eqb x 0 then d else x.

(** [x ?? d] and [x || d] where [x] may be undefined. *)
Definition nullish (x : option Q) (d : Q) : Q :=
  match x with Some v => v | None => d end.
Definition or_undef (x : option Q) (d : Q) : Q :=
  match x with Some v => or_num v d | None => d end.

(** Decimal digits of an integer, as [Number.prototype.toString] prints
    an integral number. *)
Definition string_of_Z (z : Z) : string := NilZero.string_of_int (Z.to_int z).

Fixpoint zeros (n : nat) : string :=
  match n with O => EmptyString | S n' => String "0" (zeros n') end.

Definition pad_left (width : nat) (s : string) : string :=
  (zeros (width - String.length s) ++ s)%string.

Fixpoint split_at (n : nat) (s : string) : string * string :=
  match n, s with
  | S n', String c s' => let (a, b) := split_at n' s' in (String c a, b)
  | _, _ => (EmptyString, s)
  end.

(** [x.toFixed(f)]: the integer [n] with [n / 10^f] closest to [x], the
    larger one on a tie, printed with [f] decimals.  The rational [x] is
    rounded, where the program rounds the binary64 value: the two can
    differ in the last digit when [x] is half-way between two decimals. *)
Definition toFixed (f : nat) (x : Q) : string :=
  let neg := ltb x 0 in
  let a := Qabs x in
  let n := Qfloor (a * inject_Z (10 ^ Z.of_nat f) + (1 # 2)) in
  let ds := pad_left (S f) (string_of_Z n) in
  let (ip, fp) := split_at (String.length ds - f) ds in
  ((if neg then "-" else "") ++ ip
     ++ (match f with O => "" | _ => "." ++ fp end))%string.


(** *** Strings *)

Definition charCode (c : ascii) : Z := Z.of_N (N_of_ascii c).

(** The double-quote character. *)
Definition dquote : string := String "034"%char EmptyString.

(** [String.prototype.toLowerCase] on 8-bit code units: A-Z and the
    Latin-1 capitals. *)
Definition lower_char (c : ascii) : ascii :=
  let n := N_of_ascii c in
  if ((65 <=? n) && (n <=? 90))%N
     || ((192 <=? n) && (n <=? 222) && negb (n =? 215))%N
  then ascii_of_N (n + 32) else c.

Fixpoint toLowerCase (s : string) : string :=
  match s with
  | EmptyString => EmptyString
  | String c s' => String (lower_char c) (toLowerCase s')
  end.

Fixpoint join (sep : string) (l : list string) : string :=
  match l with
  | [] => EmptyString
  | [x] => x
  | x :: l' => (x ++ sep ++ join sep l')%string
  end.

(** *** Printing numbers *)

(** Fractional digits of [r / d] (with [0 <= r < d]) by long division, until
    the remainder vanishes or [fuel] digits are out. *)
Fixpoint frac_digits (fuel : nat) (r d : Z) : string :=
  match fuel with
  | O => EmptyString
  | S fuel' =>
      if (r =? 0)%Z then EmptyString
      else String (ascii_of_N (48 + Z.to_N (10 * r / d)))
                  (frac_digits fuel' ((10 * r) mod d) d)
  end.

(** [Number.prototype.toString].  The rational is printed by its decimal
    expansion: the digits of an integer, or integer part, point and
    fractional digits.  This is what JavaScript prints for the integers
    below 1e21 and for the decimal literals of ordinary length that are at
    least 1e-6 in magnitude; exponent notation and the cut-off at 17
    significant digits are not modelled (an expansion is cut after 20
    fractional digits), so that the string of a number that carries a
    rounding error in the program is not the string printed here. *)
Definition Number_toString (x : Q) : string :=
  let n := Qnum x in
  let d := Zpos (Qden x) in
  let a := Z.abs n in
  let ip := (a / d)%Z in
  let r := (a mod d)%Z in
  ((if (n <? 0)%Z then "-" else "") ++ string_of_Z ip
     ++ (if (r =? 0)%Z then "" else "." ++ frac_digits 20 r d))%string.

(** [parseFloat] on a string of the shape [digits] or [digits.digits],
    the only shape the capture groups of [detectCashSpending] produce. *)
Definition digit_val (c : ascii) : Z := charCode c - 48.

Fixpoint parse_digits (s : string) (acc : Z) : Z * string :=
  match s with
  | String c s' =>
      if ((48 <=? charCode c) && (charCode c <=? 57))%Z
      then parse_digits s' (acc * 10 + digit_val c)%Z
      else (acc, s)
  | EmptyString => (acc, s)
  end.

Fixpoint parse_fraction (s : string) (num den : Z) : Z * Z :=
  match s with
  | String c s' =>
      if ((48 <=? charCode c) && (charCode c <=? 57))%Z
      then parse_fraction s' (num * 10 + digit_val c)%Z (den * 10)%Z
      else (num, den)
  | EmptyString => (num, den)
  end.

Definition parseFloat (s : string) : Q :=
  let (ip, rest) := parse_digits s 0%Z in
  match rest with
  | String "." rest' =>
      let (num, den) := parse_fraction rest' 0%Z 1%Z in
      inject_Z ip + Qmake num (Z.to_pos den)
  | _ => inject_Z ip
  end.

(** *** Objects and JSON *)

(** A JavaScript object with values in [V]: its own properties in
    insertion order. *)
Definition obj (V : Type) : Type := list (string * V).

Fixpoint get {V} (k : string) (o : obj V) : option V :=
  match o with
  | [] => None
  | (k', v) :: o' => if String.eqb k k' then Some v else get k o'
  end.

(** [o[k] = v]: an existing property keeps its position. *)
Fixpoint set {V} (k : string) (v : V) (o : obj V) : obj V :=
  match o with
  | [] => [(k, v)]
  | (k', v') :: o' =>
      if String.eqb k k' then (k', v) :: o' else (k', v') :: set k v o'
  end.

Definition has {V} (k : string) (o : obj V) : bool :=
  match get k o with Some _ => true | None => false end.

Definition keys {V} (o : obj V) : list string := map fst o.

Inductive json : Type :=
| JNull
| JBool (b : bool)
| JNum (q : Q)
| JStr (s : string)
| JArr (l : list json)
| JObj (o : list (string * json)).

Definition hex_digit (n : N) : ascii :=
  if (n <? 10)%N then ascii_of_N (48 + n) else ascii_of_N (87 + n).

(** Escaping of one code unit inside a JSON string. *)
Definition escape_char (c : ascii) : string :=
  let n := N_of_ascii c in
  if (n =? 34)%N then String "\" dquote
  else if (n =? 92)%N then "\\"
  else if (n =? 8)%N then "\b"
  else if (n =? 9)%N then "\t"
  else if (n =? 10)%N then "\n"
  else if (n =? 12)%N then "\f"
  else if (n =? 13)%N then "\r"
  else if (n <? 32)%N then
    String "\" (String "u" (String "0" (String "0"
      (String (hex_digit (n / 16)) (String (hex_digit (n mod 16))
         EmptyString)))))
  else String c EmptyString.

Fixpoint escape (s : string) : string :=
  match s with
  | EmptyString => EmptyString
  | String c s' => (escape_char c ++ escape s')%string
  end.

Definition quote (s : string) : string := (dquote ++ escape s ++ dquote)%string.

(** [JSON.stringify] without indentation: properties in insertion
    order. *)
Fixpoint JSON_stringify (v : json) : string :=
  match v with
  | JNull => "null"
  | JBool true => "true"
  | JBool false => "false"
  | JNum q => Number_toString q
  | JStr s => quote s
  | JArr l =>
      ("[" ++ join "," (map JSON_stringify l) ++ "]")%string
  | JObj o =>
      ("{" ++ join ","
                (map (fun kv => (quote (fst kv) ++ ":"
                                 ++ JSON_stringify (snd kv))%string) o)
           ++ "}")%string
  end.

End JS.


(** ** Regular expressions

    The fragment of JavaScript regular expressions that
    [detectCashSpending] uses: literals, [\d], [\s], sequence, ordered
    alternation, greedy repetition and one capture group, matched by
    backtracking as [String.prototype.match] does. *)

Module RegExp.

Inductive regex : Type :=
| Chr (c : ascii)
| Digit
| Space
| Eps
| Seq (r1 r2 : regex)
| Alt (r1 r2 : regex)
| Star (r : regex)
| Group (r : regex).

Definition Plus (r : regex) : regex := Seq r (Star r).
Definition Opt (r : regex) : regex := Alt r Eps.

Fixpoint Lit (s : string) : regex :=
  match s with
  | EmptyString => Eps
  | String c s' => Seq (Chr c) (Lit s')
  end.

Fixpoint Alts (l : list string) : regex :=
  match l with
  | [] => Eps
  | [s] => Lit s
  | s :: l' => Alt (Lit s) (Alts l')
  end.

Definition is_digit (c : ascii) : bool :=
  let n := N_of_ascii c in ((48 <=? n) && (n <=? 57))%N.

(** [\s] on 8-bit code units: tab, line feed, vertical tab, form feed,
    carriage return, space and no-break space. *)
Definition is_space (c : ascii) : bool :=
  let n := N_of_ascii c in
  (((9 <=? n) && (n <=? 13)) || (n =? 32) || (n =? 160))%N.

(** Result of a match: the text of capture group 1, if it took part. *)
Definition capture : Type := option string.

Fixpoint take (n : nat) (s : string) : string :=
  match n, s with
  | S n', String c s' => String c (take n' s')
  | _, _ => EmptyString
  end.

(** [run r s cap k]: match [r] at the start of [s] and continue with [k] on
    the rest; alternatives are tried in order and a failing continuation
    backtracks into them. *)
Fixpoint run (r : regex) (s : string) (cap : capture)
    (k : string -> capture -> option capture) {struct r} : option capture :=
  match r with
  | Chr c =>
      match s with
      | String c' s' => if Ascii.eqb c c' then k s' cap else None
      | EmptyString => None
      end
  | Digit =>
      match s with
      | String c' s' => if is_digit c' then k s' cap else None
      | EmptyString => None
      end
  | Space =>
      match s with
      | String c' s' => if is_space c' then k s' cap else None
      | EmptyString => None
      end
  | Eps => k s cap
  | Seq r1 r2 => run r1 s cap (fun s' cap' => run r2 s' cap' k)
  | Alt r1 r2 =>
      match run r1 s cap k with
      | Some res => Some res
      | None => run r2 s cap k
      end
  | Star r1 =>
      (fix star (fuel : nat) (s : string) (cap : capture) {struct fuel}
         : option capture :=
         match fuel with
         | O => k s cap
         | S fuel' =>
             match run r1 s cap
                     (fun s' cap' =>
                        if (String.length s' <? String.length s)%nat
                        then star fuel' s' cap' else None) with
             | Some res => Some res
             | None => k s cap
             end
         end) (String.length s) s cap
  | Group r1 =>
      run r1 s cap
        (fun s' _ =>
           k s' (Some (take (String.length s - String.length s') s)))
  end.

(** Leftmost match anywhere in [s]. *)
Fixpoint search (r : regex) (s : string) : option capture :=
  match run r s None (fun _ cap => Some cap) with
  | Some cap => Some cap
  | None =>
      match s with
      | EmptyString => None
      | String _ s' => search r s'
      end
  end.

End RegExp.
(** ** Financial contracts ([contracts.ts]) *)

Record FinancialDrivers := mkDrivers {
  units_sold : Q; avg_price : Q; unit_cost : Q; opex_base : Q;
  capex_base : Q; dso : Q; dpo : Q; dio : Q }.

(** [scrap_rate] is read with [?? 0] by the code, hence optional here. *)
Record FinancialParams := mkParams {
  period_days : Q; min_cash_buffer : Q; depreciation_life_years : Q;
  price_to_units : Q; morale_to_units : Q; credibility_to_price : Q;
  scrap_rate : option Q }.

Record MiniPnL := mkPnL {
  revenue : Q; cogs : Q; gross_profit : Q; opex : Q; ebitda : Q;
  depreciation : Q; ebit : Q; interest : Q; taxes : Q; net_income : Q }.

Record MiniBalanceSheet := mkBalance {
  cash : Q; ar : Q; inventory : Q; ppe : Q;
  ap : Q; debt : Q; retained_earnings : Q; other_equity : Q }.

Record MiniCashFlow := mkCashFlow { cfo : Q; cfi : Q; cff : Q }.

Record FinancialSnapshot := mkSnapshot {
  cash_open : Q;
  pnl : MiniPnL;
  cashflow : MiniCashFlow;
  balance : MiniBalanceSheet;
  cash_close : Q;
  balance_ok : bool;
  cash_recon_ok : bool;
  notes : list string }.

Record Policy := mkPolicy { dividend : bool; repay_debt : bool }.

Record FinanceInput := mkFinanceInput {
  prev_balance : MiniBalanceSheet;
  drivers : FinancialDrivers;
  params : FinancialParams;
  policy : option Policy;
  direct_cash_spending : option Q }.

(** Assets and liabilities-plus-equity of a balance sheet, in the order the
    code and its tests add them up. *)
Definition assets_of (b : MiniBalanceSheet) : Q :=
  cash b + ar b + inventory b + ppe b.
Definition liab_eq_of (b : MiniBalanceSheet) : Q :=
  ap b + debt b + other_equity b + retained_earnings b.

(** The tolerance [1e-6] of both identity checks. *)
Definition tolerance : Q := 1 # 1000000.

(** ** The financial engine ([finance.ts]) *)

Module Finance.

Definition note_scrap (rate : Q) : string :=
  ("Applied scrap/returns factor " ++ JS.toFixed 3 rate ++ " to COGS.")%string.
Definition note_debt_draw : string :=
  "Debt draw to maintain minimum cash buffer.".
Definition note_dividend : string :=
  "Dividend paid from retained earnings.".
Definition note_plug : string :=
  "Applied immaterial retained earnings plug to balance assets=liabilities+equity.".
Definition note_recon : string :=
  "Cash reconciliation drifted; review CFO/CFI/CFF.".

(** The [let] variables of the financing block (lines 49-69), threaded
    explicitly. *)
Record Financing := mkFinancing {
  f_cff : Q;
  f_debt : Q;
  f_retained_earnings : Q;
  f_cash_close_prov : Q;
  f_notes : list string }.

(** Financing policy: a debt draw closes the gap to the minimum cash
    buffer; otherwise, under the dividend policy, a quarter of the surplus
    (at most the retained earnings) is paid out. *)
Definition financing (min_buffer : Q) (pol : option Policy)
    (st : Financing) : Financing :=
  if JS.ltb (f_cash_close_prov st) min_buffer then
    let needed := min_buffer - f_cash_close_prov st in
    {| f_cff := f_cff st + needed;
       f_debt := f_debt st + needed;
       f_retained_earnings := f_retained_earnings st;
       f_cash_close_prov := f_cash_close_prov st + needed;
       f_notes := f_notes st ++ [note_debt_draw] |}
  else if (match pol with Some p => dividend p | None => false end)
          && JS.gtb (f_retained_earnings st) 0
          && JS.gtb (f_cash_close_prov st) min_buffer then
    let div := JS.Math_min (f_retained_earnings st)
                 ((f_cash_close_prov st - min_buffer) * (25 # 100)) in
    if JS.gtb div 0 then
      {| f_cff := f_cff st - div;
         f_debt := f_debt st;
         f_retained_earnings := f_retained_earnings st - div;
         f_cash_close_prov := f_cash_close_prov st - div;
         f_notes := f_notes st ++ [note_dividend] |}
    else st
  else st.

(** Everything [computeFinancials] has computed when it reaches the
    "Identities & checks" block (lines 9-77): the statements, the financing
    variables, the cash close before the floor, and the balance sheet as
    first built. *)
Record Flows := mkFlows {
  fl_cash_open : Q;
  fl_pnl : MiniPnL;
  fl_cfo : Q;
  fl_cfi : Q;
  fl_direct_cash_flow : Q;
  fl_fin : Financing;
  fl_cash_close : Q;
  fl_balance : MiniBalanceSheet }.

Definition flows (input : FinanceInput) : Flows :=
  let prev := prev_balance input in
  let drv := drivers input in
  let prm := params input in
  let spend := JS.nullish (direct_cash_spending input) 0 in
  let cash_open := cash prev in
  (* --- P&L --- *)
  let revenue := units_sold drv * avg_price drv in
  let cogs_core := units_sold drv * unit_cost drv in
  let cogs_scrap := cogs_core * JS.nullish (scrap_rate prm) 0 in
  let cogs := cogs_core + cogs_scrap in
  let notes1 :=
    if JS.gtb (JS.nullish (scrap_rate prm) 0) 0
    then [note_scrap (JS.nullish (scrap_rate prm) 0)] else [] in
  let gross_profit := revenue - cogs in
  let opex := opex_base drv in
  let ebitda := gross_profit - opex in
  let dep_life_years := JS.Math_max 1 (depreciation_life_years prm) in
  let depreciation :=
    ppe prev / dep_life_years / 12 * (period_days prm / 30) in
  let ebit := ebitda - depreciation in
  let interest := debt prev * 0 in
  let taxes := JS.Math_max 0 (ebit - interest) * 0 in
  let net_income := ebit - interest - taxes in
  (* --- Working capital (end-of-period balances) --- *)
  let period := JS.Math_max 1 (period_days prm) in
  let ar' := revenue * (dso drv / period) in
  let inventory' := cogs * (dio drv / period) in
  let ap' := cogs * (dpo drv / period) in
  let dAR := ar' - ar prev in
  let dInv := inventory' - inventory prev in
  let dAP := ap' - ap prev in
  let deltaNWC := dAR + dInv - dAP in
  (* --- Capex & PP&E --- *)
  let capex := capex_base drv in
  let ppe' := JS.Math_max 0 (ppe prev + capex - depreciation) in
  (* --- Cash flow (indirect) --- *)
  let cfo := net_income + depreciation - deltaNWC in
  let cfi := - capex in
  let direct_cash_flow := - spend in
  (* Financing policy *)
  let fin :=
    financing (min_cash_buffer prm) (policy input)
      {| f_cff := 0;
         f_debt := debt prev;
         f_retained_earnings := retained_earnings prev + net_income;
         f_cash_close_prov := cash_open + cfo + cfi + 0 + direct_cash_flow;
         f_notes := notes1 |} in
  let cash_close := cash_open + cfo + cfi + f_cff fin + direct_cash_flow in
  (* --- Balance sheet end-of-period --- *)
  let cash' := JS.Math_max 0 cash_close in
  {| fl_cash_open := cash_open;
     fl_pnl := {| revenue := revenue; cogs := cogs;
                  gross_profit := gross_profit; opex := opex;
                  ebitda := ebitda; depreciation := depreciation;
                  ebit := ebit; interest := interest; taxes := taxes;
                  net_income := net_income |};
     fl_cfo := cfo;
     fl_cfi := cfi;
     fl_direct_cash_flow := direct_cash_flow;
     fl_fin := fin;
     fl_cash_close := cash_close;
     fl_balance :=
       {| cash := cash'; ar := ar'; inventory := inventory'; ppe := ppe';
          ap := ap'; debt := f_debt fin;
          retained_earnings := f_retained_earnings fin;
          other_equity := other_equity prev |} |}.

(** "Identities & checks" (lines 78-100) and the returned snapshot. *)
Definition checks (w : Flows) : FinancialSnapshot :=
  let b := fl_balance w in
  let assets := cash b + ar b + inventory b + ppe b in
  let liab_eq := ap b + debt b + other_equity b + retained_earnings b in
  let balance_ok0 := JS.ltb (JS.Math_abs (assets - liab_eq)) tolerance in
  let '(balance1, balance_ok1, notes2) :=
    if negb balance_ok0 then
      (* plug to retained earnings; logged as a note *)
      let plug := assets - liab_eq in
      ({| cash := cash b; ar := ar b; inventory := inventory b;
          ppe := ppe b; ap := ap b; debt := debt b;
          retained_earnings := retained_earnings b + plug;
          other_equity := other_equity b |},
       true,
       f_notes (fl_fin w) ++ [note_plug])
    else (b, balance_ok0, f_notes (fl_fin w)) in
  let cash_recon_ok :=
    JS.ltb (JS.Math_abs (fl_cash_close w - f_cash_close_prov (fl_fin w)))
           tolerance in
  let notes3 := if negb cash_recon_ok then notes2 ++ [note_recon] else notes2 in
  {| cash_open := fl_cash_open w;
     pnl := fl_pnl w;
     cashflow := {| cfo := fl_cfo w; cfi := fl_cfi w;
                    cff := f_cff (fl_fin w) |};
     balance := balance1;
     cash_close := cash b;
     balance_ok := balance_ok1;
     cash_recon_ok := cash_recon_ok;
     notes := notes3 |}.

Definition computeFinancials (input : FinanceInput) : FinancialSnapshot :=
  checks (flows input).

End Finance.


(** ** Engine contracts ([contracts.ts]) *)

Record Caps := mkCaps {
  cap_morale : Q; cap_credibility : Q;
  cap_service_risk : Q; cap_backlog_pressure : Q }.

Definition DEFAULT_CAPS : Caps :=
  {| cap_morale := 3; cap_credibility := 2;
     cap_service_risk := 6 # 10; cap_backlog_pressure := 1 |}.

(** [caps[key]] for a property name that need not be one of [Caps]. *)
Definition Caps_get (caps : Caps) (key : string) : option Q :=
  if String.eqb key "morale" then Some (cap_morale caps)
  else if String.eqb key "credibility" then Some (cap_credibility caps)
  else if String.eqb key "service_risk" then Some (cap_service_risk caps)
  else if String.eqb key "backlog_pressure"
       then Some (cap_backlog_pressure caps)
  else None.

Inductive Direction := up | down | none.

Record DirStrength := mkDirStrength { dir : Direction; strength : Q }.

Record Signals := mkSignals {
  sig_morale : DirStrength;
  sig_credibility : DirStrength;
  sig_backlog_pressure : DirStrength;
  sig_service_risk : DirStrength }.

Record ImpactChannels := mkImpactChannels {
  ic_morale : option DirStrength;
  ic_credibility : option DirStrength;
  ic_backlog_pressure : option DirStrength;
  ic_service_risk : option DirStrength }.

Record Assessment := mkAssessment {
  intent : list string; targets : list string;
  tone : string; fit_reasons : list string }.

Record EvaluatorEvent := mkEvaluatorEvent {
  ev_roll : Q;
  ev_event_type : string;
  impact_channels : ImpactChannels;
  severity_note : string }.

Inductive Synergy := aligned | undermined | neutral.

Record Integrated := mkIntegrated {
  synergy : Synergy; narrative_hook : string }.

Record Penalties := mkPenalties { nonsense_penalty : Q }.

Record PolicyBlock := mkPolicyBlock { oob : bool; violations : list string }.

Record EvaluatorOutput := mkEvaluatorOutput {
  eo_assessment : Assessment;
  eo_signals : Signals;
  eo_event : EvaluatorEvent;
  eo_integrated : Integrated;
  eo_penalties : Penalties;
  eo_policy : PolicyBlock;
  eo_rationale : string }.

(** Effect deltas of a generated event. *)
Record Effects := mkEffects {
  revenue_delta : Q; cogs_delta : Q; opex_delta : Q; cash_delta : Q;
  share_delta : Q; nps_delta : Q; morale_delta : Q; backlog_delta : Q;
  effect_notes : string }.

Record RngEvent := mkRngEvent {
  roll : Q;
  event_type : string;
  tier : string;
  name : string;
  effects : Effects;
  flag_bump : Q;
  tail_risk_bump : Q;
  hints : list string }.

Record ActiveEvent := mkActiveEvent {
  ae_category : string; ae_tier : Q; ae_name : string;
  ae_effects : Effects; ae_decay : string }.

Record LegacyEvent := mkLegacyEvent { le_category : string; le_tier : string }.

Record Flags := mkFlags {
  supply_fragile : bool; labor_tense : bool;
  quality_watch : bool; flag_tail_risk : bool;
  supply : Q; labor : Q; quality : Q; competition : Q;
  finance : Q; regulation : Q; tech : Q; weather : Q }.

Record StatePnl := mkStatePnl {
  sp_revenue : Q; sp_cogs : Q; sp_gm_percent : Q;
  sp_opex : Q; sp_net : Q; sp_cash : Q }.

Record Kpis := mkKpis {
  share_percent : Q; service_nps : Q; kpi_morale : Q; backlog_units : Q }.

Record Pressures := mkPressures { margin_push : bool }.
Record Headroom := mkHeadroom { ot_pct : Q; temps_allowed : bool }.

(** The state as [resolveTurn] reads it.  [st_financials] is the property
    outside the schema that [getPrevBalanceFromState] looks up. *)
Record State := mkState {
  st_turn_no : Q;
  st_period : option string;
  st_pnl : option StatePnl;
  st_kpis : option Kpis;
  st_event : LegacyEvent;
  morale : Q;
  credibility : Q;
  backlog : Q;
  service : Q;
  share : Q;
  cash_runway : Q;
  flags : Flags;
  pressures : Pressures;
  headroom : Headroom;
  recent_moves : list string;
  tail_risk : option Q;
  shock_decay : option Q;
  reward_decay : option Q;
  ceo_credibility : option Q;
  active_shocks : option (list ActiveEvent);
  active_rewards : option (list ActiveEvent);
  st_notes : option (list string);
  st_financials : option FinancialSnapshot }.

(** The six metrics of [deltas] and [applied_deltas]. *)
Record Deltas := mkDeltas {
  d_morale : Q; d_credibility : Q; d_backlog : Q;
  d_service : Q; d_share : Q; d_cash_runway : Q }.

Record TurnResult := mkTurnResult {
  tr_turn_no : Q;
  state_before : State;
  state_after : State;
  declaration : string;
  tr_assessment : Assessment;
  tr_signals : Signals;
  tr_event : EvaluatorEvent;
  tr_integrated : Integrated;
  tr_penalties : Penalties;
  tr_policy : PolicyBlock;
  deltas : Deltas;
  applied_deltas : Deltas;
  financials : FinancialSnapshot;
  explainers_finance : list string;
  narrative : string;
  quotes : list string }.
(** ** Module-level constants and helpers of [engine.ts] *)

(** Finance defaults (deterministic, conservative). *)
Definition FINANCE_PARAMS_DEFAULT : FinancialParams :=
  {| period_days := 30;
     min_cash_buffer := 250000;
     depreciation_life_years := 5;
     price_to_units := 0;
     morale_to_units := 0;
     credibility_to_price := 0;
     scrap_rate := Some 0 |}.

(** Deterministic starting balance if absent in state. *)
Definition STARTING_BALANCE : MiniBalanceSheet :=
  {| cash := 1000000; ar := 250000; inventory := 300000; ppe := 2000000;
     ap := 200000; debt := 0; retained_earnings := 1350000;
     other_equity := 1700000 |}.

(** Conservative baseline drivers. *)
Definition BASELINE_DRIVERS : FinancialDrivers :=
  {| units_sold := 10000; avg_price := 100; unit_cost := 60;
     opex_base := 300000; capex_base := 50000;
     dso := 30; dpo := 30; dio := 45 |}.

Definition clamp (x lo hi : Q) : Q := JS.Math_min hi (JS.Math_max lo x).


Definition sgn (d : Direction) : Q :=
  match d with up => 1 | down => -1 | none => 0 end.

(** FNV-1a over the code units, on unsigned 32-bit integers
    ([Math.imul] and [>>> 0]). *)
Fixpoint hashStr_loop (s : string) (h : Z) : Z :=
  match s with
  | EmptyString => h
  | String c s' =>
      hashStr_loop s' ((Z.lxor h (JS.charCode c) * 16777619) mod 2 ^ 32)%Z
  end.

Definition hashStr (s : string) : Z := hashStr_loop s 2166136261%Z.

(** KPI -> driver elasticities (per unit of normalized strength 0..1). *)
Definition COEF_morale_to_units : Q := 6 # 100.
Definition COEF_cred_to_price : Q := 2 # 100.
Definition COEF_backlog_to_units : Q := - (8 # 100).
Definition COEF_service_to_returns : Q := 3 # 100.
Definition COEF_service_to_dso_days : Q := 3.
Definition COEF_backlog_to_dio_days : Q := 4.
Definition COEF_supplyFragile_to_dio : Q := 3.
Definition COEF_regProbe_to_dso : Q := 2.

(** Floors and ceilings for the drivers computed each turn. *)
Definition units_min : Q := 100.
Definition units_max : Q := 1000000.
Definition price_min : Q := 10.
Definition price_max : Q := 10000.
Definition cost_min : Q := 5.
Definition cost_max : Q := 9999.
Definition dso_min : Q := 5.
Definition dso_max : Q := 90.
Definition dpo_min : Q := 5.
Definition dpo_max : Q := 90.
Definition dio_min : Q := 5.
Definition dio_max : Q := 120.
Definition capex_min : Q := 0.
Definition capex_max : Q := 5000000.

(** ** The engine ([engine.ts]) *)

Module Engine.
Import JS.

(** *** Hashing *)

(** [ToInt32]. *)
Definition wrap32 (z : Z) : Z := ((z + 2 ^ 31) mod 2 ^ 32 - 2 ^ 31)%Z.

(** One round of [hashString]: [hash = ((hash << 5) - hash) + char], then
    [hash = hash & hash]. *)
Fixpoint hashString_loop (s : string) (hash : Z) : Z :=
  match s with
  | EmptyString => hash
  | String c s' =>
      hashString_loop s'
        (wrap32 (wrap32 (hash * 32) - hash + JS.charCode c))%Z
  end.

Definition hashString (str : string) : Z := Z.abs (hashString_loop str 0%Z).

(** *** Event generation *)

Definition categories : list string :=
  ["supply"; "labor"; "quality"; "competition";
   "finance"; "regulation"; "tech"; "weather"].

Definition tierFromRoll (r : Q) : Z :=
  if JS.leb r 40 then 0
  else if JS.leb r 80 then 1
  else if JS.leb r 96 then 2
  else 3.

Definition no_effects : Effects :=
  {| revenue_delta := 0; cogs_delta := 0; opex_delta := 0; cash_delta := 0;
     share_delta := 0; nps_delta := 0; morale_delta := 0; backlog_delta := 0;
     effect_notes := "" |}.

Record Shock := mkShock {
  shock_name : string;
  shock_effects : Effects;
  shock_flag_bump : Q;
  shock_tail_risk_bump : Q }.

(** A row of the shock table: the deltas that the branch assigns, in the
    order revenue, cogs, opex, cash, share, nps, morale, backlog. *)
Definition shock (nm : string) (rev cg ox ch sh nps mor bl fb : Q) (tr : Q)
    : Shock :=
  {| shock_name := nm;
     shock_effects :=
       {| revenue_delta := rev; cogs_delta := cg; opex_delta := ox;
          cash_delta := ch; share_delta := sh; nps_delta := nps;
          morale_delta := mor; backlog_delta := bl; effect_notes := "" |};
     shock_flag_bump := fb;
     shock_tail_risk_bump := tr |}.

Definition no_shock : Shock :=
  {| shock_name := ""; shock_effects := no_effects;
     shock_flag_bump := 0; shock_tail_risk_bump := 0 |}.

Definition applyShock (cat : string) (tier : Z) : Shock :=
  if (tier =? 0)%Z then
    {| shock_name := ("Thin ice (" ++ cat ++ ")")%string;
       shock_effects :=
         {| revenue_delta := 0; cogs_delta := 0; opex_delta := 0;
            cash_delta := 0; share_delta := 0; nps_delta := 0;
            morale_delta := 0; backlog_delta := 0;
            effect_notes := "No immediate hit, but jitters build." |};
       shock_flag_bump := 2 # 100;
       shock_tail_risk_bump := 1 |}
  else if String.eqb cat "supply" then
    if (tier =? 1)%Z then
      shock "Port delay on batteries"
        (-(6#10)) (1#10) 0 0 0 0 (-2) 1200 (8#100) 5
    else if (tier =? 2)%Z then
      shock "Tier-2 vendor outage (motors)"
        (-(15#10)) (4#10) 0 0 0 0 (-4) 3000 (15#100) 10
    else if (tier =? 3)%Z then
      shock "Factory shutdown (safety inspection)"
        (-3) (8#10) 0 0 0 0 (-8) 6000 (25#100) 15
    else no_shock
  else if String.eqb cat "labor" then
    if (tier =? 1)%Z then
      shock "Skilled assembler attrition tick up"
        0 (2#10) (1#10) 0 0 0 (-3) 500 (7#100) 5
    else if (tier =? 2)%Z then
      shock "Shift walkouts"
        (-1) (3#10) 0 0 0 0 (-8) 2500 (12#100) 10
    else if (tier =? 3)%Z then
      shock "Union strike notice"
        (-2) 0 (3#10) 0 0 0 (-12) 5000 (2#10) 15
    else no_shock
  else if String.eqb cat "quality" then
    if (tier =? 1)%Z then
      shock "Spike in warranty claims (starter cord)"
        0 0 (2#10) 0 (-(2#10)) (-4) 0 0 (6#100) 4
    else if (tier =? 2)%Z then
      shock "Limited recall (blade hub)"
        (-(7#10)) 0 (6#10) 0 (-(6#10)) (-8) 0 0 (12#100) 9
    else if (tier =? 3)%Z then
      shock "Major recall (battery fire risk)"
        (-(25#10)) 0 (12#10) 0 (-(15#10)) (-15) 0 0 (25#100) 16
    else no_shock
  else if String.eqb cat "competition" then
    if (tier =? 1)%Z then
      shock "Rival promo blitz at big-box"
        (-(5#10)) 0 0 0 (-(4#10)) 0 0 0 (6#100) 5
    else if (tier =? 2)%Z then
      shock "Competitor exclusive shelf at key retailer"
        (-(12#10)) 0 0 0 (-(9#10)) 0 0 0 (1#10) 9
    else if (tier =? 3)%Z then
      shock "New entrant undercuts with ultra-low price"
        (-2) 0 0 0 (-(15#10)) 0 0 0 (16#100) 12
    else no_shock
  else if String.eqb cat "finance" then
    if (tier =? 1)%Z then
      shock "Credit insurer tightens terms"
        0 0 (1#10) (-(5#10)) 0 0 0 0 (5#100) 6
    else if (tier =? 2)%Z then
      shock "Working capital squeeze"
        (-(4#10)) 0 (2#10) (-1) 0 0 0 0 (1#10) 10
    else if (tier =? 3)%Z then
      shock "Credit line cap reduced"
        (-(8#10)) 0 0 (-2) 0 0 0 0 (15#100) 14
    else no_shock
  else if String.eqb cat "regulation" then
    if (tier =? 1)%Z then
      shock "Noise standard scrutiny"
        0 0 (1#10) 0 0 0 0 0 (4#100) 5
    else if (tier =? 2)%Z then
      shock "New emissions testing backlog"
        (-(6#10)) 0 (2#10) 0 0 0 0 0 (8#100) 10
    else if (tier =? 3)%Z then
      shock "Sudden compliance rule change"
        (-(15#10)) 0 (7#10) 0 0 0 0 0 (15#100) 15
    else no_shock
  else if String.eqb cat "tech" then
    if (tier =? 1)%Z then
      shock "Firmware bug causing false error codes"
        0 0 (2#10) 0 0 (-3) 0 0 (6#100) 6
    else if (tier =? 2)%Z then
      shock "Connectivity outage in smart models"
        (-(5#10)) 0 (3#10) 0 0 (-6) 0 0 (1#10) 10
    else if (tier =? 3)%Z then
      shock "Cyber incident at supplier"
        (-(15#10)) 0 (4#10) (-(5#10)) 0 0 0 0 (18#100) 14
    else no_shock
  else if String.eqb cat "weather" then
    if (tier =? 1)%Z then
      shock "Mild week reduces weekend traffic"
        (-(3#10)) 0 0 0 0 0 0 0 (4#100) 3
    else if (tier =? 2)%Z then
      shock "Unseasonal rains dampen sales"
        (-(9#10)) 0 0 0 0 0 0 0 (8#100) 7
    else if (tier =? 3)%Z then
      shock "Storm disrupts regional distribution"
        (-(16#10)) 0 0 0 0 0 0 1000 (12#100) 10
    else no_shock
  else no_shock.

Record Reward := mkReward { reward_name : string; reward_effects : Effects }.

(** A row of the reward table, the deltas in the same order. *)
Definition reward (nm : string) (rev cg ox ch sh nps mor bl : Q) : Reward :=
  {| reward_name := nm;
     reward_effects :=
       {| revenue_delta := rev; cogs_delta := cg; opex_delta := ox;
          cash_delta := ch; share_delta := sh; nps_delta := nps;
          morale_delta := mor; backlog_delta := bl; effect_notes := "" |} |}.

Definition no_reward : Reward :=
  {| reward_name := ""; reward_effects := no_effects |}.

Definition applyReward (cat : string) (tier : Z) : Reward :=
  if (tier =? 0)%Z then
    {| reward_name := ("Quiet tailwind (" ++ cat ++ ")")%string;
       reward_effects :=
         {| revenue_delta := 0; cogs_delta := 0; opex_delta := 0;
            cash_delta := 0; share_delta := 0; nps_delta := 0;
            morale_delta := 0; backlog_delta := 0;
            effect_notes := "No obvious bump, but teams feel a breeze." |} |}
  else if String.eqb cat "supply" then
    if (tier =? 1)%Z then
      reward "Vendor early shipment"
        (4#10) 0 0 0 0 0 0 (-800)
    else if (tier =? 2)%Z then
      reward "Bulk buy discount"
        0 (-(4#10)) 0 (-(4#10)) 0 0 0 0
    else if (tier =? 3)%Z then
      reward "Windfall allocation ahead of rivals"
        (12#10) (-(3#10)) 0 0 0 0 0 (-1500)
    else no_reward
  else if String.eqb cat "labor" then
    if (tier =? 1)%Z then
      reward "Productivity surge"
        0 (-(2#10)) 0 0 0 0 3 0
    else if (tier =? 2)%Z then
      reward "Referral hiring wave"
        0 0 (1#10) 0 0 0 4 (-1200)
    else if (tier =? 3)%Z then
      reward "Breakthrough training effect"
        0 (-(5#10)) 0 0 0 0 6 (-2000)
    else no_reward
  else if String.eqb cat "quality" then
    if (tier =? 1)%Z then
      reward "Glowing third-party review"
        0 0 0 0 (3#10) 4 0 0
    else if (tier =? 2)%Z then
      reward "Warranty claims drop"
        0 0 (-(3#10)) 0 0 5 0 0
    else if (tier =? 3)%Z then
      reward "Industry award for reliability"
        0 0 0 0 (8#10) 8 0 0
    else no_reward
  else if String.eqb cat "competition" then
    if (tier =? 1)%Z then
      reward "Rival stumbles on logistics"
        (4#10) 0 0 0 (3#10) 0 0 0
    else if (tier =? 2)%Z then
      reward "Exclusive endcap placement"
        (9#10) 0 0 0 (7#10) 0 0 0
    else if (tier =? 3)%Z then
      reward "Retailer co-op funds bonus"
        1 0 (-(5#10)) (3#10) 0 0 0 0
    else no_reward
  else if String.eqb cat "finance" then
    if (tier =? 1)%Z then
      reward "FX tailwind"
        (3#10) 0 0 0 0 0 0 0
    else if (tier =? 2)%Z then
      reward "Tax credit approval"
        0 0 0 (8#10) 0 0 0 0
    else if (tier =? 3)%Z then
      reward "Favorable credit facility"
        0 0 0 (15#10) 0 0 0 0
    else no_reward
  else if String.eqb cat "regulation" then
    if (tier =? 1)%Z then
      reward "Grant for electrification"
        0 0 0 (5#10) 0 0 0 0
    else if (tier =? 2)%Z then
      reward "Certification fast-track"
        (6#10) 0 0 0 0 0 0 (-800)
    else if (tier =? 3)%Z then
      reward "Tariff relief"
        0 (-(6#10)) 0 0 0 0 0 0
    else no_reward
  else if String.eqb cat "tech" then
    if (tier =? 1)%Z then
      reward "Firmware optimization"
        0 (-(1#10)) 0 0 0 2 0 0
    else if (tier =? 2)%Z then
      reward "Manufacturing automation tweak"
        0 (-(3#10)) 0 0 0 0 0 0
    else if (tier =? 3)%Z then
      reward "Breakthrough battery yield"
        (8#10) (-(4#10)) 0 0 0 0 0 0
    else no_reward
  else if String.eqb cat "weather" then
    if (tier =? 1)%Z then
      reward "Sunny weekend surge"
        (3#10) 0 0 0 0 0 0 0
    else if (tier =? 2)%Z then
      reward "Early growth season"
        (8#10) 0 0 0 0 0 0 0
    else if (tier =? 3)%Z then
      reward "Prolonged mowing season"
        (12#10) 0 0 0 0 0 0 0
    else no_reward
  else no_reward.

(** Property access on a JSON value ([undefined] is [None]). *)
Definition field (k : string) (v : json) : option json :=
  match v with JObj o => JS.get k o | _ => None end.

Definition opt_field (k : string) (v : option json) : option json :=
  match v with Some w => field k w | None => None end.

Definition as_num (v : option json) : option Q :=
  match v with Some (JNum q) => Some q | _ => None end.

(** [v && v < bound] and [v && v > bound] for an optional number. *)
Definition truthy_lt (v : option Q) (bound : Q) : bool :=
  match v with
  | Some q => negb (JS.eqb q 0) && JS.ltb q bound
  | None => false
  end.
Definition truthy_gt (v : option Q) (bound : Q) : bool :=
  match v with
  | Some q => negb (JS.eqb q 0) && JS.gtb q bound
  | None => false
  end.

Definition generateHints (state : json) (category : string) (tier : Z)
    : list string :=
  let flagValue := as_num (opt_field category (field "flags" state)) in
  let kpis := field "kpis" state in
  let pnl := field "pnl" state in
  (match flagValue with
   | Some q => if JS.gtb q (1 # 10)
               then [(category ++ "_pressure")%string] else []
   | None => []
   end)
  ++ (if truthy_lt (as_num (opt_field "morale" kpis)) 60
      then ["morale_low"] else [])
  ++ (if truthy_gt (as_num (opt_field "backlog_units" kpis)) 8000
      then ["backlog_high"] else [])
  ++ (if truthy_lt (as_num (opt_field "cash" pnl)) 5
      then ["cash_tight"] else [])
  ++ (if truthy_gt (as_num (field "tail_risk" state)) 20
      then ["tail_risk_elevated"] else []).

(** The sum of the numeric pressure flags, as the [filter]/[reduce] of
    lines 97-99 computes it, from left to right.  The sum is exact here;
    the program's floating-point sum can depend on the order of the
    flags in its last bit. *)
Definition flagSum (flags : JS.obj json) : Q :=
  fold_left
    (fun sum kv => sum + match snd kv with JNum q => q | _ => 0 end)
    (filter (fun kv => existsb (String.eqb (fst kv)) categories) flags)
    0.

(** What the generator reads of a state besides its serialisation. *)
Record Readings := mkReadings {
  rd_flags : JS.obj json;
  rd_morale : Q;
  rd_backlog : Q;
  rd_cash : Q }.

(** The reads of lines 97-106.  A state that lacks [flags] or one of the
    required numbers is outside the [State] type: [None]. *)
Definition readings (state : json) : option Readings :=
  match field "flags" state,
        as_num (field "morale" state),
        as_num (field "backlog" state),
        as_num (field "cash_runway" state) with
  | Some (JObj fl), Some m, Some b, Some c =>
      Some {| rd_flags := fl;
              rd_morale :=
                JS.or_undef (as_num (opt_field "morale" (field "kpis" state)))
                            m;
              rd_backlog :=
                JS.or_undef
                  (as_num (opt_field "backlog_units" (field "kpis" state))) b;
              rd_cash :=
                JS.or_undef (as_num (opt_field "cash" (field "pnl" state)))
                            (c * (5 # 10)) |}
  | _, _, _, _ => None
  end.

Definition shockPressure (rd : Readings) : Q :=
  let p0 := JS.Math_round (flagSum (rd_flags rd) * 20) in
  let p1 := if JS.ltb (rd_morale rd) 60 then p0 + 5 else p0 in
  let p2 := if JS.gtb (rd_backlog rd) 8000 then p1 + 5 else p1 in
  let p3 := if JS.ltb (rd_cash rd) 5 then p2 + 5 else p2 in
  JS.Math_min p3 20.

(** The hash input of line 115. *)
Definition hashInput (state : json) (turnIndex : Q) : string :=
  (JS.JSON_stringify state ++ JS.Number_toString turnIndex)%string.

Definition generateEnhancedRngEvent (state : json) (turnIndex : Q)
    : option RngEvent :=
  match readings state with
  | None => None
  | Some rd =>
      let pressure := shockPressure rd in
      (* deterministic rolls *)
      let seed := hashString (hashInput state turnIndex) in
      let shockRollRaw := inject_Z (seed mod 100 + 1) in
      let rewardRollRaw := inject_Z ((seed * 7) mod 100 + 1) in
      let rollWithPressure := JS.Math_min 100 (shockRollRaw + pressure) in
      let shockTier := tierFromRoll rollWithPressure in
      let rewardTier := tierFromRoll rewardRollRaw in
      let shockCat :=
        nth (Z.to_nat (seed mod 8)) categories "" in
      let rewardCat :=
        nth (Z.to_nat ((seed * 3) mod 8)) categories "" in
      let shockEvent := applyShock shockCat shockTier in
      let rewardEvent := applyReward rewardCat rewardTier in
      (* the shock event is the event of the turn; the reward event is
         not returned *)
      Some {| roll := shockRollRaw;
              event_type := shockCat;
              tier := JS.string_of_Z shockTier;
              name := shock_name shockEvent;
              effects := shock_effects shockEvent;
              flag_bump := shock_flag_bump shockEvent;
              tail_risk_bump := shock_tail_risk_bump shockEvent;
              hints := generateHints state shockCat shockTier |}
  end.

Definition generateRngEvent (state : json) (turnIndex : Q)
    : option RngEvent :=
  generateEnhancedRngEvent state turnIndex.


(** *** Signal resolution *)

(** Context modifications based on flags. *)
Definition with_morale_credibility (s : State) (m c : Q) : State :=
  {| st_turn_no := st_turn_no s; st_period := st_period s;
     st_pnl := st_pnl s; st_kpis := st_kpis s; st_event := st_event s;
     morale := m; credibility := c;
     backlog := backlog s; service := service s; share := share s;
     cash_runway := cash_runway s; flags := flags s;
     pressures := pressures s; headroom := headroom s;
     recent_moves := recent_moves s; tail_risk := tail_risk s;
     shock_decay := shock_decay s; reward_decay := reward_decay s;
     ceo_credibility := ceo_credibility s;
     active_shocks := active_shocks s; active_rewards := active_rewards s;
     st_notes := st_notes s; st_financials := st_financials s |}.

Definition applyContextMods (state : State) : State :=
  (* Labor tense affects morale and credibility *)
  let '(m1, c1) :=
    if labor_tense (flags state)
    then (Math_min 100 (morale state * (12 # 10)),
          Math_max 0 (credibility state * (9 # 10)))
    else (morale state, credibility state) in
  (* High morale decay *)
  let m2 := if gtb m1 85 then Math_max 0 (m1 * (8 # 10)) else m1 in
  with_morale_credibility state m2 c1.

(** The four entries of [legacySignals], in the order of the literal. *)
Definition legacySignals (signals : Signals) : obj DirStrength :=
  [("morale", sig_morale signals);
   ("credibility", sig_credibility signals);
   ("backlog", sig_backlog_pressure signals);
   ("service", sig_service_risk signals)].

(** The callback of the [forEach] over the legacy signals. *)
Definition ceoSignalStep (state : State) (caps : Caps) (deltas : obj Q)
    (entry : string * DirStrength) : obj Q :=
  let '(key, signal) := entry in
  match dir signal with
  | none => set key 0 deltas
  | d =>
      let sign := match d with up => 1 | _ => -1 end in
      let strength := strength signal in
      if String.eqb key "backlog" then
        let unitsDelta := Math_round (strength * 250) * sign in
        let supplyMod :=
          if supply_fragile (flags state) then 12 # 10 else 1 in
        set key (unitsDelta * supplyMod) deltas
      else
        let cap := or_undef (Caps_get caps key) 1 in
        set key (strength * cap * sign) deltas
  end.

Definition applyCEOSignals (signals : Signals) (state : State) (caps : Caps)
    : obj Q :=
  fold_left (ceoSignalStep state caps) (legacySignals signals) [].

(** [Object.entries] of the impact channels: the properties that are
    present, in the order of the schema. *)
Definition impact_entries (ic : ImpactChannels)
    : list (string * option DirStrength) :=
  [("morale", ic_morale ic);
   ("credibility", ic_credibility ic);
   ("backlog_pressure", ic_backlog_pressure ic);
   ("service_risk", ic_service_risk ic)].

(** The callback of the [forEach] over the impact channels. *)
Definition eventImpactStep (state : State) (caps : Caps) (deltas : obj Q)
    (entry : string * option DirStrength) : obj Q :=
  let '(key, osignal) := entry in
  match osignal with
  | None => deltas
  | Some signal =>
      match dir signal with
      | none => deltas
      | d =>
          let sign := match d with up => 1 | _ => -1 end in
          let strength := strength signal in
          (* Map event impact keys to state keys *)
          let stateKey :=
            if String.eqb key "backlog_pressure" then "backlog"
            else if String.eqb key "service_risk" then "service"
            else key in
          if String.eqb stateKey "backlog" then
            let unitsDelta := Math_round (strength * 200) * sign in
            let supplyMod :=
              if supply_fragile (flags state) then 13 # 10 else 1 in
            set stateKey
              (or_undef (get stateKey deltas) 0 + unitsDelta * supplyMod)
              deltas
          else
            let cap := or_undef (Caps_get caps key) 1 in
            set stateKey
              (or_undef (get stateKey deltas) 0
               + strength * cap * sign * (8 # 10))
              deltas
      end
  end.

Definition applyEventImpact (eventImpact : ImpactChannels) (state : State)
    (caps : Caps) : obj Q :=
  fold_left (eventImpactStep state caps) (impact_entries eventImpact) [].

Definition applyNonsensePenalty (nonsensePenalty : Q) (state : State)
    (caps : Caps) : obj Q :=
  if leb nonsensePenalty 0 then []
  else
    let penaltyCap := cap_credibility caps * (2 # 10) in
    let credibilityPenalty := - nonsensePenalty * penaltyCap in
    let moralePenalty :=
      if ltb (credibility state) 50
      then - nonsensePenalty * cap_morale caps * (1 # 10) else 0 in
    [("credibility", credibilityPenalty); ("morale", moralePenalty)].

(** [combined[key] = (combined[key] || 0) + delta] for every entry. *)
Definition merge_deltas (combined extra : obj Q) : obj Q :=
  fold_left
    (fun acc entry =>
       set (fst entry) (or_undef (get (fst entry) acc) 0 + snd entry) acc)
    extra combined.

Definition applySignals (evaluatorOutput : EvaluatorOutput) (state : State)
    (caps : Caps) : obj Q :=
  let ceoDeltas := applyCEOSignals (eo_signals evaluatorOutput) state caps in
  let eventDeltas :=
    applyEventImpact (impact_channels (eo_event evaluatorOutput))
                     state caps in
  let penaltyDeltas :=
    applyNonsensePenalty (nonsense_penalty (eo_penalties evaluatorOutput))
                         state caps in
  merge_deltas (merge_deltas ceoDeltas eventDeltas) penaltyDeltas.

Definition zero_deltas : Deltas :=
  {| d_morale := 0; d_credibility := 0; d_backlog := 0;
     d_service := 0; d_share := 0; d_cash_runway := 0 |}.

(** [applied[key] = clamped] when [key in applied]. *)
Definition assign_delta (key : string) (v : Q) (a : Deltas) : Deltas :=
  if String.eqb key "morale" then
    mkDeltas v (d_credibility a) (d_backlog a) (d_service a) (d_share a)
             (d_cash_runway a)
  else if String.eqb key "credibility" then
    mkDeltas (d_morale a) v (d_backlog a) (d_service a) (d_share a)
             (d_cash_runway a)
  else if String.eqb key "backlog" then
    mkDeltas (d_morale a) (d_credibility a) v (d_service a) (d_share a)
             (d_cash_runway a)
  else if String.eqb key "service" then
    mkDeltas (d_morale a) (d_credibility a) (d_backlog a) v (d_share a)
             (d_cash_runway a)
  else if String.eqb key "share" then
    mkDeltas (d_morale a) (d_credibility a) (d_backlog a) (d_service a) v
             (d_cash_runway a)
  else if String.eqb key "cash_runway" then
    mkDeltas (d_morale a) (d_credibility a) (d_backlog a) (d_service a)
             (d_share a) v
  else a.

(** The cap that [clampDeltas] picks for a key. *)
Definition cap_for (caps : Caps) (key : string) : Q :=
  if String.eqb key "morale" then cap_morale caps
  else if String.eqb key "credibility" then cap_credibility caps
  else if String.eqb key "service" then cap_service_risk caps
  else if String.eqb key "backlog" then cap_backlog_pressure caps * 250
  else if String.eqb key "share" then cap_backlog_pressure caps
  else if String.eqb key "cash_runway" then cap_backlog_pressure caps
  else 1.

Definition clampDeltas (deltas : obj Q) (state : State) (caps : Caps)
    : Deltas :=
  fold_left
    (fun applied entry =>
       let '(key, delta) := entry in
       let cap := cap_for caps key in
       let clamped := Math_max (- cap) (Math_min cap delta) in
       assign_delta key clamped applied)
    deltas zero_deltas.

(** *** Turn resolution *)

Definition is_up (d : Direction) : bool :=
  match d with up => true | _ => false end.

(** [l.slice(-n)]. *)
Definition slice_last {A} (n : nat) (l : list A) : list A :=
  skipn (List.length l - n) l.

(** Helper to get previous balance from state or use starting balance. *)
Definition getPrevBalanceFromState (state : State) : MiniBalanceSheet :=
  match st_financials state with
  | Some f => balance f
  | None => STARTING_BALANCE
  end.

(** The patterns of [detectCashSpending], in the order they are tried. *)
Definition rx_number : RegExp.regex :=
  RegExp.Group
    (RegExp.Seq (RegExp.Plus RegExp.Digit)
       (RegExp.Opt (RegExp.Seq (RegExp.Chr ".") (RegExp.Plus RegExp.Digit)))).

Definition rx_ws : RegExp.regex := RegExp.Star RegExp.Space.

Definition rx_seq (l : list RegExp.regex) : RegExp.regex :=
  fold_right RegExp.Seq RegExp.Eps l.

Definition rx_amount (unit_words : list string) : RegExp.regex :=
  rx_seq [rx_number; rx_ws; RegExp.Alts unit_words; rx_ws;
          RegExp.Alts ["in"; "on"; "for"; "to"]; rx_ws;
          RegExp.Alts ["employee"; "staff"; "bonus"; "bonuses"]].

Definition rx_of_our_cash : list RegExp.regex :=
  [rx_ws; RegExp.Opt (RegExp.Seq (RegExp.Lit "of") rx_ws);
   RegExp.Opt (RegExp.Seq (RegExp.Lit "our") rx_ws);
   RegExp.Alts ["cash"; "money"]].

Definition rx_percent : RegExp.regex :=
  rx_seq ([RegExp.Alts ["spend"; "use"; "give"]; rx_ws; rx_number;
           RegExp.Chr "%"] ++ rx_of_our_cash).

Definition rx_all : RegExp.regex :=
  rx_seq ([RegExp.Alts ["spend"; "use"; "give"]; rx_ws;
           RegExp.Alts ["all"; "100%"]] ++ rx_of_our_cash).

Record CashPattern := mkCashPattern {
  pattern : RegExp.regex; multiplier : Q; isPercentage : bool }.

Definition cashPatterns : list CashPattern :=
  [ mkCashPattern (rx_amount ["million"; "m"]) 1000000 false;
    mkCashPattern (rx_amount ["thousand"; "k"]) 1000 false;
    mkCashPattern (rx_amount ["billion"; "b"]) 1000000000 false;
    mkCashPattern rx_percent 1 true;
    mkCashPattern rx_all 1 true ].

Fixpoint firstCashMatch (ps : list CashPattern) (lowerDecl : string) : Q :=
  match ps with
  | [] => 0
  | p :: ps' =>
      match RegExp.search (pattern p) lowerDecl with
      | Some m =>
          if isPercentage p then
            match m with
            | Some text => parseFloat text / 100
            | None => 1
            end
          else
            match m with
            | Some text => parseFloat text * multiplier p
            | None => 0
            end
      | None => firstCashMatch ps' lowerDecl
      end
  end.

(** Detect direct cash spending declarations. *)
Definition detectCashSpending (declaration : string)
    (evaluatorOutput : EvaluatorOutput) : Q :=
  firstCashMatch cashPatterns (toLowerCase declaration).

Definition set_units_sold (d : FinancialDrivers) (v : Q) : FinancialDrivers :=
  mkDrivers v (avg_price d) (unit_cost d) (opex_base d) (capex_base d)
            (dso d) (dpo d) (dio d).
Definition set_avg_price (d : FinancialDrivers) (v : Q) : FinancialDrivers :=
  mkDrivers (units_sold d) v (unit_cost d) (opex_base d) (capex_base d)
            (dso d) (dpo d) (dio d).
Definition set_unit_cost (d : FinancialDrivers) (v : Q) : FinancialDrivers :=
  mkDrivers (units_sold d) (avg_price d) v (opex_base d) (capex_base d)
            (dso d) (dpo d) (dio d).
Definition set_capex_base (d : FinancialDrivers) (v : Q) : FinancialDrivers :=
  mkDrivers (units_sold d) (avg_price d) (unit_cost d) (opex_base d) v
            (dso d) (dpo d) (dio d).
Definition set_days (d : FinancialDrivers) (s p i : Q) : FinancialDrivers :=
  mkDrivers (units_sold d) (avg_price d) (unit_cost d) (opex_base d)
            (capex_base d) s p i.
Definition set_dio (d : FinancialDrivers) (v : Q) : FinancialDrivers :=
  mkDrivers (units_sold d) (avg_price d) (unit_cost d) (opex_base d)
            (capex_base d) (dso d) (dpo d) v.
Definition set_scrap_rate (p : FinancialParams) (v : Q) : FinancialParams :=
  mkParams (period_days p) (min_cash_buffer p) (depreciation_life_years p)
           (price_to_units p) (morale_to_units p) (credibility_to_price p)
           (Some v).

(** [sgn(signal.dir) * (signal.strength || 0)]. *)
Definition signed (s : DirStrength) : Q := sgn (dir s) * or_num (strength s) 0.

(** The drivers and parameters of the turn (lines 744-853): the baselines
    moved by the signals, the flags, the event and the penalty, together
    with the explainers pushed on the way. *)
Definition turnDrivers (state : State) (declaration : string)
    (evaluatorOutput : EvaluatorOutput)
    : FinancialDrivers * FinancialParams * list string :=
  let signals := eo_signals evaluatorOutput in
  let drivers0 := BASELINE_DRIVERS in
  let params0 := FINANCE_PARAMS_DEFAULT in
  let explainers0 : list string := [] in
  (* 3.1 CEO signals -> demand/price/ops adjustments *)
  let m := signed (sig_morale signals) in
  let '(drivers1, explainers1) :=
    if negb (eqb m 0) then
      (set_units_sold drivers0
         (units_sold drivers0 * (1 + COEF_morale_to_units * m)),
       explainers0
         ++ [if gtb m 0 then "Higher morale lifted throughput/demand"
             else "Lower morale softened throughput"])
    else (drivers0, explainers0) in
  let c := signed (sig_credibility signals) in
  let '(drivers2, explainers2) :=
    if negb (eqb c 0) then
      (set_avg_price drivers1
         (avg_price drivers1 * (1 + COEF_cred_to_price * c)),
       explainers1
         ++ [if gtb c 0 then "Rising credibility supported ASP"
             else "Credibility strain pressured pricing"])
    else (drivers1, explainers1) in
  let b := signed (sig_backlog_pressure signals) in
  let '(drivers3, explainers3) :=
    if negb (eqb b 0) then
      (set_units_sold drivers2
         (units_sold drivers2 * (1 + COEF_backlog_to_units * b)),
       explainers2
         ++ [if gtb b 0 then "Backlog pressure constrained fulfilled units"
             else "Easing backlog improved fulfillment"])
    else (drivers2, explainers2) in
  let s := signed (sig_service_risk signals) in
  let '(params1, explainers4) :=
    if negb (eqb s 0) then
      (set_scrap_rate params0
         (clamp (nullish (scrap_rate params0) 0
                 + COEF_service_to_returns * Math_max 0 s) 0 (25 # 100)),
       explainers3
         ++ [if gtb s 0 then "Service risk increased scrap/returns"
             else "Lower service risk reduced scrap/returns"])
    else (params0, explainers3) in
  (* Working capital effects (days), from the baseline days *)
  let dso0 := dso drivers3 in
  let dpo0 := dpo drivers3 in
  let dio0 := dio drivers3 in
  let dso1 := if gtb s 0 then dso0 + COEF_service_to_dso_days * s else dso0 in
  let dio1 := if gtb b 0 then dio0 + COEF_backlog_to_dio_days * b else dio0 in
  let '(dio2, explainers5) :=
    if supply_fragile (flags state)
    then (dio1 + COEF_supplyFragile_to_dio,
          explainers4 ++ ["Supply fragility extended inventory days"])
    else (dio1, explainers4) in
  let '(dso2, explainers6) :=
    if String.eqb (ev_event_type (eo_event evaluatorOutput)) "reg_probe"
    then (dso1 + COEF_regProbe_to_dso,
          explainers5 ++ ["Regulatory scrutiny stretched receivables"])
    else (dso1, explainers5) in
  (* clamp within bounds *)
  let drivers4 :=
    set_days drivers3 (clamp dso2 dso_min dso_max)
             (clamp dpo0 dpo_min dpo_max) (clamp dio2 dio_min dio_max) in
  (* Nonsense penalty -> small credibility/demand drag *)
  let pen :=
    Math_max 0
      (or_num (nonsense_penalty (eo_penalties evaluatorOutput)) 0) in
  let '(drivers5, explainers7) :=
    if gtb pen 0 then
      let h := hashStr declaration in
      let splitToUnits := (h mod 2 =? 0)%Z in
      if splitToUnits then
        (set_units_sold drivers4
           (units_sold drivers4 * (1 - (1 # 100) * pen)),
         explainers6 ++ ["Minor reputational drag softened demand"])
      else
        (set_avg_price drivers4
           (avg_price drivers4 * (1 - (1 # 100) * pen)),
         explainers6 ++ ["Minor reputational drag trimmed pricing power"])
    else (drivers4, explainers6) in
  (* Event impact channels *)
  let ic := impact_channels (eo_event evaluatorOutput) in
  let '(params2, explainers8) :=
    match ic_service_risk ic with
    | Some sr =>
        if is_up (dir sr) then
          (set_scrap_rate params1
             (clamp (nullish (scrap_rate params1) 0
                     + COEF_service_to_returns * or_num (strength sr) 0)
                    0 (25 # 100)),
           explainers7 ++ ["Event pressure raised service friction"])
        else (params1, explainers7)
    | None => (params1, explainers7)
    end in
  let '(drivers6, explainers9) :=
    match ic_backlog_pressure ic with
    | Some bp =>
        if is_up (dir bp) then
          let d' :=
            set_units_sold drivers5
              (units_sold drivers5
               * (1 + COEF_backlog_to_units * or_num (strength bp) 0)) in
          let dio3 :=
            clamp (dio2 + COEF_backlog_to_dio_days * or_num (strength bp) 0)
                  dio_min dio_max in
          (set_dio d' dio3,
           explainers8
             ++ ["Event constraints limited fulfillment and inventory turns"])
        else (drivers5, explainers8)
    | None => (drivers5, explainers8)
    end in
  (* Final clamping for core drivers *)
  let drivers7 :=
    set_units_sold drivers6
      (clamp (Math_round (units_sold drivers6)) units_min units_max) in
  let drivers8 :=
    set_avg_price drivers7 (clamp (avg_price drivers7) price_min price_max) in
  let drivers9 :=
    set_unit_cost drivers8 (clamp (unit_cost drivers8) cost_min cost_max) in
  (* capex policy *)
  let drivers10 :=
    if is_up (dir (sig_morale signals))
       && negb (is_up (dir (sig_backlog_pressure signals)))
    then set_capex_base drivers9
           (clamp (capex_base drivers9 * (105 # 100)) capex_min capex_max)
    else drivers9 in
  (drivers10, params2, explainers9).

(** The finance input of lines 855-860: no direct cash spending is
    handed over. *)
Definition turnFinanceInput (state : State) (declaration : string)
    (evaluatorOutput : EvaluatorOutput) : FinanceInput :=
  {| prev_balance := getPrevBalanceFromState state;
     drivers := fst (fst (turnDrivers state declaration evaluatorOutput));
     params := snd (fst (turnDrivers state declaration evaluatorOutput));
     policy := Some {| dividend := false; repay_debt := false |};
     direct_cash_spending := None |}.

(** The amount that a detected instruction spends: a value up to 1 is a
    share of the pre-turn cash, a larger one an absolute amount. *)
Definition directCashSpending (prevBalance : MiniBalanceSheet)
    (cashSpending : Q) : Q :=
  if leb cashSpending 1 then cash prevBalance * cashSpending
  else cashSpending.

(** [financials.balance.cash = v]. *)
Definition set_balance_cash (f : FinancialSnapshot) (v : Q)
    : FinancialSnapshot :=
  {| cash_open := cash_open f; pnl := pnl f; cashflow := cashflow f;
     balance :=
       {| cash := v; ar := ar (balance f); inventory := inventory (balance f);
          ppe := ppe (balance f); ap := ap (balance f);
          debt := debt (balance f);
          retained_earnings := retained_earnings (balance f);
          other_equity := other_equity (balance f) |};
     cash_close := cash_close f; balance_ok := balance_ok f;
     cash_recon_ok := cash_recon_ok f; notes := notes f |}.

(** Lines 864-879: a detected spending instruction lowers
    [financials.balance.cash], floored at zero, and pushes an explainer. *)
Definition applyDirectSpending (prevBalance : MiniBalanceSheet)
    (cashSpending : Q) (financials0 : FinancialSnapshot)
    (explainers : list string) : FinancialSnapshot * list string :=
  if gtb cashSpending 0 then
    let spend := directCashSpending prevBalance cashSpending in
    (set_balance_cash financials0
       (Math_max 0 (cash (balance financials0) - spend)),
     explainers
       ++ [("Direct cash expenditure: $"
              ++ toFixed 1 (spend / 1000000) ++ "M")%string])
  else (financials0, explainers).

Definition resolveTurn (caps : Caps) (state : State) (declaration : string)
    (evaluatorOutput : EvaluatorOutput) : TurnResult :=
  (* Apply context modifications *)
  let moddedState := applyContextMods state in
  (* Apply signals to get deltas *)
  let rawDeltas := applySignals evaluatorOutput moddedState caps in
  (* Clamp deltas to caps *)
  let appliedDeltas := clampDeltas rawDeltas moddedState caps in
  (* Create new state *)
  let turn_no' := st_turn_no moddedState + 1 in
  let morale' :=
    Math_max 0 (Math_min 100
      (morale moddedState + or_num (d_morale appliedDeltas) 0)) in
  let credibility' :=
    Math_max 0 (Math_min 100
      (credibility moddedState + or_num (d_credibility appliedDeltas) 0)) in
  let backlog' :=
    Math_max 0 (backlog moddedState + or_num (d_backlog appliedDeltas) 0) in
  let service' :=
    Math_max 0 (Math_min 100
      (service moddedState + or_num (d_service appliedDeltas) 0)) in
  let share' :=
    Math_max 0 (share moddedState + or_num (d_share appliedDeltas) 0) in
  let cash_runway' :=
    Math_max 0
      (cash_runway moddedState + or_num (d_cash_runway appliedDeltas) 0) in
  let recent_moves' :=
    slice_last 2 (slice_last 1 (recent_moves moddedState) ++ [declaration]) in
  (* Placeholder narrative and quotes *)
  let narrative :=
    ("Turn " ++ Number_toString turn_no'
       ++ " completed. The CEO's declaration " ++ dquote ++ declaration
       ++ dquote ++ " has been processed.")%string in
  let quotes :=
    ["CFO: We're monitoring the impact closely.";
     "Chair: The board is aligned with this direction.";
     "Ops: Execution is proceeding as planned."] in
  (* --- Compute financials for this turn --- *)
  let prevBalance := getPrevBalanceFromState state in
  let financeInput := turnFinanceInput state declaration evaluatorOutput in
  let explainers := snd (turnDrivers state declaration evaluatorOutput) in
  let financials0 := Finance.computeFinancials financeInput in
  (* Direct cash spending, applied AFTER the financial calculation *)
  let cashSpending := detectCashSpending declaration evaluatorOutput in
  let spent :=
    applyDirectSpending prevBalance cashSpending financials0 explainers in
  let financials1 := fst spent in
  let explainers' := snd spent in
  (* Update the new state with computed financials *)
  let newState :=
    {| st_turn_no := turn_no';
       st_period := st_period moddedState;
       st_pnl :=
         Some {| sp_revenue := revenue (pnl financials1) / 1000000;
                 sp_cogs := cogs (pnl financials1) / 1000000;
                 sp_gm_percent :=
                   gross_profit (pnl financials1)
                   / revenue (pnl financials1) * 100;
                 sp_opex := opex (pnl financials1) / 1000000;
                 sp_net := net_income (pnl financials1) / 1000000;
                 sp_cash := cash (balance financials1) / 1000000 |};
       st_kpis := st_kpis moddedState;
       st_event := st_event moddedState;
       morale := morale';
       credibility := credibility';
       backlog := backlog';
       service := service';
       share := share';
       cash_runway := cash_runway';
       flags := flags moddedState;
       pressures := pressures moddedState;
       headroom := headroom moddedState;
       recent_moves := recent_moves';
       tail_risk := tail_risk moddedState;
       shock_decay := shock_decay moddedState;
       reward_decay := reward_decay moddedState;
       ceo_credibility := ceo_credibility moddedState;
       active_shocks := active_shocks moddedState;
       active_rewards := active_rewards moddedState;
       st_notes := st_notes moddedState;
       st_financials := st_financials moddedState |} in
  {| tr_turn_no := turn_no';
     state_before := state;
     state_after := newState;
     declaration := declaration;
     tr_assessment := eo_assessment evaluatorOutput;
     tr_signals := eo_signals evaluatorOutput;
     tr_event := eo_event evaluatorOutput;
     tr_integrated := eo_integrated evaluatorOutput;
     tr_penalties := eo_penalties evaluatorOutput;
     tr_policy := eo_policy evaluatorOutput;
     deltas :=
       {| d_morale := or_undef (get "morale" rawDeltas) 0;
          d_credibility := or_undef (get "credibility" rawDeltas) 0;
          d_backlog := or_undef (get "backlog_pressure" rawDeltas) 0;
          d_service := or_undef (get "service_risk" rawDeltas) 0;
          d_share := or_undef (get "share" rawDeltas) 0;
          d_cash_runway := or_undef (get "cash_runway" rawDeltas) 0 |};
     applied_deltas := appliedDeltas;
     financials := financials1;
     explainers_finance := explainers';
     narrative := narrative;
     quotes := quotes |}.

(** *** Initial state *)

Definition event_categories : list string :=
  ["market"; "operational"; "financial"; "regulatory"; "competitive"].

Definition event_tiers : list string := ["low"; "medium"; "high"; "critical"].

(** Create the initial state of a run from its seed.  [hash] is a
    non-negative integer, on which [%] is [Z.modulo]. *)
Definition createInitialState (seed : string) : State :=
  let hash := hashString seed in
  {| st_turn_no := 0;
     st_period := Some "Sep 2025";
     (* Financial metrics *)
     st_pnl :=
       Some {| sp_revenue := 12; sp_cogs := 72 # 10; sp_gm_percent := 40;
               sp_opex := 38 # 10; sp_net := 1; sp_cash := 75 # 10 |};
     (* KPIs *)
     st_kpis :=
       Some {| share_percent := 84 # 10; service_nps := 74;
               kpi_morale := 66; backlog_units := 6000 |};
     (* Legacy event field *)
     st_event :=
       {| le_category := nth (Z.to_nat (hash mod 5)) event_categories "";
          le_tier := nth (Z.to_nat (hash mod 4)) event_tiers "" |};
     (* Legacy state fields *)
     morale := 75 + inject_Z (hash mod 20);
     credibility := 70 + inject_Z (hash mod 25);
     backlog := 1000 + inject_Z (hash mod 500);
     service := 85 + inject_Z (hash mod 15);
     share := 100 + inject_Z (hash mod 50);
     cash_runway := 18 + inject_Z (hash mod 12);
     flags :=
       {| supply_fragile := (hash mod 3 =? 0)%Z;
          labor_tense := (hash mod 4 =? 0)%Z;
          quality_watch := (hash mod 5 =? 0)%Z;
          flag_tail_risk := (hash mod 6 =? 0)%Z;
          supply := 1 # 10; labor := 5 # 100; quality := 0;
          competition := 1 # 10; finance := 0; regulation := 0;
          tech := 5 # 100; weather := 5 # 100 |};
     pressures := {| margin_push := (hash mod 3 =? 0)%Z |};
     headroom :=
       {| ot_pct := inject_Z (hash mod 20);
          temps_allowed := (hash mod 2 =? 0)%Z |};
     recent_moves := [];
     (* Enhanced fields *)
     tail_risk := Some 5;
     shock_decay := Some (1 # 10);
     reward_decay := Some (5 # 10);
     ceo_credibility := Some 72;
     active_shocks := Some [];
     active_rewards := Some [];
     st_notes := Some [];
     st_financials := None |}.

(** *** States as objects

    The object that a state is at run time, for the states that
    [createInitialState] builds and [resolveTurn] moves on: the properties
    come in the order of the literal of [createInitialState], which the
    spread and the assignments of [resolveTurn] keep, and an optional
    property that is undefined is absent.  [financials], which no code of
    the repository sets and which is outside the schema, is not part of
    it. *)

Definition opt_prop {A} (k : string) (enc : A -> json) (v : option A)
    : list (string * json) :=
  match v with Some x => [(k, enc x)] | None => [] end.

Definition effectsObject (e : Effects) : json :=
  JObj [("revenue_delta", JNum (revenue_delta e));
        ("cogs_delta", JNum (cogs_delta e));
        ("opex_delta", JNum (opex_delta e));
        ("cash_delta", JNum (cash_delta e));
        ("share_delta", JNum (share_delta e));
        ("nps_delta", JNum (nps_delta e));
        ("morale_delta", JNum (morale_delta e));
        ("backlog_delta", JNum (backlog_delta e));
        ("notes", JStr (effect_notes e))].

Definition activeEventObject (a : ActiveEvent) : json :=
  JObj [("category", JStr (ae_category a));
        ("tier", JNum (ae_tier a));
        ("name", JStr (ae_name a));
        ("effects", effectsObject (ae_effects a));
        ("decay", JStr (ae_decay a))].

Definition flagsObject (f : Flags) : json :=
  JObj [("supply_fragile", JBool (supply_fragile f));
        ("labor_tense", JBool (labor_tense f));
        ("quality_watch", JBool (quality_watch f));
        ("tail_risk", JBool (flag_tail_risk f));
        ("supply", JNum (supply f));
        ("labor", JNum (labor f));
        ("quality", JNum (quality f));
        ("competition", JNum (competition f));
        ("finance", JNum (finance f));
        ("regulation", JNum (regulation f));
        ("tech", JNum (tech f));
        ("weather", JNum (weather f))].

Definition stateObject (s : State) : json :=
  JObj
    ([("turn_no", JNum (st_turn_no s))]
     ++ opt_prop "period" JStr (st_period s)
     ++ opt_prop "pnl"
          (fun p =>
             JObj [("revenue", JNum (sp_revenue p));
                   ("cogs", JNum (sp_cogs p));
                   ("gm_percent", JNum (sp_gm_percent p));
                   ("opex", JNum (sp_opex p));
                   ("net", JNum (sp_net p));
                   ("cash", JNum (sp_cash p))])
          (st_pnl s)
     ++ opt_prop "kpis"
          (fun k =>
             JObj [("share_percent", JNum (share_percent k));
                   ("service_nps", JNum (service_nps k));
                   ("morale", JNum (kpi_morale k));
                   ("backlog_units", JNum (backlog_units k))])
          (st_kpis s)
     ++ [("event",
          JObj [("category", JStr (le_category (st_event s)));
                ("tier", JStr (le_tier (st_event s)))]);
         ("morale", JNum (morale s));
         ("credibility", JNum (credibility s));
         ("backlog", JNum (backlog s));
         ("service", JNum (service s));
         ("share", JNum (share s));
         ("cash_runway", JNum (cash_runway s));
         ("flags", flagsObject (flags s));
         ("pressures",
          JObj [("margin_push", JBool (margin_push (pressures s)))]);
         ("headroom",
          JObj [("ot_pct", JNum (ot_pct (headroom s)));
                ("temps_allowed", JBool (temps_allowed (headroom s)))]);
         ("recent_moves", JArr (map JStr (recent_moves s)))]
     ++ opt_prop "tail_risk" JNum (tail_risk s)
     ++ opt_prop "shock_decay" JNum (shock_decay s)
     ++ opt_prop "reward_decay" JNum (reward_decay s)
     ++ opt_prop "ceo_credibility" JNum (ceo_credibility s)
     ++ opt_prop "active_shocks"
          (fun l => JArr (map activeEventObject l)) (active_shocks s)
     ++ opt_prop "active_rewards"
          (fun l => JArr (map activeEventObject l)) (active_rewards s)
     ++ opt_prop "notes" (fun l => JArr (map JStr l)) (st_notes s)).

End Engine.

(** ** The rule-based evaluator ([evaluator.ts])

    The evaluation that runs without a language model, and the fallback
    when the model fails: [evaluateWithRules] and the helpers it calls.
    The state packet is the state, property by property, so it is a
    [State] here. *)

(** An event as the evaluator receives it ([RngEventSchema]): only the roll
    and the type are required. *)
Record EventPacket := mkEventPacket {
  rp_roll : Q;
  rp_event_type : string;
  rp_tier : option string;
  rp_name : option string;
  rp_effects : option Effects;
  rp_flag_bump : option Q;
  rp_tail_risk_bump : option Q;
  rp_hints : option (list string) }.

Module Evaluator.
Import JS.

(** [s.includes(sub)]. *)
Fixpoint includes (s sub : string) : bool :=
  if String.prefix sub s then true
  else match s with
       | EmptyString => false
       | String _ s' => includes s' sub
       end.

(** [keywords.some(keyword => s.includes(keyword))]. *)
Definition includes_some (s : string) (keywords : list string) : bool :=
  existsb (includes s) keywords.

(** [r.test(s)]. *)
Definition test (r : RegExp.regex) (s : string) : bool :=
  match RegExp.search r s with Some _ => true | None => false end.

(** [/^[^a-zA-Z]*$/.test(s)]: no code unit of [s] is an ASCII letter. *)
Definition is_letter (c : ascii) : bool :=
  let n := N_of_ascii c in
  (((65 <=? n) && (n <=? 90)) || ((97 <=? n) && (n <=? 122)))%N.

Fixpoint no_letter (s : string) : bool :=
  match s with
  | EmptyString => true
  | String c s' => negb (is_letter c) && no_letter s'
  end.

(** [parseInt(s)] with no radix; [None] is NaN. *)
Fixpoint trim_start (s : string) : string :=
  match s with
  | String c s' => if RegExp.is_space c then trim_start s' else s
  | EmptyString => s
  end.

Definition digit_of (radix : Z) (c : ascii) : option Z :=
  let n := charCode c in
  let v :=
    if ((48 <=? n) && (n <=? 57))%Z then Some (n - 48)%Z
    else if ((97 <=? n) && (n <=? 122))%Z then Some (n - 87)%Z
    else if ((65 <=? n) && (n <=? 90))%Z then Some (n - 55)%Z
    else None in
  match v with
  | Some d => if (d <? radix)%Z then Some d else None
  | None => None
  end.

Fixpoint parse_radix (radix : Z) (s : string) (acc : option Z) : option Z :=
  match s with
  | String c s' =>
      match digit_of radix c with
      | Some d =>
          parse_radix radix s'
            (Some (match acc with
                   | Some a => a * radix + d
                   | None => d
                   end)%Z)
      | None => acc
      end
  | EmptyString => acc
  end.

Definition parseInt (s : string) : option Z :=
  let s1 := trim_start s in
  let '(sign, s2) :=
    match s1 with
    | String "-" r => ((-1)%Z, r)
    | String "+" r => (1%Z, r)
    | _ => (1%Z, s1)
    end in
  let '(radix, s3) :=
    match s2 with
    | String "0" (String "x" r) => (16%Z, r)
    | String "0" (String "X" r) => (16%Z, r)
    | _ => (10%Z, s2)
    end in
  option_map (Z.mul sign) (parse_radix radix s3 None).

(** [x || d] on strings that may be undefined: the empty string is
    falsy. *)
Definition or_str (x : option string) (d : string) : string :=
  match x with
  | Some EmptyString => d
  | Some s => s
  | None => d
  end.

Definition truthy_str (x : option string) : bool :=
  match x with
  | Some EmptyString => false
  | Some _ => true
  | None => false
  end.

Definition dir_string (d : Direction) : string :=
  match d with up => "up" | down => "down" | none => "none" end.

Definition is_none (d : Direction) : bool :=
  match d with none => true | _ => false end.

Definition dir_eqb (a b : Direction) : bool :=
  match a, b with
  | up, up => true
  | down, down => true
  | none, none => true
  | _, _ => false
  end.

(** The same loop as [Engine.hashString]. *)
Definition hashString (str : string) : Z := Engine.hashString str.

(** A deterministic penalty within a range, from the declaration's hash. *)
Definition getDeterministicPenalty (declaration : string) (min max : Q) : Q :=
  let hash := hashString declaration in
  let range := max - min in
  min + inject_Z (hash mod 100) / 100 * range.

(** Keywords relevant to a metric ([keywordMap[metric] || []]). *)
Definition getKeywordsForMetric (metric : string) : list string :=
  if String.eqb metric "morale" then
    ["team"; "culture"; "recognition"; "layoff"; "cut"; "pressure";
     "workload"; "strict"]
  else if String.eqb metric "credibility" then
    ["transparent"; "honest"; "clear"; "promise"; "guarantee"; "assure";
     "strict"; "reduce"]
  else if String.eqb metric "backlog_pressure" then
    ["capacity"; "efficiency"; "process"; "growth"; "expand"; "demand"]
  else if String.eqb metric "service_risk" then
    ["quality"; "customer"; "support"; "cut"; "reduce"; "optimize"]
  else [].

Definition generateSignalForMetric (declaration : string) (state : State)
    (metric : string) : DirStrength :=
  let lower := toLowerCase declaration in
  let keywords := getKeywordsForMetric metric in
  let relevantKeywords := filter (fun keyword => includes lower keyword)
                                 keywords in
  if (List.length relevantKeywords =? 0)%nat then
    {| dir := none; strength := 0 |}
  else
    let '(direction, strength0) :=
      if String.eqb metric "morale" then
        let negativeKeywords :=
          ["layoff"; "cut"; "pressure"; "strict"; "reduce"] in
        if includes_some lower negativeKeywords then (down, 8 # 10)
        else if includes lower "team" || includes lower "culture"
        then (up, 7 # 10)
        else (none, 5 # 10)
      else if String.eqb metric "credibility" then
        if includes lower "transparent" || includes lower "honest"
        then (up, 6 # 10)
        else if includes lower "promise" || includes lower "guarantee"
        then (down, 7 # 10)
        else (none, 5 # 10)
      else if String.eqb metric "backlog_pressure" then
        if includes lower "efficiency" || includes lower "process"
        then (down, 6 # 10)
        else if includes lower "growth" || includes lower "expand"
        then (up, 7 # 10)
        else (none, 5 # 10)
      else if String.eqb metric "service_risk" then
        if includes lower "quality" || includes lower "customer"
        then (down, 6 # 10)
        else if includes lower "cut" || includes lower "reduce"
        then (up, 7 # 10)
        else (none, 5 # 10)
      else (none, 5 # 10) in
    (* Adjust strength based on state context *)
    let strength1 :=
      if labor_tense (flags state) && String.eqb metric "morale"
      then Math_min 1 (strength0 * (12 # 10)) else strength0 in
    let strength2 :=
      if supply_fragile (flags state) && String.eqb metric "backlog_pressure"
      then Math_min 1 (strength1 * (13 # 10)) else strength1 in
    {| dir := direction; strength := strength2 |}.

Definition rx_cold : RegExp.regex :=
  RegExp.Alts ["clipboard"; "no talk"; "silent walk"].

(** [/smile|chat|camaraderie|shout[- ]?outs/]. *)
Definition rx_warm : RegExp.regex :=
  RegExp.Alt (RegExp.Lit "smile")
    (RegExp.Alt (RegExp.Lit "chat")
       (RegExp.Alt (RegExp.Lit "camaraderie")
          (RegExp.Seq (RegExp.Lit "shout")
             (RegExp.Seq
                (RegExp.Opt (RegExp.Alt (RegExp.Chr "-") (RegExp.Chr " ")))
                (RegExp.Lit "outs"))))).

(** CEO signals from the declaration and the state. *)
Definition generateCEOSignals (declaration : string) (statePacket : State)
    : Signals :=
  let lowerDecl := toLowerCase declaration in
  let tense := labor_tense (flags statePacket) in
  (* specific tone patterns first *)
  if test rx_cold lowerDecl then
    {| sig_morale :=
         {| dir := down; strength := if tense then 8 # 10 else 7 # 10 |};
       sig_credibility :=
         {| dir := down; strength := if tense then 4 # 10 else 3 # 10 |};
       sig_backlog_pressure := {| dir := none; strength := 0 |};
       sig_service_risk :=
         {| dir := up; strength := if tense then 3 # 10 else 2 # 10 |} |}
  else if test rx_warm lowerDecl then
    {| sig_morale :=
         {| dir := up; strength := if tense then 9 # 10 else 7 # 10 |};
       sig_credibility :=
         {| dir := up; strength := if tense then 5 # 10 else 3 # 10 |};
       sig_backlog_pressure := {| dir := none; strength := 0 |};
       sig_service_risk :=
         {| dir := down; strength := if tense then 15 # 100 else 1 # 10 |} |}
  else
    (* keyword-based detection *)
    {| sig_morale := generateSignalForMetric declaration statePacket "morale";
       sig_credibility :=
         generateSignalForMetric declaration statePacket "credibility";
       sig_backlog_pressure :=
         generateSignalForMetric declaration statePacket "backlog_pressure";
       sig_service_risk :=
         generateSignalForMetric declaration statePacket "service_risk" |}.

(** The legacy mapping of an event type to channels: for each channel its
    key, its direction and the factor applied to [roll / 100]. *)
Definition legacyImpact (event_type : string)
    : list (string * Direction * Q) :=
  if String.eqb event_type "supply_shock" then
    [("backlog_pressure", up, 8 # 10); ("service_risk", up, 6 # 10)]
  else if String.eqb event_type "labor_unrest" then
    [("morale", down, 9 # 10); ("credibility", down, 7 # 10)]
  else if String.eqb event_type "demand_spike" then
    [("backlog_pressure", up, 7 # 10); ("morale", up, 5 # 10)]
  else if String.eqb event_type "reg_probe" then
    [("credibility", down, 8 # 10); ("service_risk", up, 4 # 10)]
  else if String.eqb event_type "fx_move" then
    [("credibility", down, 6 # 10)]
  else if String.eqb event_type "credit_tightening" then
    [("credibility", down, 7 # 10); ("service_risk", up, 5 # 10)]
  else if String.eqb event_type "none" then []
  else if String.eqb event_type "supply" then
    [("backlog_pressure", up, 8 # 10); ("service_risk", up, 6 # 10)]
  else if String.eqb event_type "labor" then
    [("morale", down, 9 # 10); ("credibility", down, 7 # 10)]
  else if String.eqb event_type "quality" then
    [("service_risk", up, 8 # 10); ("credibility", down, 6 # 10)]
  else if String.eqb event_type "competition" then
    [("credibility", down, 5 # 10); ("service_risk", up, 4 # 10)]
  else if String.eqb event_type "finance" then
    [("credibility", down, 7 # 10); ("service_risk", up, 5 # 10)]
  else if String.eqb event_type "regulation" then
    [("credibility", down, 8 # 10); ("service_risk", up, 4 # 10)]
  else if String.eqb event_type "tech" then
    [("service_risk", up, 6 # 10); ("credibility", down, 4 # 10)]
  else if String.eqb event_type "weather" then
    [("backlog_pressure", up, 5 # 10)]
  else [].

(** Event impact from the event: from its detailed effects when it has
    them, else from the legacy mapping of its type.  The channels are kept
    in the order in which they are assigned. *)
Definition generateEventImpact (rngEvent : EventPacket) (statePacket : State)
    : obj DirStrength :=
  match rp_effects rngEvent with
  | Some effects =>
      let impact0 : obj DirStrength := [] in
      let impact1 :=
        if negb (eqb (morale_delta effects) 0) then
          set "morale"
            {| dir := if gtb (morale_delta effects) 0 then up else down;
               strength := Math_min (Math_abs (morale_delta effects) / 10) 1 |}
            impact0
        else impact0 in
      let impact2 :=
        if negb (eqb (backlog_delta effects) 0) then
          set "backlog_pressure"
            {| dir := if gtb (backlog_delta effects) 0 then up else down;
               strength :=
                 Math_min (Math_abs (backlog_delta effects) / 2000) 1 |}
            impact1
        else impact1 in
      let impact3 :=
        if negb (eqb (nps_delta effects) 0) then
          set "service_risk"
            {| dir := if ltb (nps_delta effects) 0 then up else down;
               strength := Math_min (Math_abs (nps_delta effects) / 20) 1 |}
            impact2
        else impact2 in
      (* Credibility impact based on tier severity *)
      match parseInt (or_str (rp_tier rngEvent) "0") with
      | Some tier =>
          if (0 <? tier)%Z then
            set "credibility"
              {| dir := down; strength := inject_Z tier * (25 # 100) |}
              impact3
          else impact3
      | None => impact3
      end
  | None =>
      fold_left
        (fun impact ch =>
           let '(key, d, factor) := ch in
           set key
             {| dir := d;
                strength := Math_min 1 (rp_roll rngEvent / 100 * factor) |}
             impact)
        (legacyImpact (rp_event_type rngEvent)) []
  end.

Definition signal_entries (signals : Signals) : obj DirStrength :=
  [("morale", sig_morale signals);
   ("credibility", sig_credibility signals);
   ("backlog_pressure", sig_backlog_pressure signals);
   ("service_risk", sig_service_risk signals)].

(** Synergy between the CEO signals and the event impact. *)
Definition determineSynergy (ceoSignals : Signals)
    (eventImpact : obj DirStrength) : Synergy :=
  let '(alignedCount, underminedCount) :=
    fold_left
      (fun counts entry =>
         let '(aligned_n, undermined_n) := counts in
         let '(metric, ceoSignal) := entry in
         match get metric eventImpact with
         | Some eventSignal =>
             if negb (is_none (dir ceoSignal)) then
               if dir_eqb (dir ceoSignal) (dir eventSignal)
               then (S aligned_n, undermined_n)
               else (aligned_n, S undermined_n)
             else counts
         | None => counts
         end)
      (signal_entries ceoSignals) (O, O) in
  if (underminedCount <? alignedCount)%nat then aligned
  else if (alignedCount <? underminedCount)%nat then undermined
  else neutral.

Definition generateNarrativeHook (ceoSignals : Signals)
    (eventImpact : obj DirStrength) (synergy : Synergy)
    (statePacket : State) : string :=
  let ceoFocus :=
    join ", "
      (map (fun ks => (fst ks ++ " (" ++ dir_string (dir (snd ks)) ++ ")")%string)
           (filter (fun ks => negb (is_none (dir (snd ks))))
                   (signal_entries ceoSignals))) in
  match synergy with
  | aligned =>
      ("CEO's focus on " ++ ceoFocus
         ++ " aligns well with current market conditions.")%string
  | undermined =>
      ("CEO's " ++ ceoFocus
         ++ " strategy faces headwinds from external factors.")%string
  | neutral =>
      ("CEO's " ++ ceoFocus
         ++ " approach maintains steady course despite market volatility.")%string
  end.

Definition tierNames : list string :=
  ["Minor"; "Moderate"; "Significant"; "Critical"].

(** [tierNames[tier]] in a template: "undefined" off the array. *)
Definition tierName (tier : option Z) : string :=
  match tier with
  | Some t =>
      if ((0 <=? t) && (t <? 4))%Z then nth (Z.to_nat t) tierNames "undefined"
      else "undefined"
  | None => "undefined"
  end.

Definition generateSeverityNote (rngEvent : EventPacket) (statePacket : State)
    : string :=
  if truthy_str (rp_name rngEvent) && truthy_str (rp_tier rngEvent) then
    (tierName (parseInt (or_str (rp_tier rngEvent) ""))
       ++ " impact: " ++ or_str (rp_name rngEvent) "")%string
  else if truthy_str (rp_name rngEvent) then
    ("Event impact: " ++ or_str (rp_name rngEvent) "")%string
  else
    let severity :=
      if leb (rp_roll rngEvent) 20 then "low"
      else if leb (rp_roll rngEvent) 60 then "mid" else "high" in
    let ty := rp_event_type rngEvent in
    if String.eqb ty "supply_shock" then
      (severity ++ "-severity supply disruption; "
         ++ (if supply_fragile (flags statePacket)
             then "exacerbates existing fragility" else "adds new pressure")
         ++ ".")%string
    else if String.eqb ty "labor_unrest" then
      (severity ++ "-severity labor tensions; "
         ++ (if labor_tense (flags statePacket)
             then "compounds current strain"
             else "introduces workforce concerns")
         ++ ".")%string
    else if String.eqb ty "demand_spike" then
      (severity ++ "-severity demand surge; "
         ++ (if gtb (backlog statePacket) 1200
             then "strains already elevated backlog"
             else "creates growth opportunity")
         ++ ".")%string
    else if String.eqb ty "reg_probe" then
      (severity ++ "-severity regulatory inquiry; "
         ++ (if String.eqb (le_tier (st_event statePacket)) "critical"
             then "adds to critical event pressure"
             else "increases compliance scrutiny")
         ++ ".")%string
    else if String.eqb ty "fx_move" then
      (severity ++ "-severity currency volatility; "
         ++ "impacts international operations and pricing.")%string
    else if String.eqb ty "credit_tightening" then
      (severity ++ "-severity credit constraints; "
         ++ (if ltb (cash_runway statePacket) 12
             then "pressures already tight liquidity"
             else "reduces financial flexibility")
         ++ ".")%string
    else "Market conditions remain stable with minimal external pressure.".

Definition extractTargets (declaration : string) : list string :=
  let lower := toLowerCase declaration in
  let targets :=
    (if includes lower "team" then ["Team Management"] else [])
    ++ (if includes lower "customer" then ["Customer Experience"] else [])
    ++ (if includes lower "efficiency" then ["Operational Efficiency"]
        else [])
    ++ (if includes lower "growth" || includes lower "expand"
        then ["Business Growth"] else [])
    ++ (if includes lower "quality" then ["Quality Assurance"] else [])
    ++ (if includes lower "cost" then ["Cost Management"] else []) in
  if (0 <? List.length targets)%nat then targets else ["General Operations"].

Definition extractIntent (declaration : string) : list string :=
  let lower := toLowerCase declaration in
  let intents :=
    (if includes lower "stabilize" || includes lower "steady"
     then ["stabilize operations"] else [])
    ++ (if includes lower "improve" || includes lower "enhance"
        then ["improve performance"] else [])
    ++ (if includes lower "grow" || includes lower "expand"
        then ["pursue growth"] else [])
    ++ (if includes lower "efficiency" || includes lower "optimize"
        then ["optimize processes"] else [])
    ++ (if includes lower "team" || includes lower "culture"
        then ["uplift morale"] else []) in
  if (0 <? List.length intents)%nat then intents
  else ["maintain current trajectory"].

Definition generateFitReasons (declaration : string) (state : State)
    (signals : Signals) : list string :=
  let reasons :=
    (if labor_tense (flags state)
        && dir_eqb (dir (sig_morale signals)) down
     then ["Addresses current labor tensions appropriately"] else [])
    ++ (if supply_fragile (flags state)
           && dir_eqb (dir (sig_backlog_pressure signals)) down
        then ["Recognizes supply chain constraints"] else [])
    ++ (if String.eqb (le_tier (st_event state)) "critical"
           && dir_eqb (dir (sig_credibility signals)) up
        then ["Builds confidence during critical event"] else []) in
  if (List.length reasons =? 0)%nat
  then reasons ++ ["Balanced approach to current challenges"]
  else reasons.

Definition generateAssessment (declaration : string) (statePacket : State)
    (signals : Signals) : Assessment :=
  let lowerDecl := toLowerCase declaration in
  let tone :=
    if test (RegExp.Alts ["panic"; "urgent"; "crisis"]) lowerDecl
    then "panicked"
    else if test (RegExp.Alts ["collaborate"; "team"; "together"]) lowerDecl
    then "conciliatory"
    else if test (RegExp.Alts ["optimize"; "efficiency"; "streamline"])
                 lowerDecl
    then "analytical"
    else "decisive" in
  let targets := extractTargets declaration in
  let fitReasons := generateFitReasons declaration statePacket signals in
  {| intent := extractIntent declaration;
     targets := targets;
     tone := tone;
     fit_reasons := fitReasons |}.

Definition generateRationale (signals : Signals)
    (eventImpact : obj DirStrength) (statePacket : State)
    (rngEvent : EventPacket) : string :=
  let ceoActions :=
    join ", "
      (map (fun ks => (fst ks ++ " " ++ dir_string (dir (snd ks)))%string)
           (filter (fun ks => negb (is_none (dir (snd ks))))
                   (signal_entries signals))) in
  let eventEffects :=
    join ", "
      (map (fun ks => (fst ks ++ " " ++ dir_string (dir (snd ks)))%string)
           eventImpact) in
  ("CEO targets " ++ ceoActions ++ ". RNG event "
     ++ Number_toString (rp_roll rngEvent) ++ " ("
     ++ rp_event_type rngEvent ++ ") affects "
     ++ or_str (Some eventEffects) "none" ++ ". State shows "
     ++ (if labor_tense (flags statePacket)
         then "labor tension" else "stable workforce")
     ++ ", "
     ++ (if supply_fragile (flags statePacket)
         then "supply fragility" else "robust supply")
     ++ ".")%string.

(** The channels of an impact object. *)
Definition channels_of (impact : obj DirStrength) : ImpactChannels :=
  {| ic_morale := get "morale" impact;
     ic_credibility := get "credibility" impact;
     ic_backlog_pressure := get "backlog_pressure" impact;
     ic_service_risk := get "service_risk" impact |}.

Definition oobKeywords : list string :=
  ["million"; "billion"; "dollar"; "funding"; "investment"; "acquisition";
   "merger"; "recession"; "crisis"].

Definition nonsenseKeywords : list string :=
  ["blah"; "random"; "nonsense"; "gibberish"; "test"; "placeholder"].

Definition isOob (declaration : string) : bool :=
  includes_some (toLowerCase declaration) oobKeywords.

Definition isNonsense (declaration : string) : bool :=
  includes_some (toLowerCase declaration) nonsenseKeywords
  || (String.length declaration <? 10)%nat
  || no_letter declaration.

(** Rule-based evaluation. *)
Definition evaluateWithRules (declaration : string) (statePacket : State)
    (rngEvent : EventPacket) (caps : Caps) : EvaluatorOutput :=
  let ceoSignals := generateCEOSignals declaration statePacket in
  let eventImpact := generateEventImpact rngEvent statePacket in
  let synergy := determineSynergy ceoSignals eventImpact in
  let narrativeHook :=
    generateNarrativeHook ceoSignals eventImpact synergy statePacket in
  let nonsensePenalty :=
    if isNonsense declaration
    then getDeterministicPenalty declaration (1 # 10) (3 # 10) else 0 in
  let assessment := generateAssessment declaration statePacket ceoSignals in
  let rationale :=
    generateRationale ceoSignals eventImpact statePacket rngEvent in
  {| eo_assessment := assessment;
     eo_signals := ceoSignals;
     eo_event :=
       {| ev_roll := rp_roll rngEvent;
          ev_event_type := rp_event_type rngEvent;
          impact_channels := channels_of eventImpact;
          severity_note := generateSeverityNote rngEvent statePacket |};
     eo_integrated :=
       {| synergy := synergy; narrative_hook := narrativeHook |};
     eo_penalties := {| nonsense_penalty := nonsensePenalty |};
     eo_policy :=
       {| oob := isOob declaration;
          violations :=
            if isOob declaration
            then ["External financial commitments or crisis invention detected"]
            else [] |};
     eo_rationale := rationale |}.

(** The event that the engine generated, as the evaluator receives it. *)
Definition packet_of (e : RngEvent) : EventPacket :=
  {| rp_roll := roll e;
     rp_event_type := event_type e;
     rp_tier := Some (tier e);
     rp_name := Some (name e);
     rp_effects := Some (effects e);
     rp_flag_bump := Some (flag_bump e);
     rp_tail_risk_bump := Some (tail_risk_bump e);
     rp_hints := Some (hints e) |}.

End Evaluator.

(** ** The server's view of a turn ([server.ts], [api.ts])

    [GET /api/state] and the client's [submitTurn] attach to every turn the
    figures of [state_after.pnl], converted from millions back to
    dollars. *)

Module Server.

Record TurnFinancials := mkTurnFinancials {
  tf_revenue : Q; tf_cogs : Q; tf_opex : Q; tf_ebit : Q; tf_cash : Q }.

(** [turn.state_after.pnl ? {...} : undefined]; [ebit] is filled from
    [pnl.net]. *)
Definition turnFinancials (turn : TurnResult) : option TurnFinancials :=
  match st_pnl (state_after turn) with
  | Some p =>
      Some {| tf_revenue := sp_revenue p * 1000000;
              tf_cogs := sp_cogs p * 1000000;
              tf_opex := sp_opex p * 1000000;
              tf_ebit := sp_net p * 1000000;
              tf_cash := sp_cash p * 1000000 |}
  | None => None
  end.

End Server.
(** ** Predicates of the specification *)

(** *** Inputs used as witnesses and counterexamples *)

(** The baseline of the finance tests: starting balance, baseline drivers,
    default parameters. *)
Definition baseline_input : FinanceInput :=
  {| prev_balance := STARTING_BALANCE;
     drivers := BASELINE_DRIVERS;
     params := FINANCE_PARAMS_DEFAULT;
     policy := None;
     direct_cash_spending := None |}.

(** The state of the engine tests ([baseState]). *)
Definition fixture_flags : Flags :=
  {| supply_fragile := false; labor_tense := false;
     quality_watch := false; flag_tail_risk := false;
     supply := 1 # 10; labor := 5 # 100; quality := 0;
     competition := 1 # 10; finance := 0; regulation := 0;
     tech := 5 # 100; weather := 5 # 100 |}.

Definition fixture_state : State :=
  {| st_turn_no := 1; st_period := None; st_pnl := None; st_kpis := None;
     st_event := {| le_category := "market"; le_tier := "medium" |};
     morale := 75; credibility := 80; backlog := 1000; service := 85;
     share := 100; cash_runway := 18;
     flags := fixture_flags;
     pressures := {| margin_push := false |};
     headroom := {| ot_pct := 0; temps_allowed := false |};
     recent_moves := [];
     tail_risk := None; shock_decay := None; reward_decay := None;
     ceo_credibility := None; active_shocks := None;
     active_rewards := None; st_notes := None; st_financials := None |}.

Definition output_with (signals : Signals) (ic : ImpactChannels)
    (penalty : Q) : EvaluatorOutput :=
  {| eo_assessment :=
       {| intent := ["test"]; targets := ["test"]; tone := "neutral";
          fit_reasons := ["test"] |};
     eo_signals := signals;
     eo_event :=
       {| ev_roll := 50; ev_event_type := "none"; impact_channels := ic;
          severity_note := "No event" |};
     eo_integrated := {| synergy := neutral; narrative_hook := "Test" |};
     eo_penalties := {| nonsense_penalty := penalty |};
     eo_policy := {| oob := false; violations := [] |};
     eo_rationale := "Test" |}.

Definition no_signal : DirStrength := {| dir := none; strength := 0 |}.

(** No signal, no event impact, no penalty. *)
Definition neutral_output : EvaluatorOutput :=
  output_with (mkSignals no_signal no_signal no_signal no_signal)
              (mkImpactChannels None None None None) 0.

(** All four signals up at strength 2.0, beyond the schema's range. *)
Definition extreme_output : EvaluatorOutput :=
  output_with
    (mkSignals (mkDirStrength up 2) (mkDirStrength up 2)
               (mkDirStrength up 2) (mkDirStrength up 2))
    (mkImpactChannels None None None None) 0.

(** ** Cap compliance and bounded state *)

Definition caps_nonneg (caps : Caps) : Prop :=
  0 <= cap_morale caps /\ 0 <= cap_credibility caps
  /\ 0 <= cap_service_risk caps /\ 0 <= cap_backlog_pressure caps.

(** Every applied delta is within its cap; backlog against
    [backlog_pressure * 250], share and cash runway against
    [backlog_pressure]. *)
Definition within_caps (caps : Caps) (a : Deltas) : Prop :=
  Qabs (d_morale a) <= cap_morale caps
  /\ Qabs (d_credibility a) <= cap_credibility caps
  /\ Qabs (d_service a) <= cap_service_risk caps
  /\ Qabs (d_backlog a) <= cap_backlog_pressure caps * 250
  /\ Qabs (d_share a) <= cap_backlog_pressure caps
  /\ Qabs (d_cash_runway a) <= cap_backlog_pressure caps.

(** The bounded fields of a state are in their domains. *)
Definition in_domain (s : State) : Prop :=
  (0 <= morale s <= 100) /\ (0 <= credibility s <= 100)
  /\ (0 <= service s <= 100)
  /\ 0 <= backlog s /\ 0 <= share s /\ 0 <= cash_runway s.

(** ** Keys of the raw delta map *)

(** Every key of [o] is one of [allowed]. *)
Definition keys_within (allowed : list string) (o : JS.obj Q) : Prop :=
  forall k, In k (JS.keys o) -> In k allowed.

(** The keys under which the signal resolver stores raw deltas, and the
    keys of the impact channels. *)
Definition metric_keys : list string :=
  ["morale"; "credibility"; "backlog"; "service"].

Definition impact_keys : list string :=
  ["morale"; "credibility"; "backlog_pressure"; "service_risk"].


(** ** Direct cash spending *)

(** The finance input with a direct cash spending handed over. *)
Definition with_direct_spending (input : FinanceInput) (spend : Q)
    : FinanceInput :=
  {| prev_balance := prev_balance input; drivers := drivers input;
     params := params input; policy := policy input;
     direct_cash_spending := Some spend |}.

(** What [resolveTurn] spends for a declaration. *)
Definition turnSpend (state : State) (decl : string) (ev : EvaluatorOutput)
    : Q :=
  Engine.directCashSpending (Engine.getPrevBalanceFromState state)
                            (Engine.detectCashSpending decl ev).

(** ** States as objects *)



(** The state of the engine tests as an object, in the order of the
    literal. *)
Definition fixture_flags_json : JS.json :=
  JS.JObj
    [("supply_fragile", JS.JBool false); ("labor_tense", JS.JBool false);
     ("quality_watch", JS.JBool false); ("tail_risk", JS.JBool false);
     ("supply", JS.JNum (1 # 10)); ("labor", JS.JNum (5 # 100));
     ("quality", JS.JNum 0); ("competition", JS.JNum (1 # 10));
     ("finance", JS.JNum 0); ("regulation", JS.JNum 0);
     ("tech", JS.JNum (5 # 100)); ("weather", JS.JNum (5 # 100))].

Definition fixture_event_json : JS.json :=
  JS.JObj [("category", JS.JStr "market"); ("tier", JS.JStr "medium")].

Definition fixture_tail : list (string * JS.json) :=
  [("morale", JS.JNum 75); ("credibility", JS.JNum 80);
   ("backlog", JS.JNum 1000); ("service", JS.JNum 85);
   ("share", JS.JNum 100); ("cash_runway", JS.JNum 18);
   ("flags", fixture_flags_json);
   ("pressures", JS.JObj [("margin_push", JS.JBool false)]);
   ("headroom",
    JS.JObj [("ot_pct", JS.JNum 0); ("temps_allowed", JS.JBool false)]);
   ("recent_moves", JS.JArr [])].

Definition fixture_json : JS.json :=
  JS.JObj (("turn_no", JS.JNum 1) :: ("event", fixture_event_json)
           :: fixture_tail).




(** The sum of the pressure flags as a sum over the filtered entries. *)
Definition summand (kv : string * JS.json) : Q :=
  match snd kv with JS.JNum q => q | _ => 0 end.

Definition is_pressure (kv : string * JS.json) : bool :=
  existsb (String.eqb (fst kv)) Engine.categories.

Fixpoint total (l : list (string * JS.json)) : Q :=
  match l with
  | [] => 0
  | kv :: l' => summand kv + total l'
  end.


(** ** The shape of a state ([StateSchema])

    The check of the required properties of [State] on an object: present,
    of the right type and in range; optional properties are checked when
    present, other properties are ignored. *)

Definition is_number (v : option JS.json) : bool :=
  match v with Some (JS.JNum _) => true | _ => false end.

Definition is_number_in (lo hi : Q) (v : option JS.json) : bool :=
  match v with
  | Some (JS.JNum q) => JS.leb lo q && JS.leb q hi
  | _ => false
  end.

Definition is_number_from (lo : Q) (v : option JS.json) : bool :=
  match v with Some (JS.JNum q) => JS.leb lo q | _ => false end.

Definition is_boolean (v : option JS.json) : bool :=
  match v with Some (JS.JBool _) => true | _ => false end.

Definition is_string (v : option JS.json) : bool :=
  match v with Some (JS.JStr _) => true | _ => false end.

Definition is_one_of (l : list string) (v : option JS.json) : bool :=
  match v with
  | Some (JS.JStr s) => existsb (String.eqb s) l
  | _ => false
  end.

Definition is_string_array (v : option JS.json) : bool :=
  match v with
  | Some (JS.JArr l) =>
      forallb (fun x => match x with JS.JStr _ => true | _ => false end) l
  | _ => false
  end.

(** An optional property: absent, or accepted by [check]. *)
Definition optional (check : option JS.json -> bool) (v : option JS.json)
    : bool :=
  match v with None => true | Some _ => check v end.

Definition all_fields (check : option JS.json -> bool) (ks : list string)
    (v : option JS.json) : bool :=
  match v with
  | Some (JS.JObj _) => forallb (fun k => check (Engine.opt_field k v)) ks
  | _ => false
  end.

Definition is_Flags (v : option JS.json) : bool :=
  all_fields is_boolean
    ["supply_fragile"; "labor_tense"; "quality_watch"; "tail_risk"] v
  && all_fields (is_number_in 0 1) Engine.categories v.

Definition is_State (s : JS.json) : bool :=
  let f k := Engine.field k s in
  is_number (f "turn_no")
  && optional is_string (f "period")
  && optional (all_fields is_number
                 ["revenue"; "cogs"; "gm_percent"; "opex"; "net"; "cash"])
              (f "pnl")
  && optional (all_fields is_number
                 ["share_percent"; "service_nps"; "morale"; "backlog_units"])
              (f "kpis")
  && is_one_of ["market"; "operational"; "financial"; "regulatory";
                "competitive"]
               (Engine.opt_field "category" (f "event"))
  && is_one_of ["low"; "medium"; "high"; "critical"]
               (Engine.opt_field "tier" (f "event"))
  && is_number_in 0 100 (f "morale")
  && is_number_in 0 100 (f "credibility")
  && is_number_from 0 (f "backlog")
  && is_number_in 0 100 (f "service")
  && is_number_from 0 (f "share")
  && is_number_from 0 (f "cash_runway")
  && is_Flags (f "flags")
  && all_fields is_boolean ["margin_push"] (f "pressures")
  && all_fields is_number ["ot_pct"] (f "headroom")
  && all_fields is_boolean ["temps_allowed"] (f "headroom")
  && is_string_array (f "recent_moves")
  && optional (is_number_in 0 100) (f "tail_risk")
  && optional is_number (f "shock_decay")
  && optional is_number (f "reward_decay")
  && optional (is_number_in 0 100) (f "ceo_credibility").

(** ** Further notions used by the properties of the code *)

(** The provisional cash close that decides the financing (line 54 of
    [finance.ts]): the opening cash and the flows before any financing. *)
Definition provisional_close (input : FinanceInput) : Q :=
  let w := Finance.flows input in
  Finance.fl_cash_open w + Finance.fl_cfo w + Finance.fl_cfi w + 0
  + Finance.fl_direct_cash_flow w.

(** The input with the [repay_debt] flag of its policy set to [b]. *)
Definition with_repay_debt (input : FinanceInput) (b : bool) : FinanceInput :=
  {| prev_balance := prev_balance input; drivers := drivers input;
     params := params input;
     policy :=
       match policy input with
       | Some p => Some {| dividend := dividend p; repay_debt := b |}
       | None => None
       end;
     direct_cash_spending := direct_cash_spending input |}.

(** Whether the policy of an input asks for a dividend ([policy?.dividend]). *)
Definition wants_dividend (input : FinanceInput) : bool :=
  match policy input with Some p => dividend p | None => false end.

(** An input under the dividend policy: the baseline with a strong opening
    cash position. *)
Definition dividend_input : FinanceInput :=
  {| prev_balance := mkBalance 5000000 250000 300000 2000000
                               200000 0 1350000 1700000;
     drivers := BASELINE_DRIVERS;
     params := FINANCE_PARAMS_DEFAULT;
     policy := Some {| dividend := true; repay_debt := false |};
     direct_cash_spending := None |}.

(** An idle period: no units sold. *)
Definition idle_input : FinanceInput :=
  {| prev_balance := STARTING_BALANCE;
     drivers := mkDrivers 0 100 60 300000 50000 30 30 45;
     params := FINANCE_PARAMS_DEFAULT;
     policy := None;
     direct_cash_spending := None |}.

(** The state of the evaluator tests, under labour tension and with morale
    at the top of its range. *)
Definition tense_state : State :=
  {| st_turn_no := 1; st_period := None; st_pnl := None; st_kpis := None;
     st_event := {| le_category := "market"; le_tier := "medium" |};
     morale := 100; credibility := 70; backlog := 1200; service := 85;
     share := 125; cash_runway := 18;
     flags :=
       {| supply_fragile := true; labor_tense := true;
          quality_watch := false; flag_tail_risk := false;
          supply := 1 # 10; labor := 5 # 100; quality := 0;
          competition := 1 # 10; finance := 0; regulation := 0;
          tech := 5 # 100; weather := 5 # 100 |};
     pressures := {| margin_push := false |};
     headroom := {| ot_pct := 10; temps_allowed := true |};
     recent_moves := ["Previous declaration"];
     tail_risk := None; shock_decay := None; reward_decay := None;
     ceo_credibility := None; active_shocks := None;
     active_rewards := None; st_notes := None; st_financials := None |}.

(** The bounds of the drivers and of the scrap rate of a turn. *)
Definition drivers_in_bounds (d : FinancialDrivers) : Prop :=
  (units_min <= units_sold d <= units_max)
  /\ (price_min <= avg_price d <= price_max)
  /\ (cost_min <= unit_cost d <= cost_max)
  /\ (dso_min <= dso d <= dso_max)
  /\ (dpo_min <= dpo d <= dpo_max)
  /\ (dio_min <= dio d <= dio_max)
  /\ (capex_min <= capex_base d <= capex_max).

(** What every stage of [turnDrivers] keeps of the drivers and of the
    parameters. *)
Definition base_kept (d : FinancialDrivers) : Prop :=
  capex_base d = 50000 /\ opex_base d = 300000.

Definition days_kept (d : FinancialDrivers) : Prop :=
  base_kept d
  /\ (dso_min <= dso d <= dso_max) /\ (dpo_min <= dpo d <= dpo_max)
  /\ (dio_min <= dio d <= dio_max).

Definition params_kept (p : FinancialParams) : Prop :=
  period_days p = 30 /\ min_cash_buffer p = 250000
  /\ depreciation_life_years p = 5
  /\ 0 <= JS.nullish (scrap_rate p) 0 <= 25 # 100.

(** ** Hashing and events *)

(** The polynomial of the code units in base 31, from an initial value:
    [acc * 31^n + c1 * 31^(n-1) + ... + cn]. *)
Fixpoint poly31 (s : string) (acc : Z) : Z :=
  match s with
  | EmptyString => acc
  | String c s' => poly31 s' (31 * acc + JS.charCode c)%Z
  end.

(** The tiers of an event, as strings ([EventTierSchema]). *)
Definition tier_strings : list string := ["0"; "1"; "2"; "3"].

(** An event within [RngEventSchema]: a roll from 1 to 100, one of the
    eight categories, a tier from 0 to 3; and it has a name. *)
Definition event_conforms (e : RngEvent) : Prop :=
  (1 <= roll e <= 100)
  /\ In (event_type e) Engine.categories
  /\ In (tier e) tier_strings
  /\ name e <> "".

(** No effect of a shock is favourable. *)
Definition adverse (e : Effects) : Prop :=
  revenue_delta e <= 0 /\ 0 <= cogs_delta e /\ 0 <= opex_delta e
  /\ cash_delta e <= 0 /\ share_delta e <= 0 /\ nps_delta e <= 0
  /\ morale_delta e <= 0 /\ 0 <= backlog_delta e.

(** No pressure flag of the readings is negative. *)
Definition flags_nonneg (rd : Engine.Readings) : Prop :=
  Forall (fun kv => 0 <= summand kv) (Engine.rd_flags rd).

(** The readings of the state of the engine tests. *)
Definition fixture_readings : Engine.Readings :=
  {| Engine.rd_flags :=
       match fixture_flags_json with JS.JObj o => o | _ => [] end;
     Engine.rd_morale := 75;
     Engine.rd_backlog := 1000;
     Engine.rd_cash := 18 * (5 # 10) |}.

(** ** Evaluator outputs *)

(** A signal within [DirStrengthSchema]: its strength is between 0 and
    1. *)
Definition strength_ok (d : DirStrength) : Prop := 0 <= strength d <= 1.

Definition channel_ok (c : option DirStrength) : Prop :=
  match c with Some d => strength_ok d | None => True end.

(** The numeric constraints of [EvaluatorOutputSchema]. *)
Definition output_in_schema (o : EvaluatorOutput) : Prop :=
  strength_ok (sig_morale (eo_signals o))
  /\ strength_ok (sig_credibility (eo_signals o))
  /\ strength_ok (sig_backlog_pressure (eo_signals o))
  /\ strength_ok (sig_service_risk (eo_signals o))
  /\ channel_ok (ic_morale (impact_channels (eo_event o)))
  /\ channel_ok (ic_credibility (impact_channels (eo_event o)))
  /\ channel_ok (ic_backlog_pressure (impact_channels (eo_event o)))
  /\ channel_ok (ic_service_risk (impact_channels (eo_event o)))
  /\ (0 <= nonsense_penalty (eo_penalties o) <= 1).

(** An event packet within [RngEventSchema]: the roll is between 1 and 100
    and the tier, when given, is one of "0" to "3". *)
Definition packet_in_schema (p : EventPacket) : Prop :=
  (1 <= rp_roll p <= 100)
  /\ match rp_tier p with Some t => In t tier_strings | None => True end.

(** The direction of a channel, when the channel is present. *)
Definition channel_dir (c : option DirStrength) (d : Direction) : Prop :=
  match c with Some x => dir x = d | None => True end.

(** Every channel of an impact points the adverse way: morale and
    credibility down, backlog pressure and service risk up. *)
Definition impact_adverse (ic : ImpactChannels) : Prop :=
  channel_dir (ic_morale ic) down /\ channel_dir (ic_credibility ic) down
  /\ channel_dir (ic_backlog_pressure ic) up
  /\ channel_dir (ic_service_risk ic) up.

(** Every value of an object satisfies [P]. *)
Definition all_values {V} (P : V -> Prop) (o : JS.obj V) : Prop :=
  Forall (fun kv => P (snd kv)) o.

(** The event packet of the evaluator tests. *)
Definition probe_packet : EventPacket :=
  {| rp_roll := 73; rp_event_type := "reg_probe"; rp_tier := None;
     rp_name := None; rp_effects := None; rp_flag_bump := None;
     rp_tail_risk_bump := None; rp_hints := Some ["supply_fragile"] |}.

(** Some CEO signal points the adverse way. *)
Definition ceo_adverse (s : Signals) : Prop :=
  dir (sig_morale s) = down \/ dir (sig_credibility s) = down
  \/ dir (sig_backlog_pressure s) = up \/ dir (sig_service_risk s) = up.

(** Some CEO signal points the favourable way. *)
Definition ceo_favourable (s : Signals) : Prop :=
  dir (sig_morale s) = up \/ dir (sig_credibility s) = up
  \/ dir (sig_backlog_pressure s) = down \/ dir (sig_service_risk s) = down.

(** * The finance engine and the delta layers on binary64 numbers

    A JavaScript [number] is an IEEE-754 binary64 value.  The definitions
    above read numbers as exact rationals; where a property depends on how
    a sum rounds, on an overflow to an infinity or on NaN, the rational
    reading says nothing about the program.  This part therefore repeats
    [computeFinancials] ([finance.ts]) and the delta layers of the engine
    ([applySignals] and [clampDeltas] of [engine.ts]) on Rocq's primitive
    binary64 floats, operation by operation and in the order of the
    source: [+], [-], [*], [/] and the comparisons are those of IEEE-754
    with rounding to nearest, ties to even. *)

(** ** JavaScript primitives on binary64 numbers *)

Module B64.
Import Floats.PrimFloat Floats.FloatOps Floats.SpecFloat.
Local Open Scope float_scope.

Definition Math_abs (a : float) : float := abs a.

(** [Math.max] and [Math.min] of two numbers: NaN if either is NaN, and
    [+0] counts as larger than [-0]. *)
Definition Math_max (a b : float) : float :=
  if is_nan a || is_nan b then nan
  else if is_zero a && is_zero b
       then (if get_sign a && get_sign b then neg_zero else zero)
  else if a <? b then b else a.

Definition Math_min (a b : float) : float :=
  if is_nan a || is_nan b then nan
  else if is_zero a && is_zero b
       then (if get_sign a || get_sign b then neg_zero else zero)
  else if b <? a then b else a.

(** [Math.round]: the nearest integer, ties towards plus infinity; NaN,
    the infinities and the zeros are returned as they are, and a result of
    zero keeps the sign of the argument.  The integer is computed exactly
    from the significand [m] and the exponent [e] of [x = +-m * 2^e]. *)
Definition Math_round (x : float) : float :=
  match Prim2SF x with
  | S754_finite s m e =>
      if (0 <=? e)%Z then x
      else
        let d := (2 ^ (- e))%Z in
        let z := if s then Z.neg m else Z.pos m in
        SF2Prim (binary_normalize prec emax ((2 * z + d) / (2 * d)) 0 s)
  | _ => x
  end.

Definition gtb (a b : float) : bool := b <? a.

(** Truthiness of a number: [0], [-0] and NaN are falsy. *)
Definition truthy (x : float) : bool := negb (is_zero x || is_nan x).

(** [x || d], [x ?? d] and [x || d] where [x] may be undefined. *)
Definition or_num (x d : float) : float := if truthy x then x else d.
Definition nullish (x : option float) (d : float) : float :=
  match x with Some v => v | None => d end.
Definition or_undef (x : option float) (d : float) : float :=
  match x with Some v => or_num v d | None => d end.

End B64.

(** ** The financial engine on binary64 numbers ([finance.ts]) *)

Module Finance64.
Import Floats.PrimFloat B64.
Local Open Scope float_scope.

Record FinancialDrivers := mkDrivers {
  units_sold : float; avg_price : float; unit_cost : float;
  opex_base : float; capex_base : float;
  dso : float; dpo : float; dio : float }.

Record FinancialParams := mkParams {
  period_days : float; min_cash_buffer : float;
  depreciation_life_years : float;
  price_to_units : float; morale_to_units : float;
  credibility_to_price : float;
  scrap_rate : option float }.

Record MiniPnL := mkPnL {
  revenue : float; cogs : float; gross_profit : float; opex : float;
  ebitda : float; depreciation : float; ebit : float; interest : float;
  taxes : float; net_income : float }.

Record MiniBalanceSheet := mkBalance {
  cash : float; ar : float; inventory : float; ppe : float;
  ap : float; debt : float; retained_earnings : float;
  other_equity : float }.

Record MiniCashFlow := mkCashFlow { cfo : float; cfi : float; cff : float }.

(** The notes that [computeFinancials] can push.  [NoteScrap r] stands for
    the template string with [r.toFixed(3)] in it; the other four are the
    fixed strings of the source. *)
Inductive Note :=
| NoteScrap (rate : float)
| NoteDebtDraw
| NoteDividend
| NotePlug
| NoteRecon.

Record FinancialSnapshot := mkSnapshot {
  cash_open : float;
  pnl : MiniPnL;
  cashflow : MiniCashFlow;
  balance : MiniBalanceSheet;
  cash_close : float;
  balance_ok : bool;
  cash_recon_ok : bool;
  notes : list Note }.

Record Policy := mkPolicy { dividend : bool; repay_debt : bool }.

Record FinanceInput := mkFinanceInput {
  prev_balance : MiniBalanceSheet;
  drivers : FinancialDrivers;
  params : FinancialParams;
  policy : option Policy;
  direct_cash_spending : option float }.

(** The tolerance [1e-6] of both identity checks. *)
Definition tolerance : float := 1e-6.

(** The [let] variables of the financing block (lines 49-69). *)
Record Financing := mkFinancing {
  f_cff : float;
  f_debt : float;
  f_retained_earnings : float;
  f_cash_close_prov : float;
  f_notes : list Note }.

(** Lines 55-69: a debt draw up to the minimum cash buffer; otherwise,
    under the dividend policy, a quarter of the surplus, at most the
    retained earnings. *)
Definition financing (min_buffer : float) (pol : option Policy)
    (st : Financing) : Financing :=
  if f_cash_close_prov st <? min_buffer then
    let needed := min_buffer - f_cash_close_prov st in
    {| f_cff := f_cff st + needed;
       f_debt := f_debt st + needed;
       f_retained_earnings := f_retained_earnings st;
       f_cash_close_prov := f_cash_close_prov st + needed;
       f_notes := f_notes st ++ [NoteDebtDraw] |}
  else if (match pol with Some p => dividend p | None => false end)
          && gtb (f_retained_earnings st) 0
          && gtb (f_cash_close_prov st) min_buffer then
    let div := Math_min (f_retained_earnings st)
                 ((f_cash_close_prov st - min_buffer) * 0.25) in
    if gtb div 0 then
      {| f_cff := f_cff st - div;
         f_debt := f_debt st;
         f_retained_earnings := f_retained_earnings st - div;
         f_cash_close_prov := f_cash_close_prov st - div;
         f_notes := f_notes st ++ [NoteDividend] |}
    else st
  else st.

(** Everything [computeFinancials] has computed when it reaches the
    "Identities & checks" block (lines 9-77). *)
Record Flows := mkFlows {
  fl_cash_open : float;
  fl_pnl : MiniPnL;
  fl_cfo : float;
  fl_cfi : float;
  fl_direct_cash_flow : float;
  fl_fin : Financing;
  fl_cash_close : float;
  fl_balance : MiniBalanceSheet }.

Definition flows (input : FinanceInput) : Flows :=
  let prev := prev_balance input in
  let drv := drivers input in
  let prm := params input in
  let spend := nullish (direct_cash_spending input) 0 in
  let cash_open := cash prev in
  (* --- P&L --- *)
  let revenue := units_sold drv * avg_price drv in
  let cogs_core := units_sold drv * unit_cost drv in
  let cogs_scrap := cogs_core * nullish (scrap_rate prm) 0 in
  let cogs := cogs_core + cogs_scrap in
  let notes1 :=
    if gtb (nullish (scrap_rate prm) 0) 0
    then [NoteScrap (nullish (scrap_rate prm) 0)] else [] in
  let gross_profit := revenue - cogs in
  let opex := opex_base drv in
  let ebitda := gross_profit - opex in
  let dep_life_years := Math_max 1 (depreciation_life_years prm) in
  let depreciation :=
    ppe prev / dep_life_years / 12 * (period_days prm / 30) in
  let ebit := ebitda - depreciation in
  let interest := debt prev * 0 in
  let taxes := Math_max 0 (ebit - interest) * 0 in
  let net_income := ebit - interest - taxes in
  (* --- Working capital (end-of-period balances) --- *)
  let period := Math_max 1 (period_days prm) in
  let ar' := revenue * (dso drv / period) in
  let inventory' := cogs * (dio drv / period) in
  let ap' := cogs * (dpo drv / period) in
  let dAR := ar' - ar prev in
  let dInv := inventory' - inventory prev in
  let dAP := ap' - ap prev in
  let deltaNWC := dAR + dInv - dAP in
  (* --- Capex & PP&E --- *)
  let capex := capex_base drv in
  let ppe' := Math_max 0 (ppe prev + capex - depreciation) in
  (* --- Cash flow (indirect) --- *)
  let cfo := net_income + depreciation - deltaNWC in
  let cfi := - capex in
  let direct_cash_flow := - spend in
  (* Financing policy *)
  let fin :=
    financing (min_cash_buffer prm) (policy input)
      {| f_cff := 0;
         f_debt := debt prev;
         f_retained_earnings := retained_earnings prev + net_income;
         f_cash_close_prov := cash_open + cfo + cfi + 0 + direct_cash_flow;
         f_notes := notes1 |} in
  let cash_close := cash_open + cfo + cfi + f_cff fin + direct_cash_flow in
  (* --- Balance sheet end-of-period --- *)
  let cash' := Math_max 0 cash_close in
  {| fl_cash_open := cash_open;
     fl_pnl := {| revenue := revenue; cogs := cogs;
                  gross_profit := gross_profit; opex := opex;
                  ebitda := ebitda; depreciation := depreciation;
                  ebit := ebit; interest := interest; taxes := taxes;
                  net_income := net_income |};
     fl_cfo := cfo;
     fl_cfi := cfi;
     fl_direct_cash_flow := direct_cash_flow;
     fl_fin := fin;
     fl_cash_close := cash_close;
     fl_balance :=
       {| cash := cash'; ar := ar'; inventory := inventory'; ppe := ppe';
          ap := ap'; debt := f_debt fin;
          retained_earnings := f_retained_earnings fin;
          other_equity := other_equity prev |} |}.

(** Assets and liabilities-plus-equity of a balance sheet, added up in the
    order of lines 79-80. *)
Definition assets_of (b : MiniBalanceSheet) : float :=
  cash b + ar b + inventory b + ppe b.
Definition liab_eq_of (b : MiniBalanceSheet) : float :=
  ap b + debt b + other_equity b + retained_earnings b.

(** "Identities & checks" (lines 78-100) and the returned snapshot. *)
Definition checks (w : Flows) : FinancialSnapshot :=
  let b := fl_balance w in
  let assets := cash b + ar b + inventory b + ppe b in
  let liab_eq := ap b + debt b + other_equity b + retained_earnings b in
  let balance_ok0 := Math_abs (assets - liab_eq) <? tolerance in
  let '(balance1, balance_ok1, notes2) :=
    if negb balance_ok0 then
      (* plug to retained earnings; logged as a note *)
      let plug := assets - liab_eq in
      ({| cash := cash b; ar := ar b; inventory := inventory b;
          ppe := ppe b; ap := ap b; debt := debt b;
          retained_earnings := retained_earnings b + plug;
          other_equity := other_equity b |},
       true,
       f_notes (fl_fin w) ++ [NotePlug])
    else (b, balance_ok0, f_notes (fl_fin w)) in
  let cash_recon_ok :=
    Math_abs (fl_cash_close w - f_cash_close_prov (fl_fin w)) <? tolerance in
  let notes3 := if negb cash_recon_ok then notes2 ++ [NoteRecon] else notes2 in
  {| cash_open := fl_cash_open w;
     pnl := fl_pnl w;
     cashflow := {| cfo := fl_cfo w; cfi := fl_cfi w;
                    cff := f_cff (fl_fin w) |};
     balance := balance1;
     cash_close := cash b;
     balance_ok := balance_ok1;
     cash_recon_ok := cash_recon_ok;
     notes := notes3 |}.

Definition computeFinancials (input : FinanceInput) : FinancialSnapshot :=
  checks (flows input).

(** The constants of [engine.ts] that the engine passes. *)
Definition FINANCE_PARAMS_DEFAULT : FinancialParams :=
  {| period_days := 30;
     min_cash_buffer := 250000;
     depreciation_life_years := 5;
     price_to_units := 0;
     morale_to_units := 0;
     credibility_to_price := 0;
     scrap_rate := Some 0 |}.

Definition STARTING_BALANCE : MiniBalanceSheet :=
  {| cash := 1000000; ar := 250000; inventory := 300000; ppe := 2000000;
     ap := 200000; debt := 0; retained_earnings := 1350000;
     other_equity := 1700000 |}.

Definition BASELINE_DRIVERS : FinancialDrivers :=
  {| units_sold := 10000; avg_price := 100; unit_cost := 60;
     opex_base := 300000; capex_base := 50000;
     dso := 30; dpo := 30; dio := 45 |}.

End Finance64.

(** ** The delta layers of the engine on binary64 numbers ([engine.ts]) *)

Module Engine64.
Import Floats.PrimFloat B64.
Local Open Scope float_scope.

Record Caps := mkCaps {
  cap_morale : float; cap_credibility : float;
  cap_service_risk : float; cap_backlog_pressure : float }.

Definition DEFAULT_CAPS : Caps :=
  {| cap_morale := 3; cap_credibility := 2;
     cap_service_risk := 0.6; cap_backlog_pressure := 1 |}.

(** [caps[key]] for a property name that need not be one of [Caps]. *)
Definition Caps_get (caps : Caps) (key : string) : option float :=
  if String.eqb key "morale" then Some (cap_morale caps)
  else if String.eqb key "credibility" then Some (cap_credibility caps)
  else if String.eqb key "service_risk" then Some (cap_service_risk caps)
  else if String.eqb key "backlog_pressure"
       then Some (cap_backlog_pressure caps)
  else None.

Record DirStrength := mkDirStrength { dir : Direction; strength : float }.

Record Signals := mkSignals {
  sig_morale : DirStrength;
  sig_credibility : DirStrength;
  sig_backlog_pressure : DirStrength;
  sig_service_risk : DirStrength }.

Record ImpactChannels := mkImpactChannels {
  ic_morale : option DirStrength;
  ic_credibility : option DirStrength;
  ic_backlog_pressure : option DirStrength;
  ic_service_risk : option DirStrength }.

(** What the delta layers read of an evaluator output: the signals, the
    impact channels of the event and the nonsense penalty. *)
Record EvaluatorOutput := mkEvaluatorOutput {
  eo_signals : Signals;
  impact_channels : ImpactChannels;
  nonsense_penalty : float }.

(** What the delta layers read of a state: [flags.supply_fragile] and
    [credibility]. *)
Record State := mkState {
  supply_fragile : bool;
  credibility : float }.

(** The six metrics of [applied_deltas]. *)
Record Deltas := mkDeltas {
  d_morale : float; d_credibility : float; d_backlog : float;
  d_service : float; d_share : float; d_cash_runway : float }.

(** The four entries of [legacySignals], in the order of the literal. *)
Definition legacySignals (signals : Signals) : JS.obj DirStrength :=
  [("morale", sig_morale signals);
   ("credibility", sig_credibility signals);
   ("backlog", sig_backlog_pressure signals);
   ("service", sig_service_risk signals)].

(** The callback of the [forEach] over the legacy signals. *)
Definition ceoSignalStep (state : State) (caps : Caps) (deltas : JS.obj float)
    (entry : string * DirStrength) : JS.obj float :=
  let '(key, signal) := entry in
  match dir signal with
  | none => JS.set key 0 deltas
  | d =>
      let sign := match d with up => 1 | _ => -1 end in
      let strength := strength signal in
      if String.eqb key "backlog" then
        let unitsDelta := Math_round (strength * 250) * sign in
        let supplyMod := if supply_fragile state then 1.2 else 1 in
        JS.set key (unitsDelta * supplyMod) deltas
      else
        let cap := or_undef (Caps_get caps key) 1 in
        JS.set key (strength * cap * sign) deltas
  end.

Definition applyCEOSignals (signals : Signals) (state : State) (caps : Caps)
    : JS.obj float :=
  fold_left (ceoSignalStep state caps) (legacySignals signals) [].

(** [Object.entries] of the impact channels: the properties that are
    present, in the order of the schema. *)
Definition impact_entries (ic : ImpactChannels)
    : list (string * option DirStrength) :=
  [("morale", ic_morale ic);
   ("credibility", ic_credibility ic);
   ("backlog_pressure", ic_backlog_pressure ic);
   ("service_risk", ic_service_risk ic)].

(** The callback of the [forEach] over the impact channels. *)
Definition eventImpactStep (state : State) (caps : Caps) (deltas : JS.obj float)
    (entry : string * option DirStrength) : JS.obj float :=
  let '(key, osignal) := entry in
  match osignal with
  | None => deltas
  | Some signal =>
      match dir signal with
      | none => deltas
      | d =>
          let sign := match d with up => 1 | _ => -1 end in
          let strength := strength signal in
          (* Map event impact keys to state keys *)
          let stateKey :=
            if String.eqb key "backlog_pressure" then "backlog"%string
            else if String.eqb key "service_risk" then "service"%string
            else key in
          if String.eqb stateKey "backlog" then
            let unitsDelta := Math_round (strength * 200) * sign in
            let supplyMod := if supply_fragile state then 1.3 else 1 in
            JS.set stateKey
              (or_undef (JS.get stateKey deltas) 0 + unitsDelta * supplyMod)
              deltas
          else
            let cap := or_undef (Caps_get caps key) 1 in
            JS.set stateKey
              (or_undef (JS.get stateKey deltas) 0 + strength * cap * sign * 0.8)
              deltas
      end
  end.

Definition applyEventImpact (eventImpact : ImpactChannels) (state : State)
    (caps : Caps) : JS.obj float :=
  fold_left (eventImpactStep state caps) (impact_entries eventImpact) [].

Definition applyNonsensePenalty (nonsensePenalty : float) (state : State)
    (caps : Caps) : JS.obj float :=
  if nonsensePenalty <=? 0 then []
  else
    let penaltyCap := cap_credibility caps * 0.2 in
    let credibilityPenalty := (- nonsensePenalty) * penaltyCap in
    let moralePenalty :=
      if credibility state <? 50
      then (- nonsensePenalty) * cap_morale caps * 0.1 else 0 in
    [("credibility"%string, credibilityPenalty);
     ("morale"%string, moralePenalty)].

(** [combined[key] = (combined[key] || 0) + delta] for every entry. *)
Definition merge_deltas (combined extra : JS.obj float) : JS.obj float :=
  fold_left
    (fun acc entry =>
       JS.set (fst entry) (or_undef (JS.get (fst entry) acc) 0 + snd entry) acc)
    extra combined.

Definition applySignals (evaluatorOutput : EvaluatorOutput) (state : State)
    (caps : Caps) : JS.obj float :=
  let ceoDeltas := applyCEOSignals (eo_signals evaluatorOutput) state caps in
  let eventDeltas :=
    applyEventImpact (impact_channels evaluatorOutput) state caps in
  let penaltyDeltas :=
    applyNonsensePenalty (nonsense_penalty evaluatorOutput) state caps in
  merge_deltas (merge_deltas ceoDeltas eventDeltas) penaltyDeltas.

Definition zero_deltas : Deltas :=
  {| d_morale := 0; d_credibility := 0; d_backlog := 0;
     d_service := 0; d_share := 0; d_cash_runway := 0 |}.

(** [applied[key] = clamped] when [key in applied]. *)
Definition assign_delta (key : string) (v : float) (a : Deltas) : Deltas :=
  if String.eqb key "morale" then
    mkDeltas v (d_credibility a) (d_backlog a) (d_service a) (d_share a)
             (d_cash_runway a)
  else if String.eqb key "credibility" then
    mkDeltas (d_morale a) v (d_backlog a) (d_service a) (d_share a)
             (d_cash_runway a)
  else if String.eqb key "backlog" then
    mkDeltas (d_morale a) (d_credibility a) v (d_service a) (d_share a)
             (d_cash_runway a)
  else if String.eqb key "service" then
    mkDeltas (d_morale a) (d_credibility a) (d_backlog a) v (d_share a)
             (d_cash_runway a)
  else if String.eqb key "share" then
    mkDeltas (d_morale a) (d_credibility a) (d_backlog a) (d_service a) v
             (d_cash_runway a)
  else if String.eqb key "cash_runway" then
    mkDeltas (d_morale a) (d_credibility a) (d_backlog a) (d_service a)
             (d_share a) v
  else a.

(** The cap that [clampDeltas] picks for a key. *)
Definition cap_for (caps : Caps) (key : string) : float :=
  if String.eqb key "morale" then cap_morale caps
  else if String.eqb key "credibility" then cap_credibility caps
  else if String.eqb key "service" then cap_service_risk caps
  else if String.eqb key "backlog" then cap_backlog_pressure caps * 250
  else if String.eqb key "share" then cap_backlog_pressure caps
  else if String.eqb key "cash_runway" then cap_backlog_pressure caps
  else 1.

Definition clampDeltas (deltas : JS.obj float) (state : State) (caps : Caps)
    : Deltas :=
  fold_left
    (fun applied entry =>
       let '(key, delta) := entry in
       let cap := cap_for caps key in
       let clamped := Math_max (- cap) (Math_min cap delta) in
       assign_delta key clamped applied)
    deltas zero_deltas.

End Engine64.

(** ** Notions used by the properties on binary64 numbers *)

Module Spec64.
Import Floats.PrimFloat Floats.SpecFloat B64.
Local Open Scope float_scope.

(** A number that is zero or positive, on the specification side of a
    binary64 value. *)
Definition SFnonneg (c : spec_float) : Prop :=
  SFleb (S754_zero false) c = true.

(** The sum that the cash reconciliation is about, added up from the
    fields of a returned snapshot in the order of [finance.ts], line 70:
    cash_open + CFO + CFI + CFF - direct spend. *)
Definition reconciled_sum (r : Finance64.FinancialSnapshot) (spend : float)
    : float :=
  Finance64.cash_open r + Finance64.cfo (Finance64.cashflow r)
  + Finance64.cfi (Finance64.cashflow r)
  + Finance64.cff (Finance64.cashflow r) - spend.

(** The direct spending of an input: [direct_cash_spending = 0] by
    default. *)
Definition spending (input : Finance64.FinanceInput) : float :=
  nullish (Finance64.direct_cash_spending input) 0.

(** The imbalance of a balance sheet: assets minus liabilities and
    equity. *)
Definition imbalance (b : Finance64.MiniBalanceSheet) : float :=
  Finance64.assets_of b - Finance64.liab_eq_of b.

(** A balance sheet that differs from [b] in its retained earnings
    only. *)
Definition with_retained_earnings (b : Finance64.MiniBalanceSheet)
    (re : float) : Finance64.MiniBalanceSheet :=
  {| Finance64.cash := Finance64.cash b; Finance64.ar := Finance64.ar b;
     Finance64.inventory := Finance64.inventory b;
     Finance64.ppe := Finance64.ppe b; Finance64.ap := Finance64.ap b;
     Finance64.debt := Finance64.debt b;
     Finance64.retained_earnings := re;
     Finance64.other_equity := Finance64.other_equity b |}.

(** *** Inputs *)

(** The baseline of the finance tests. *)
Definition baseline_input : Finance64.FinanceInput :=
  {| Finance64.prev_balance := Finance64.STARTING_BALANCE;
     Finance64.drivers := Finance64.BASELINE_DRIVERS;
     Finance64.params := Finance64.FINANCE_PARAMS_DEFAULT;
     Finance64.policy := None;
     Finance64.direct_cash_spending := None |}.

(** The baseline on an opening sheet that balances: retained earnings of
    1,650,000 instead of the 1,350,000 of the starting balance. *)
Definition balanced_input : Finance64.FinanceInput :=
  {| Finance64.prev_balance :=
       Finance64.mkBalance 1000000 250000 300000 2000000
                           200000 0 1650000 1700000;
     Finance64.drivers := Finance64.BASELINE_DRIVERS;
     Finance64.params := Finance64.FINANCE_PARAMS_DEFAULT;
     Finance64.policy := None;
     Finance64.direct_cash_spending := None |}.

(** A large loss-making period, every driver within [DRIVER_BOUNDS]: a
    million units sold at 1000 and made at 8000, with 60, 30 and 90 days
    of receivables, payables and inventory. *)
Definition heavy_drivers : Finance64.FinancialDrivers :=
  {| Finance64.units_sold := 1000000; Finance64.avg_price := 1000;
     Finance64.unit_cost := 8000; Finance64.opex_base := 300000;
     Finance64.capex_base := 50000;
     Finance64.dso := 60; Finance64.dpo := 30; Finance64.dio := 90 |}.

(** The heavy period with the default parameters and a direct spending
    of ten cents. *)
Definition heavy_spending_input : Finance64.FinanceInput :=
  {| Finance64.prev_balance := Finance64.STARTING_BALANCE;
     Finance64.drivers := heavy_drivers;
     Finance64.params := Finance64.FINANCE_PARAMS_DEFAULT;
     Finance64.policy := None;
     Finance64.direct_cash_spending := Some 0.1 |}.


(** The baseline with a million units made at 7000: every driver within
    [DRIVER_BOUNDS], default parameters, no direct spending. *)
Definition costly_input : Finance64.FinanceInput :=
  {| Finance64.prev_balance := Finance64.STARTING_BALANCE;
     Finance64.drivers :=
       {| Finance64.units_sold := 1000000; Finance64.avg_price := 100;
          Finance64.unit_cost := 7000; Finance64.opex_base := 300000;
          Finance64.capex_base := 50000;
          Finance64.dso := 30; Finance64.dpo := 30; Finance64.dio := 45 |};
     Finance64.params := Finance64.FINANCE_PARAMS_DEFAULT;
     Finance64.policy := None;
     Finance64.direct_cash_spending := None |}.

(** The baseline under the dividend policy with five millions of opening
    cash. *)
Definition dividend_input : Finance64.FinanceInput :=
  {| Finance64.prev_balance :=
       Finance64.mkBalance 5000000 250000 300000 2000000
                           200000 0 1350000 1700000;
     Finance64.drivers := Finance64.BASELINE_DRIVERS;
     Finance64.params := Finance64.FINANCE_PARAMS_DEFAULT;
     Finance64.policy :=
       Some {| Finance64.dividend := true; Finance64.repay_debt := false |};
     Finance64.direct_cash_spending := None |}.

(** *** Caps *)

(** [|v| <= cap]. *)
Definition within_cap (cap v : float) : Prop :=
  (Math_abs v <=? cap) = true.

(** Every applied delta is within its cap; backlog against
    [backlog_pressure * 250], share and cash runway against
    [backlog_pressure]. *)
Definition within_caps (caps : Engine64.Caps) (a : Engine64.Deltas) : Prop :=
  within_cap (Engine64.cap_morale caps) (Engine64.d_morale a)
  /\ within_cap (Engine64.cap_credibility caps) (Engine64.d_credibility a)
  /\ within_cap (Engine64.cap_service_risk caps) (Engine64.d_service a)
  /\ within_cap (Engine64.cap_backlog_pressure caps * 250)
                (Engine64.d_backlog a)
  /\ within_cap (Engine64.cap_backlog_pressure caps) (Engine64.d_share a)
  /\ within_cap (Engine64.cap_backlog_pressure caps)
                (Engine64.d_cash_runway a).

(** The caps are zero or positive (so none is NaN). *)
Definition caps_nonneg (caps : Engine64.Caps) : Prop :=
  (0 <=? Engine64.cap_morale caps) = true
  /\ (0 <=? Engine64.cap_credibility caps) = true
  /\ (0 <=? Engine64.cap_service_risk caps) = true
  /\ (0 <=? Engine64.cap_backlog_pressure caps) = true.


(** The state of the engine tests, as the delta layers read it. *)
Definition fixture_state : Engine64.State :=
  {| Engine64.supply_fragile := false; Engine64.credibility := 80 |}.

Definition no_signal : Engine64.DirStrength :=
  {| Engine64.dir := none; Engine64.strength := 0 |}.

Definition no_impact : Engine64.ImpactChannels :=
  Engine64.mkImpactChannels None None None None.

(** All four signals up at strength 2.0, beyond the range of the
    schema. *)
Definition extreme_output : Engine64.EvaluatorOutput :=
  {| Engine64.eo_signals :=
       Engine64.mkSignals
         (Engine64.mkDirStrength up 2) (Engine64.mkDirStrength up 2)
         (Engine64.mkDirStrength up 2) (Engine64.mkDirStrength up 2);
     Engine64.impact_channels := no_impact;
     Engine64.nonsense_penalty := 0 |}.



End Spec64.

(** * Properties *)

(** ** Facts about the JavaScript primitives *)

Module JSFacts.
Import JS.

Lemma ltb_lt a b : ltb a b = true <-> a < b.
Proof.
  unfold ltb. rewrite Qlt_alt. destruct (a ?= b); split; congruence.
Qed.

Lemma ltb_ge a b : ltb a b = false <-> b <= a.
Proof.
  unfold ltb. rewrite (Qle_alt b a), <- (Qcompare_antisym a b).
  destruct (a ?= b); simpl; split; congruence.
Qed.

Lemma leb_le a b : leb a b = true <-> a <= b.
Proof.
  unfold leb. rewrite Qle_alt. destruct (a ?= b); split; congruence.
Qed.

Lemma max_ge_l a b : a <= Math_max a b.
Proof. apply Q.le_max_l. Qed.


Lemma min_le_l a b : Math_min a b <= a.
Proof. apply Q.le_min_l. Qed.

Lemma min_le_r a b : Math_min a b <= b.
Proof. apply Q.le_min_r. Qed.

Lemma max_case a b :
  (b <= a /\ Math_max a b == a) \/ (a <= b /\ Math_max a b == b).
Proof.
  unfold Math_max.
  destruct (Q.max_spec a b) as [[H E] | [H E]]; [right | left];
    split; auto. apply Qlt_le_weak; exact H.
Qed.

Lemma min_case a b :
  (a <= b /\ Math_min a b == a) \/ (b <= a /\ Math_min a b == b).
Proof.
  unfold Math_min.
  destruct (Q.min_spec a b) as [[H E] | [H E]]; [left | right];
    split; auto. apply Qlt_le_weak; exact H.
Qed.

End JSFacts.

(** ** The financial engine *)

Module FinanceFacts.
Import JS JSFacts Finance.

(** The financing step moves the provisional cash close and CFF by the
    same amount. *)
Lemma financing_lockstep buf pol st :
  f_cash_close_prov (financing buf pol st) - f_cff (financing buf pol st)
  == f_cash_close_prov st - f_cff st.
Proof.
  unfold financing.
  destruct (ltb (f_cash_close_prov st) buf); simpl; [lra|].
  destruct (_ && _); [|lra].
  destruct (gtb _ 0); simpl; lra.
Qed.

(** After financing the provisional cash close is at least the buffer. *)
Lemma financing_floor buf pol st :
  buf <= f_cash_close_prov (financing buf pol st).
Proof.
  unfold financing.
  destruct (ltb (f_cash_close_prov st) buf) eqn:Hlt; simpl; [lra|].
  apply ltb_ge in Hlt.
  destruct (_ && _); [|exact Hlt].
  destruct (gtb _ 0); simpl; [|exact Hlt].
  pose proof (min_le_r (f_retained_earnings st)
                ((f_cash_close_prov st - buf) * (25 # 100))) as Hm.
  lra.
Qed.

(** The cash close of line 70 is the provisional cash close after
    financing. *)
Lemma flows_cash_close input :
  fl_cash_close (flows input) == f_cash_close_prov (fl_fin (flows input)).
Proof.
  unfold flows; cbn [fl_cash_close fl_fin].
  match goal with
  | |- context [financing ?b ?p ?s] =>
      pose proof (financing_lockstep b p s) as H;
      cbn [f_cash_close_prov f_cff] in H;
      set (fin := financing b p s) in *
  end.
  lra.
Qed.

Lemma flows_cash_close_floor input :
  min_cash_buffer (params input) <= fl_cash_close (flows input).
Proof.
  rewrite flows_cash_close.
  unfold flows; cbn [fl_fin]. apply financing_floor.
Qed.

(** The flow fields that the snapshot carries over. *)
Lemma checks_cash_close (w : Flows) :
  cash_close (checks w) = cash (fl_balance w)
  /\ cash_open (checks w) = fl_cash_open w
  /\ cashflow (checks w)
     = {| cfo := fl_cfo w; cfi := fl_cfi w; cff := f_cff (fl_fin w) |}.
Proof.
  unfold checks.
  destruct (negb (ltb _ tolerance)); cbn; auto.
Qed.

Lemma flows_cash input :
  cash (fl_balance (flows input)) = Math_max 0 (fl_cash_close (flows input)).
Proof. reflexivity. Qed.

Lemma flows_cash_close_sum input :
  let w := flows input in
  fl_cash_close w
  = fl_cash_open w + fl_cfo w + fl_cfi w + f_cff (fl_fin w)
    + - nullish (direct_cash_spending input) 0.
Proof. reflexivity. Qed.

End FinanceFacts.

(** ** Claims about [computeFinancials] *)

Module FinanceClaims.
Import JS JSFacts Finance FinanceFacts.

(** C8. With the starting balance, the baseline drivers and the default
    parameters (a 30-day period), [computeFinancials] returns revenue
    1,000,000, cogs 600,000, gross profit 400,000, receivables 1,000,000,
    inventory 900,000, payables 600,000, [balance_ok = true] and
    [cash_recon_ok = true]. *)
Theorem baseline_scenario :
  let r := computeFinancials baseline_input in
  revenue (pnl r) == 1000000
  /\ cogs (pnl r) == 600000
  /\ gross_profit (pnl r) == 400000
  /\ ar (balance r) == 1000000
  /\ inventory (balance r) == 900000
  /\ ap (balance r) == 600000
  /\ balance_ok r = true
  /\ cash_recon_ok r = true.
Proof.
  cbv zeta. repeat split; vm_compute; reflexivity.
Qed.

End FinanceClaims.

(** ** Signal resolution and turn resolution *)

Module EngineFacts.
Import JS JSFacts Engine.

Lemma clamp_abs (cap d : Q) :
  0 <= cap -> Qabs (Math_max (- cap) (Math_min cap d)) <= cap.
Proof.
  intros Hc. apply Qabs_Qle_condition. split.
  - apply max_ge_l.
  - destruct (max_case (- cap) (Math_min cap d)) as [[_ E] | [_ E]];
      rewrite E.
    + lra.
    + apply min_le_l.
Qed.

Lemma max0_nonneg (x : Q) : 0 <= Math_max 0 x.
Proof. apply max_ge_l. Qed.

Lemma clamp_0_100 (x : Q) :
  0 <= Math_max 0 (Math_min 100 x) <= 100.
Proof.
  split; [apply max_ge_l|].
  destruct (max_case 0 (Math_min 100 x)) as [[_ E] | [_ E]]; rewrite E.
  - lra.
  - apply min_le_l.
Qed.

(** Clamping under a fixed, non-negative cap configuration. *)
Section Clamping.

Variable caps : Caps.
Hypothesis caps_ok : caps_nonneg caps.

Lemma zero_deltas_within : within_caps caps zero_deltas.
Proof.
  destruct caps_ok as (Hm & Hc & Hs & Hb).
  unfold within_caps, zero_deltas; simpl.
  repeat split; try assumption; lra.
Qed.

Ltac field_done :=
  unfold within_caps; simpl; repeat split; auto using clamp_abs.

(** One iteration of the loop of [clampDeltas] keeps every field within
    its cap. *)
Lemma assign_clamped_within key delta a :
  within_caps caps a ->
  within_caps caps
    (assign_delta key
       (Math_max (- cap_for caps key) (Math_min (cap_for caps key) delta)) a).
Proof.
  destruct caps_ok as (Hm & Hc & Hs & Hb).
  intros (Am & Ac & As & Ab & Ash & Acr).
  assert (Hb250 : 0 <= cap_backlog_pressure caps * 250) by lra.
  unfold assign_delta, cap_for.
  destruct (String.eqb key "morale"); [field_done|].
  destruct (String.eqb key "credibility"); [field_done|].
  destruct (String.eqb key "backlog") eqn:Eb.
  - apply String.eqb_eq in Eb; subst key. simpl. field_done.
  - destruct (String.eqb key "service"); [field_done|].
    destruct (String.eqb key "share"); [field_done|].
    destruct (String.eqb key "cash_runway"); field_done.
Qed.

Lemma clampDeltas_within (deltas : obj Q) state :
  within_caps caps (clampDeltas deltas state caps).
Proof.
  unfold clampDeltas.
  generalize zero_deltas_within.
  generalize zero_deltas as acc.
  induction deltas as [|[key delta] rest IH]; intros acc Hacc; simpl.
  - exact Hacc.
  - apply IH. apply assign_clamped_within; assumption.
Qed.

End Clamping.

(** *** Keys of the raw delta map *)

Lemma keys_within_nil allowed : keys_within allowed [].
Proof. intros k []. Qed.

Lemma keys_within_set allowed k v o :
  In k allowed -> keys_within allowed o -> keys_within allowed (set k v o).
Proof.
  intros Hk. induction o as [|[k' v'] o IH]; intros Ho x Hx; simpl in *.
  - destruct Hx as [<- | []]. exact Hk.
  - destruct (String.eqb k k'); simpl in Hx.
    + apply Ho. exact Hx.
    + destruct Hx as [<- | Hx].
      * apply Ho. left; reflexivity.
      * apply IH; [|exact Hx]. intros y Hy. apply Ho. right; exact Hy.
Qed.

Lemma get_not_in (k : string) (o : obj Q) :
  ~ In k (keys o) -> get k o = None.
Proof.
  induction o as [|[k' v'] o IH]; simpl; intros Hn; [reflexivity|].
  destruct (String.eqb k k') eqn:E.
  - apply String.eqb_eq in E. subst. exfalso. apply Hn. left; reflexivity.
  - apply IH. intros H. apply Hn. right; exact H.
Qed.

Lemma ceoSignalStep_keys state caps deltas key signal :
  In key metric_keys ->
  keys_within metric_keys deltas ->
  keys_within metric_keys (ceoSignalStep state caps deltas (key, signal)).
Proof.
  intros Hk Hd. unfold ceoSignalStep.
  destruct (dir signal); try destruct (String.eqb key "backlog");
    apply keys_within_set; assumption.
Qed.

Lemma applyCEOSignals_keys signals state caps :
  keys_within metric_keys (applyCEOSignals signals state caps).
Proof.
  unfold applyCEOSignals, legacySignals. cbn [fold_left].
  repeat (apply ceoSignalStep_keys; [simpl; tauto|]).
  apply keys_within_nil.
Qed.

Lemma eventImpactStep_keys state caps deltas key osignal :
  In key impact_keys ->
  keys_within metric_keys deltas ->
  keys_within metric_keys (eventImpactStep state caps deltas (key, osignal)).
Proof.
  intros Hk Hd. unfold eventImpactStep.
  destruct osignal as [signal|]; [|exact Hd].
  simpl in Hk.
  destruct (dir signal); try exact Hd;
    destruct Hk as [<- | [<- | [<- | [<- | []]]]];
    cbn [String.eqb Ascii.eqb Bool.eqb andb];
    apply keys_within_set; try assumption; simpl; tauto.
Qed.

Lemma applyEventImpact_keys ic state caps :
  keys_within metric_keys (applyEventImpact ic state caps).
Proof.
  unfold applyEventImpact, impact_entries. cbn [fold_left].
  repeat (apply eventImpactStep_keys; [simpl; tauto|]).
  apply keys_within_nil.
Qed.

Lemma applyNonsensePenalty_keys p state caps :
  keys_within metric_keys (applyNonsensePenalty p state caps).
Proof.
  unfold applyNonsensePenalty. destruct (leb p 0).
  - apply keys_within_nil.
  - intros k Hk. simpl in Hk. unfold metric_keys. simpl.
    destruct Hk as [<- | [<- | []]]; tauto.
Qed.

Lemma merge_deltas_keys allowed a b :
  keys_within allowed a -> keys_within allowed b ->
  keys_within allowed (merge_deltas a b).
Proof.
  unfold merge_deltas. revert a.
  induction b as [|[k v] b IH]; intros a Ha Hb; simpl; [exact Ha|].
  apply IH.
  - apply keys_within_set; [|exact Ha]. apply Hb. left; reflexivity.
  - intros x Hx. apply Hb. right; exact Hx.
Qed.

Create HintDb delta_keys.
#[local] Hint Resolve merge_deltas_keys applyCEOSignals_keys
  applyEventImpact_keys applyNonsensePenalty_keys : delta_keys.

Lemma applySignals_keys ev state caps :
  keys_within metric_keys (applySignals ev state caps).
Proof.
  unfold applySignals. auto with delta_keys.
Qed.

(** The four metric keys are always stored. *)
Lemma has_set_same (k : string) (v : Q) (o : obj Q) : has k (set k v o) = true.
Proof.
  unfold has. induction o as [|[k' v'] o IH]; simpl.
  - rewrite String.eqb_refl. reflexivity.
  - destruct (String.eqb k k') eqn:E; simpl; rewrite E;
      [reflexivity | exact IH].
Qed.

Lemma has_set_keep (k k' : string) (v : Q) (o : obj Q) :
  has k o = true -> has k (set k' v o) = true.
Proof.
  unfold has. induction o as [|[k1 v1] o IH]; simpl; [discriminate|].
  destruct (String.eqb k' k1) eqn:E'; simpl.
  - destruct (String.eqb k k1); auto.
  - destruct (String.eqb k k1); auto.
Qed.

Lemma ceoSignalStep_sets state caps deltas key signal :
  has key (ceoSignalStep state caps deltas (key, signal)) = true.
Proof.
  unfold ceoSignalStep.
  destruct (dir signal); try destruct (String.eqb key "backlog");
    apply has_set_same.
Qed.

Lemma ceoSignalStep_keeps state caps deltas entry k :
  has k deltas = true -> has k (ceoSignalStep state caps deltas entry) = true.
Proof.
  destruct entry as [key signal]. unfold ceoSignalStep. intros H.
  destruct (dir signal); try destruct (String.eqb key "backlog");
    apply has_set_keep; exact H.
Qed.

Lemma applyCEOSignals_has signals state caps k :
  In k metric_keys -> has k (applyCEOSignals signals state caps) = true.
Proof.
  unfold applyCEOSignals, legacySignals, metric_keys. cbn [fold_left].
  intros [<- | [<- | [<- | [<- | []]]]];
    repeat first [ apply ceoSignalStep_sets | apply ceoSignalStep_keeps ].
Qed.

Lemma merge_deltas_has a b k :
  has k a = true -> has k (merge_deltas a b) = true.
Proof.
  unfold merge_deltas. revert a.
  induction b as [|[k' v] b IH]; intros a Ha; simpl; [exact Ha|].
  apply IH. apply has_set_keep. exact Ha.
Qed.

Lemma applySignals_has ev state caps k :
  In k metric_keys -> has k (applySignals ev state caps) = true.
Proof.
  intros Hk. unfold applySignals.
  do 2 apply merge_deltas_has. apply applyCEOSignals_has. exact Hk.
Qed.

(** *** Driver bounds *)

Lemma clamp_bounds x lo hi : lo <= hi -> lo <= clamp x lo hi <= hi.
Proof.
  intros H. unfold clamp. split.
  - destruct (min_case hi (Math_max lo x)) as [[_ E] | [_ E]]; rewrite E.
    + exact H.
    + apply max_ge_l.
  - apply min_le_l.
Qed.

Lemma turnDrivers_bounds state decl ev :
  let d := fst (fst (turnDrivers state decl ev)) in
  units_min <= units_sold d <= units_max
  /\ price_min <= avg_price d <= price_max
  /\ cost_min <= unit_cost d <= cost_max.
Proof.
  cbv zeta. unfold turnDrivers.
  repeat match goal with
  | |- context [let '(a, b) := ?X in _] => destruct X
  end.
  destruct (is_up _ && negb _); cbn;
    repeat split; apply clamp_bounds; vm_compute; discriminate.
Qed.

(** The revenue of a turn is positive, so the margin of the new state
    divides by a positive number. *)
Lemma turn_revenue_positive state decl ev :
  0 < revenue (pnl (Finance.computeFinancials
                      (turnFinanceInput state decl ev))).
Proof.
  pose proof (turnDrivers_bounds state decl ev) as (Hu & Hp & _).
  cbv zeta in Hu, Hp.
  unfold Finance.computeFinancials, Finance.checks.
  destruct (if negb _ then _ else _) as [[b1 ok1] n2].
  cbn [pnl]. unfold Finance.flows. cbn [Finance.fl_pnl revenue].
  unfold turnFinanceInput. cbn [drivers].
  unfold units_min, price_min in *.
  set (d := fst (fst (turnDrivers state decl ev))) in *.
  nra.
Qed.

(** *** The spending step *)

(** The spending step leaves every field but [balance.cash] as it is;
    without a positive amount it leaves the snapshot as it is, and with
    one it sets [balance.cash] to the floored difference. *)
Lemma spending_step_cases prev cs (F : FinancialSnapshot) ex :
  let f := fst (applyDirectSpending prev cs F ex) in
  f = set_balance_cash F (cash (balance f))
  /\ (cs <= 0 -> f = F)
  /\ (0 < cs ->
      cash (balance f)
      = Math_max 0 (cash (balance F) - directCashSpending prev cs)).
Proof.
  cbv zeta. unfold applyDirectSpending, gtb.
  destruct (ltb 0 cs) eqn:E; cbn [fst].
  - apply ltb_lt in E. split; [reflexivity|]. split.
    + intros H. exfalso. apply (Qlt_irrefl 0).
      apply Qlt_le_trans with cs; assumption.
    + intros _. reflexivity.
  - apply ltb_ge in E.
    assert (Heta : F = set_balance_cash F (cash (balance F))).
    { destruct F as [co p cf b cc bo cr ns]. destruct b. reflexivity. }
    split; [exact Heta|]. split; [reflexivity|].
    intros H. exfalso. apply (Qlt_irrefl 0).
    apply Qlt_le_trans with cs; assumption.
Qed.

End EngineFacts.

Module EngineClaims.
Import JS JSFacts Engine EngineFacts.

(** C7. For every state with its bounded fields in their domains, every
    declaration and every evaluator output, the state after the turn has
    morale, credibility and service in [0,100] and backlog, share and cash
    runway at or above 0. *)
Theorem bounded_state (caps : Caps) (state : State) (decl : string)
    (ev : EvaluatorOutput) :
  in_domain state ->
  in_domain (state_after (resolveTurn caps state decl ev)).
Proof.
  intros _. unfold in_domain, resolveTurn.
  cbn [state_after morale credibility service backlog share cash_runway].
  repeat split; try apply clamp_0_100; apply max0_nonneg.
Qed.

Lemma bounded_state_witness :
  in_domain fixture_state
  /\ in_domain
       (state_after
          (resolveTurn DEFAULT_CAPS fixture_state "Test declaration"
                       extreme_output)).
Proof.
  assert (H : in_domain fixture_state)
    by (unfold in_domain; simpl; repeat split; lra).
  split; [exact H|].
  exact (bounded_state DEFAULT_CAPS fixture_state "Test declaration"
                       extreme_output H).
Defined.

(** C9. In every turn record the raw deltas reported for backlog and
    service are 0, whatever the signals: the raw delta map stores these
    metrics under the keys [backlog] and [service] (its keys are exactly
    morale, credibility, backlog and service), while the record reads
    [backlog_pressure] and [service_risk], which are undefined. *)
Theorem raw_backlog_service_zero (caps : Caps) (state : State)
    (decl : string) (ev : EvaluatorOutput) :
  let r := resolveTurn caps state decl ev in
  let rawDeltas := applySignals ev (applyContextMods state) caps in
  d_backlog (deltas r) = 0
  /\ d_service (deltas r) = 0
  /\ get "backlog_pressure" rawDeltas = None
  /\ get "service_risk" rawDeltas = None
  /\ has "backlog" rawDeltas = true
  /\ has "service" rawDeltas = true
  /\ (forall k, In k (keys rawDeltas) -> In k metric_keys).
Proof.
  cbv zeta.
  pose proof (applySignals_keys ev (applyContextMods state) caps) as Hk.
  assert (Hb : get "backlog_pressure"
                 (applySignals ev (applyContextMods state) caps) = None).
  { apply get_not_in. intros H. apply Hk in H. simpl in H.
    repeat (destruct H as [H | H]; [discriminate H|]). exact H. }
  assert (Hs : get "service_risk"
                 (applySignals ev (applyContextMods state) caps) = None).
  { apply get_not_in. intros H. apply Hk in H. simpl in H.
    repeat (destruct H as [H | H]; [discriminate H|]). exact H. }
  unfold resolveTurn. cbn [deltas d_backlog d_service].
  rewrite Hb, Hs. cbn [or_undef].
  repeat split; try reflexivity; try exact Hk;
    apply applySignals_has; simpl; tauto.
Qed.

(** The applied deltas of backlog and service are not forced to 0. *)
Lemma applied_backlog_service_nonzero :
  let r := resolveTurn DEFAULT_CAPS fixture_state "Test declaration"
                       extreme_output in
  d_backlog (applied_deltas r) == 250 /\ d_service (applied_deltas r) == 6 # 10
  /\ d_backlog (deltas r) = 0 /\ d_service (deltas r) = 0.
Proof.
  cbv zeta. repeat split; vm_compute; reflexivity.
Qed.

(** C2, as amended.  When [detectCashSpending] returns a positive value
    for the declaration, the amount spent is that value times the pre-turn
    cash balance when the value is at most 1, and the value itself, in
    dollars, when it is above 1 (whatever phrase it was read from).  The
    amount is not handed to the Financial Engine: [computeFinancials] runs
    on an input without direct spending, and the amount is subtracted
    afterwards from [balance.cash] of the snapshot it returned, floored at
    zero; the rest of the snapshot is as computed. *)
Theorem spend_applied_after_snapshot (caps : Caps) (state : State)
    (decl : string) (ev : EvaluatorOutput) :
  0 < detectCashSpending decl ev ->
  let cs := detectCashSpending decl ev in
  let F := Finance.computeFinancials (turnFinanceInput state decl ev) in
  direct_cash_spending (turnFinanceInput state decl ev) = None
  /\ (cs <= 1 ->
      turnSpend state decl ev = cash (getPrevBalanceFromState state) * cs)
  /\ (1 < cs -> turnSpend state decl ev = cs)
  /\ financials (resolveTurn caps state decl ev)
     = set_balance_cash F
         (Math_max 0 (cash (balance F) - turnSpend state decl ev)).
Proof.
  intros Hpos. cbv zeta. split; [reflexivity|].
  split; [|split].
  - intros Hle. unfold turnSpend, directCashSpending.
    apply leb_le in Hle. rewrite Hle. reflexivity.
  - intros Hgt. unfold turnSpend, directCashSpending.
    destruct (leb (detectCashSpending decl ev) 1) eqn:E; [|reflexivity].
    apply leb_le in E. lra.
  - unfold resolveTurn. cbn [financials]. unfold applyDirectSpending.
    apply ltb_lt in Hpos. unfold gtb. rewrite Hpos. reflexivity.
Qed.

Lemma spend_applied_after_snapshot_witness :
  0 < detectCashSpending "spend 10% of our cash" neutral_output
  /\ (let decl := "spend 10% of our cash" in
      let cs := detectCashSpending decl neutral_output in
      let F := Finance.computeFinancials
                 (turnFinanceInput fixture_state decl neutral_output) in
      direct_cash_spending
        (turnFinanceInput fixture_state decl neutral_output) = None
      /\ (cs <= 1 ->
          turnSpend fixture_state decl neutral_output
          = cash (getPrevBalanceFromState fixture_state) * cs)
      /\ (1 < cs -> turnSpend fixture_state decl neutral_output = cs)
      /\ financials (resolveTurn DEFAULT_CAPS fixture_state decl
                                 neutral_output)
         = set_balance_cash F
             (Math_max 0
                (cash (balance F)
                 - turnSpend fixture_state decl neutral_output))).
Proof.
  assert (H : 0 < detectCashSpending "spend 10% of our cash" neutral_output)
    by (vm_compute; reflexivity).
  split; [exact H|].
  exact (spend_applied_after_snapshot DEFAULT_CAPS fixture_state
           "spend 10% of our cash" neutral_output H).
Defined.

(** A percentage phrase above 100% is taken as dollars: "spend 150% of our
    cash" detects 1.5, which is above 1, and spends 1.5. *)
Lemma percentage_above_100_is_dollars :
  detectCashSpending "spend 150% of our cash" neutral_output == 15 # 10
  /\ turnSpend fixture_state "spend 150% of our cash" neutral_output
     == 15 # 10
  /\ cash (getPrevBalanceFromState fixture_state) == 1000000.
Proof. repeat split; vm_compute; reflexivity. Qed.

(** C2, as stated, fails on the declaration "spend 10% of our cash": the
    snapshot of the turn record has [balance.cash = 150000], while
    [computeFinancials] given the spend of 100000 as an extra outflow
    returns [balance.cash = 250000] (the debt draw absorbs it). *)
Lemma spend_passed_to_engine_counterexample :
  let decl := "spend 10% of our cash" in
  let r := resolveTurn DEFAULT_CAPS fixture_state decl neutral_output in
  let G := Finance.computeFinancials
             (with_direct_spending
                (turnFinanceInput fixture_state decl neutral_output)
                (turnSpend fixture_state decl neutral_output)) in
  0 < detectCashSpending decl neutral_output
  /\ turnSpend fixture_state decl neutral_output == 100000
  /\ cash (balance (financials r)) == 150000
  /\ cash (balance G) == 250000
  /\ financials r <> G.
Proof.
  cbv zeta.
  split; [vm_compute; reflexivity|].
  split; [vm_compute; reflexivity|].
  split; [vm_compute; reflexivity|].
  split; [vm_compute; reflexivity|].
  intros H. apply (f_equal (fun f => Qeq_bool (cash (balance f)) 150000)) in H.
  vm_compute in H. discriminate H.
Qed.

(** C5, as amended.  The snapshot of the turn record is the snapshot that
    [computeFinancials] returned except, possibly, for [balance.cash]:
    every other field is as computed.  When [detectCashSpending] returns
    no positive value the two snapshots are identical; when it returns a
    positive value, [balance.cash] has been replaced, after the snapshot
    was created, by [Math.max(0, balance.cash - amount)]. *)
Theorem snapshot_changed_in_cash_only (caps : Caps) (state : State)
    (decl : string) (ev : EvaluatorOutput) :
  let F := Finance.computeFinancials (turnFinanceInput state decl ev) in
  let f := financials (resolveTurn caps state decl ev) in
  f = set_balance_cash F (cash (balance f))
  /\ (detectCashSpending decl ev <= 0 -> f = F)
  /\ (0 < detectCashSpending decl ev ->
      cash (balance f)
      = Math_max 0 (cash (balance F) - turnSpend state decl ev)).
Proof.
  cbv zeta. unfold turnSpend.
  change (financials (resolveTurn caps state decl ev))
    with (fst (applyDirectSpending (getPrevBalanceFromState state)
                 (detectCashSpending decl ev)
                 (Finance.computeFinancials (turnFinanceInput state decl ev))
                 (snd (turnDrivers state decl ev)))).
  apply spending_step_cases.
Qed.

(** Both cases occur: "Test declaration" spends nothing and "we give $2M
    in bonuses" spends two millions. *)
Lemma spending_cases :
  detectCashSpending "Test declaration" neutral_output <= 0
  /\ 0 < detectCashSpending "we give $2M in bonuses" neutral_output
  /\ turnSpend fixture_state "we give $2M in bonuses" neutral_output
     == 2000000.
Proof.
  split; [vm_compute; discriminate|].
  split; vm_compute; reflexivity.
Qed.

(** C5, as stated, fails on the declaration "we give $2M in bonuses":
    [computeFinancials] returned [balance.cash = 250000] and the snapshot of
    the turn record has [balance.cash = 0]. *)
Lemma snapshot_mutated_counterexample :
  let decl := "we give $2M in bonuses" in
  let r := resolveTurn DEFAULT_CAPS fixture_state decl neutral_output in
  let F := Finance.computeFinancials
             (turnFinanceInput fixture_state decl neutral_output) in
  cash (balance F) == 250000
  /\ cash (balance (financials r)) == 0
  /\ financials r <> F.
Proof.
  cbv zeta.
  split; [vm_compute; reflexivity|].
  split; [vm_compute; reflexivity|].
  intros H. apply (f_equal (fun f => Qeq_bool (cash (balance f)) 0)) in H.
  vm_compute in H. discriminate H.
Qed.

(** After the spending of "we give $2M in bonuses" the snapshot of the turn
    record still says [balance_ok = true] and [cash_close = 250000], while
    its balance sheet holds no cash and is 250000 short on the asset
    side. *)
Lemma snapshot_after_spending_unbalanced :
  let f := financials (resolveTurn DEFAULT_CAPS fixture_state
                         "we give $2M in bonuses" neutral_output) in
  balance_ok f = true
  /\ cash_close f == 250000
  /\ cash (balance f) == 0
  /\ liab_eq_of (balance f) - assets_of (balance f) == 250000.
Proof.
  cbv zeta. repeat split; vm_compute; reflexivity.
Qed.

End EngineClaims.

(** ** Event generation *)

Module EventFacts.
Import JS JSFacts Engine.

(** *** Lookup under reordering *)










(** *** The pressure sum and the hints *)

Lemma fold_total (l : list (string * json)) (a : Q) :
  fold_left
    (fun sum kv => sum + match snd kv with JNum q => q | _ => 0 end) l a
  == a + total l.
Proof.
  revert a. induction l as [|kv l IH]; intros a; simpl.
  - lra.
  - rewrite IH. unfold summand. lra.
Qed.

Lemma flagSum_total (fl : obj json) :
  flagSum fl == total (filter is_pressure fl).
Proof.
  unfold flagSum. rewrite fold_total. unfold is_pressure. lra.
Qed.



(** *** Totality on well-shaped states *)

Lemma is_number_in_num lo hi v :
  is_number_in lo hi v = true -> exists q, as_num v = Some q.
Proof.
  destruct v as [[]|]; simpl; try discriminate. eauto.
Qed.

Lemma is_number_from_num lo v :
  is_number_from lo v = true -> exists q, as_num v = Some q.
Proof.
  destruct v as [[]|]; simpl; try discriminate. eauto.
Qed.

Lemma is_Flags_obj v : is_Flags v = true -> exists fl, v = Some (JObj fl).
Proof.
  unfold is_Flags, all_fields.
  destruct v as [[]|]; simpl; try discriminate. eauto.
Qed.

Lemma is_State_readings (s : json) :
  is_State s = true -> exists rd, readings s = Some rd.
Proof.
  unfold is_State. rewrite !andb_true_iff.
  intros H. decompose [and] H. clear H.
  repeat match goal with
  | H : is_number_in _ _ (field ?k s) = true |- _ =>
      apply is_number_in_num in H; destruct H as [? H]
  | H : is_number_from _ (field ?k s) = true |- _ =>
      apply is_number_from_num in H; destruct H as [? H]
  | H : is_Flags _ = true |- _ =>
      apply is_Flags_obj in H; destruct H as [? H]
  end.
  unfold readings.
  repeat match goal with
  | H : as_num (field _ s) = Some _ |- _ => rewrite H; clear H
  | H : field "flags" s = Some _ |- _ => rewrite H; clear H
  end.
  eauto.
Qed.

(** On a well-shaped state the generator returns an event. *)
Lemma generateRngEvent_total (s : json) (turnIndex : Q) :
  is_State s = true -> exists e, generateRngEvent s turnIndex = Some e.
Proof.
  intros H. destruct (is_State_readings s H) as [rd Hrd].
  unfold generateRngEvent, generateEnhancedRngEvent. rewrite Hrd. eauto.
Qed.

End EventFacts.

Module EventClaims.
Import JS JSFacts Engine EventFacts.









End EventClaims.

(** ** Further properties of [computeFinancials] *)

Module FinanceProps.
Import JS JSFacts Finance FinanceFacts.

(** *** The balance sheet and the notes of a snapshot *)

(** The checks change nothing of the balance sheet but retained
    earnings. *)
Lemma checks_balance (w : Flows) :
  let b := balance (checks w) in
  let b0 := fl_balance w in
  cash b = cash b0 /\ ar b = ar b0 /\ inventory b = inventory b0
  /\ ppe b = ppe b0 /\ ap b = ap b0 /\ debt b = debt b0
  /\ other_equity b = other_equity b0.
Proof.
  cbv zeta. unfold checks.
  destruct (negb (ltb _ tolerance)); cbn; repeat split; reflexivity.
Qed.

Lemma checks_pnl (w : Flows) : pnl (checks w) = fl_pnl w.
Proof.
  unfold checks. destruct (negb (ltb _ tolerance)); reflexivity.
Qed.

Lemma balance_ok_true (input : FinanceInput) :
  balance_ok (computeFinancials input) = true.
Proof.
  unfold computeFinancials, checks.
  destruct (ltb (Math_abs _) tolerance); reflexivity.
Qed.

(** A note other than the plug note and the drift note is in the snapshot
    exactly when the financing block left it. *)
Lemma checks_notes (w : Flows) (n : string) :
  n <> note_plug -> n <> note_recon ->
  (In n (notes (checks w)) <-> In n (f_notes (fl_fin w))).
Proof.
  intros Hp Hr. unfold checks.
  destruct (negb (ltb (Math_abs (_ - _)) tolerance));
    destruct (negb (ltb (Math_abs (fl_cash_close w - _)) tolerance));
    cbn [notes]; rewrite ?in_app_iff; simpl; intuition congruence.
Qed.

Lemma flows_provisional input :
  fl_fin (flows input)
  = financing (min_cash_buffer (params input)) (policy input)
      {| f_cff := 0;
         f_debt := debt (prev_balance input);
         f_retained_earnings :=
           retained_earnings (prev_balance input)
           + net_income (fl_pnl (flows input));
         f_cash_close_prov := provisional_close input;
         f_notes :=
           if gtb (nullish (scrap_rate (params input)) 0) 0
           then [note_scrap (nullish (scrap_rate (params input)) 0)]
           else [] |}.
Proof. reflexivity. Qed.

Lemma scrap_notes_free (x : Q) (n : string) (b : bool) :
  n = note_debt_draw \/ n = note_dividend ->
  ~ In n (if b then [note_scrap x] else []).
Proof.
  intros Hn H. destruct b; simpl in H; [|exact H].
  destruct H as [H | []]. unfold note_scrap in H.
  destruct Hn; subst n; discriminate H.
Qed.


(** The three outcomes of the financing policy. *)
Lemma financing_cases buf pol st :
  let prov := f_cash_close_prov st in
  let div := Math_min (f_retained_earnings st) ((prov - buf) * (25 # 100)) in
  (prov < buf
   /\ financing buf pol st
      = {| f_cff := f_cff st + (buf - prov);
           f_debt := f_debt st + (buf - prov);
           f_retained_earnings := f_retained_earnings st;
           f_cash_close_prov := prov + (buf - prov);
           f_notes := f_notes st ++ [note_debt_draw] |})
  \/ (buf < prov /\ 0 < f_retained_earnings st /\ 0 < div
      /\ (match pol with Some p => dividend p | None => false end) = true
      /\ financing buf pol st
         = {| f_cff := f_cff st - div;
              f_debt := f_debt st;
              f_retained_earnings := f_retained_earnings st - div;
              f_cash_close_prov := prov - div;
              f_notes := f_notes st ++ [note_dividend] |})
  \/ (buf <= prov /\ financing buf pol st = st).
Proof.
  cbv zeta. unfold financing.
  destruct (ltb (f_cash_close_prov st) buf) eqn:Hlt.
  - left. apply ltb_lt in Hlt. split; [exact Hlt | reflexivity].
  - apply ltb_ge in Hlt. right.
    destruct (match pol with Some p => dividend p | None => false end) eqn:Hp;
      cbn [andb]; [|right; split; [exact Hlt | reflexivity]].
    destruct (gtb (f_retained_earnings st) 0) eqn:Hre;
      cbn [andb]; [|right; split; [exact Hlt | reflexivity]].
    destruct (gtb (f_cash_close_prov st) buf) eqn:Hgt;
      [|right; split; [exact Hlt | reflexivity]].
    destruct (gtb (Math_min _ _) 0) eqn:Hdiv;
      [|right; split; [exact Hlt | reflexivity]].
    left. unfold gtb in *. apply ltb_lt in Hre, Hgt, Hdiv.
    repeat split; assumption.
Qed.

(** Debt plus retained earnings move with CFF. *)
Lemma financing_funding buf pol st :
  let fin := financing buf pol st in
  f_debt fin + f_retained_earnings fin - f_cff fin
  == f_debt st + f_retained_earnings st - f_cff st.
Proof.
  cbv zeta.
  destruct (financing_cases buf pol st) as [[_ E] | [(_ & _ & _ & _ & E) | [_ E]]];
    rewrite E; cbn; lra.
Qed.

(** The accounts of the flows, as the code computes them. *)
Lemma flows_accounts input :
  let w := flows input in
  let b0 := fl_balance w in
  let prev := prev_balance input in
  fl_cash_open w = cash prev
  /\ fl_cfo w
     = net_income (fl_pnl w) + depreciation (fl_pnl w)
       - ((ar b0 - ar prev) + (inventory b0 - inventory prev)
          - (ap b0 - ap prev))
  /\ fl_cfi w = - capex_base (drivers input)
  /\ fl_direct_cash_flow w = - nullish (direct_cash_spending input) 0
  /\ ppe b0
     = Math_max 0 (ppe prev + capex_base (drivers input)
                   - depreciation (fl_pnl w))
  /\ debt b0 = f_debt (fl_fin w)
  /\ retained_earnings b0 = f_retained_earnings (fl_fin w)
  /\ other_equity b0 = other_equity prev.
Proof.
  cbv zeta. unfold flows.
  cbn [fl_cash_open fl_cfo fl_cfi fl_direct_cash_flow fl_balance fl_pnl
       fl_fin ppe debt retained_earnings other_equity ar inventory ap
       net_income depreciation].
  repeat split; reflexivity.
Qed.

Lemma flows_gap input :
  0 <= min_cash_buffer (params input) ->
  depreciation (fl_pnl (flows input))
    <= ppe (prev_balance input) + capex_base (drivers input) ->
  assets_of (fl_balance (flows input)) - liab_eq_of (fl_balance (flows input))
  == assets_of (prev_balance input) - liab_eq_of (prev_balance input)
     - nullish (direct_cash_spending input) 0.
Proof.
  intros Hbuf Hdep.
  pose proof (flows_cash_close_floor input) as Hfloor.
  pose proof (flows_cash_close_sum input) as Hsum. cbv zeta in Hsum.
  pose proof (financing_funding (min_cash_buffer (params input))
                (policy input)) as Hfund.
  pose proof (flows_provisional input) as Hfin.
  destruct (flows_accounts input) as (Ho & Hcfo & Hcfi & _ & Hppe & Hd & Hre & Hoe).
  unfold assets_of, liab_eq_of.
  rewrite flows_cash, Hppe, Hd, Hre, Hoe, Hsum, Ho, Hcfo, Hcfi.
  rewrite Hsum, Ho in Hfloor.
  match type of Hfin with _ = financing ?b ?p ?s =>
    specialize (Hfund s); cbv zeta in Hfund; rewrite <- Hfin in Hfund;
    cbn [f_cff f_debt f_retained_earnings] in Hfund
  end.
  destruct (max_case 0 (cash (prev_balance input) + fl_cfo (flows input)
                        + fl_cfi (flows input) + f_cff (fl_fin (flows input))
                        + - nullish (direct_cash_spending input) 0))
    as [[Hc E] | [Hc E]].
  all: destruct (max_case 0 (ppe (prev_balance input)
                             + capex_base (drivers input)
                             - depreciation (fl_pnl (flows input))))
    as [[Hp E'] | [Hp E']].
  all: rewrite Hcfo, Hcfi in *; rewrite E'; rewrite E; lra.
Qed.

(** The notes that the financing block can leave. *)
Lemma flows_fin_notes input n :
  In n (f_notes (fl_fin (flows input))) ->
  n = note_scrap (nullish (scrap_rate (params input)) 0)
  \/ n = note_debt_draw \/ n = note_dividend.
Proof.
  rewrite flows_provisional.
  match goal with |- context [financing ?b ?p ?s] =>
    destruct (financing_cases b p s)
      as [[_ E] | [(_ & _ & _ & _ & E) | [_ E]]]; rewrite E; clear E
  end; cbn [f_notes]; rewrite ?in_app_iff;
    destruct (gtb _ 0); simpl; intuition auto.
Qed.

Lemma note_plug_fresh input : ~ In note_plug (f_notes (fl_fin (flows input))).
Proof.
  intros H. apply flows_fin_notes in H.
  destruct H as [H | [H | H]]; unfold note_scrap in H; simpl in H;
    discriminate H.
Qed.

(** The plug note is recorded exactly when the sheet as first built is off
    by the tolerance or more; the plug is then the difference. *)
Lemma plug_iff input :
  let b0 := fl_balance (flows input) in
  let r := computeFinancials input in
  (In note_plug (notes r)
   <-> ~ Qabs (assets_of b0 - liab_eq_of b0) < tolerance)
  /\ (~ Qabs (assets_of b0 - liab_eq_of b0) < tolerance ->
      retained_earnings (balance r)
      = retained_earnings b0 + (assets_of b0 - liab_eq_of b0))
  /\ (Qabs (assets_of b0 - liab_eq_of b0) < tolerance -> balance r = b0).
Proof.
  cbv zeta. pose proof (note_plug_fresh input) as Hfresh.
  unfold computeFinancials, checks.
  set (w := flows input) in *. set (b := fl_balance w).
  fold (assets_of b). fold (liab_eq_of b).
  destruct (ltb (Math_abs (assets_of b - liab_eq_of b)) tolerance) eqn:Hok;
    cbn [negb balance notes].
  - apply ltb_lt in Hok. unfold Math_abs in Hok.
    split; [|split; [intros Hn; contradiction | reflexivity]].
    split; [|intros Hn; contradiction].
    destruct (negb _); rewrite ?in_app_iff; intros H.
    + destruct H as [H | H]; [contradiction|].
      destruct H as [H | []]. discriminate H.
    + contradiction.
  - apply ltb_ge in Hok. unfold Math_abs in Hok.
    assert (Hn : ~ Qabs (assets_of b - liab_eq_of b) < tolerance)
      by (apply Qle_not_lt; exact Hok).
    split; [|split; [reflexivity | intros H; contradiction]].
    split; [intros _; exact Hn|]. intros _.
    destruct (negb _); rewrite ?in_app_iff; [left|]; right; left;
      reflexivity.
Qed.

(** X3. The debt of the returned sheet is the previous debt plus the
    shortfall of the provisional cash close against the minimum cash
    buffer (plus nothing when there is none); the debt-draw note is
    recorded exactly when there is a shortfall, and then CFF is the
    shortfall. *)
Theorem debt_draw_exact (input : FinanceInput) :
  let r := computeFinancials input in
  let shortfall := min_cash_buffer (params input) - provisional_close input in
  debt (balance r) == debt (prev_balance input) + Math_max 0 shortfall
  /\ (In note_debt_draw (notes r) <-> 0 < shortfall)
  /\ (0 < shortfall -> cff (cashflow r) == shortfall).
Proof.
  cbv zeta. unfold computeFinancials.
  destruct (checks_balance (flows input)) as (_ & _ & _ & _ & _ & Hd & _).
  destruct (checks_cash_close (flows input)) as (_ & _ & Hcf).
  rewrite Hd, Hcf. cbn [cff].
  rewrite checks_notes by discriminate.
  destruct (flows_accounts input) as (_ & _ & _ & _ & _ & Hdebt & _).
  rewrite Hdebt. clear Hdebt.
  rewrite flows_provisional in *.
  set (buf := min_cash_buffer (params input)) in *.
  set (prov := provisional_close input) in *.
  match goal with |- context [financing ?b ?p ?s] =>
    destruct (financing_cases b p s)
      as [[Hlt E] | [(Hlt & _ & _ & _ & E) | [Hlt E]]];
      rewrite E in *; clear E
  end; cbn [f_debt f_cff f_notes f_cash_close_prov] in *;
    rewrite ?in_app_iff.
  - destruct (max_case 0 (buf - prov)) as [[Hm E] | [Hm E]]; rewrite E.
    + lra.
    + split; [lra|]. split; [split; [lra | simpl; auto]|].
      intros _. lra.
  - destruct (max_case 0 (buf - prov)) as [[Hm E] | [Hm E]]; rewrite E.
    + split; [lra|]. split; [|lra].
      split; [|lra]. intros [H | H].
      * exfalso. revert H. apply scrap_notes_free. auto.
      * simpl in H. destruct H as [H | []]. discriminate H.
    + lra.
  - destruct (max_case 0 (buf - prov)) as [[Hm E] | [Hm E]]; rewrite E.
    + split; [lra|]. split; [|lra].
      split; [|lra]. intros H.
      exfalso. revert H. apply scrap_notes_free. auto.
    + assert (E0 : buf - prov == 0) by lra.
      split; [lra|]. split; [|lra].
      split; [|lra]. intros H.
      exfalso. revert H. apply scrap_notes_free. auto.
Qed.

Lemma financing_repay buf (pol : option Policy) (b : bool) st :
  financing buf
    (match pol with
     | Some p => Some {| dividend := dividend p; repay_debt := b |}
     | None => None
     end) st
  = financing buf pol st.
Proof. destruct pol as [p|]; reflexivity. Qed.

(** X4. The [repay_debt] flag of the policy is never read: the snapshot
    is the same for both values, and debt never goes down. *)
Theorem repay_debt_ignored (input : FinanceInput) (b : bool) :
  computeFinancials (with_repay_debt input b) = computeFinancials input
  /\ debt (prev_balance input) <= debt (balance (computeFinancials input)).
Proof.
  split.
  - unfold computeFinancials. apply f_equal.
    unfold flows.
    cbn [with_repay_debt prev_balance drivers params policy
         direct_cash_spending].
    rewrite financing_repay. reflexivity.
  - unfold computeFinancials.
    destruct (checks_balance (flows input)) as (_ & _ & _ & _ & _ & Hd & _).
    rewrite Hd.
    destruct (flows_accounts input) as (_ & _ & _ & _ & _ & Hdebt & _).
    rewrite Hdebt, flows_provisional.
    match goal with |- context [financing ?b ?p ?s] =>
      destruct (financing_cases b p s)
        as [[Hlt E] | [(Hlt & _ & _ & _ & E) | [Hlt E]]];
        rewrite E; clear E
    end; cbn [f_debt f_cash_close_prov] in *; lra.
Qed.

(** X5. A dividend is the only negative financing flow.  It is paid only
    under the dividend policy and never together with a debt draw, it is at
    most a quarter of the provisional cash above the buffer and at most the
    retained earnings after the period's net income, and it leaves the debt
    as it was. *)
Theorem dividend_bounded (input : FinanceInput) :
  let r := computeFinancials input in
  let surplus := provisional_close input - min_cash_buffer (params input) in
  let earned := retained_earnings (prev_balance input) + net_income (pnl r) in
  (In note_dividend (notes r) <-> cff (cashflow r) < 0)
  /\ (cff (cashflow r) < 0 ->
      wants_dividend input = true
      /\ - cff (cashflow r) <= surplus * (25 # 100)
      /\ - cff (cashflow r) <= earned
      /\ ~ In note_debt_draw (notes r)
      /\ debt (balance r) = debt (prev_balance input))
  /\ (wants_dividend input = false -> 0 <= cff (cashflow r)).
Proof.
  cbv zeta. unfold computeFinancials, wants_dividend.
  destruct (checks_balance (flows input)) as (_ & _ & _ & _ & _ & Hd & _).
  destruct (checks_cash_close (flows input)) as (_ & _ & Hcf).
  rewrite Hd, Hcf, checks_pnl. cbn [cff].
  rewrite !checks_notes by discriminate.
  destruct (flows_accounts input) as (_ & _ & _ & _ & _ & Hdebt & _).
  rewrite Hdebt. clear Hdebt Hd Hcf.
  rewrite flows_provisional.
  set (buf := min_cash_buffer (params input)) in *.
  set (prov := provisional_close input) in *.
  set (re := retained_earnings (prev_balance input)
             + net_income (fl_pnl (flows input))) in *.
  match goal with |- context [financing ?b ?p ?s] =>
    destruct (financing_cases b p s)
      as [[Hlt E] | [(Hlt & Hre & Hdiv & Hpol & E) | [Hlt E]]];
      rewrite E; clear E
  end; cbn [f_debt f_cff f_notes f_cash_close_prov f_retained_earnings] in *;
    rewrite ?in_app_iff.
  - split; [|split; [lra|lra]].
    split; [|lra]. intros [H | H].
    + exfalso. revert H. apply scrap_notes_free. auto.
    + simpl in H. destruct H as [H | []]. discriminate H.
  - pose proof (min_le_l re ((prov - buf) * (25 # 100))) as Hl.
    pose proof (min_le_r re ((prov - buf) * (25 # 100))) as Hr.
    split; [split; [lra | simpl; auto]|].
    split; [|rewrite Hpol; discriminate].
    intros _. split; [exact Hpol|]. split; [lra|]. split; [lra|].
    split; [|reflexivity]. intros [H | H].
    + revert H. apply scrap_notes_free. auto.
    + simpl in H. destruct H as [H | []]. discriminate H.
  - split; [|split; [lra|lra]].
    split; [|lra]. intros H.
    exfalso. revert H. apply scrap_notes_free. auto.
Qed.

(** X6. With no units sold, revenue, COGS, gross profit, receivables,
    inventory and payables are all zero, and the net income is minus the
    operating expenses and the depreciation. *)
Theorem zero_units (input : FinanceInput) :
  units_sold (drivers input) == 0 ->
  let r := computeFinancials input in
  revenue (pnl r) == 0 /\ cogs (pnl r) == 0 /\ gross_profit (pnl r) == 0
  /\ ar (balance r) == 0 /\ inventory (balance r) == 0 /\ ap (balance r) == 0
  /\ net_income (pnl r)
     == - opex_base (drivers input) - depreciation (pnl r).
Proof.
  intros Hu. cbv zeta. unfold computeFinancials.
  destruct (checks_balance (flows input)) as (_ & -> & -> & _ & -> & _).
  rewrite checks_pnl. unfold flows.
  cbn [fl_pnl fl_balance revenue cogs gross_profit ar inventory ap net_income
       depreciation].
  rewrite Hu. repeat split; lra.
Qed.

Lemma zero_units_witness :
  units_sold (drivers idle_input) == 0
  /\ (let r := computeFinancials idle_input in
      revenue (pnl r) == 0 /\ cogs (pnl r) == 0 /\ gross_profit (pnl r) == 0
      /\ ar (balance r) == 0 /\ inventory (balance r) == 0
      /\ ap (balance r) == 0
      /\ net_income (pnl r)
         == - opex_base (drivers idle_input) - depreciation (pnl r)).
Proof.
  assert (H : units_sold (drivers idle_input) == 0) by reflexivity.
  split; [exact H | exact (zero_units idle_input H)].
Defined.

(** Interest and taxes are not charged. *)
Lemma no_interest_no_tax (input : FinanceInput) :
  let p := pnl (computeFinancials input) in
  interest p == 0 /\ taxes p == 0 /\ net_income p == ebit p
  /\ ebit p == revenue p - cogs p - opex p - depreciation p.
Proof.
  cbv zeta. unfold computeFinancials. rewrite checks_pnl.
  unfold flows. cbn [fl_pnl interest taxes net_income ebit revenue cogs opex
                     depreciation].
  repeat split; lra.
Qed.

End FinanceProps.

(** ** Further properties of the turn resolution *)

Module EngineProps.
Import JS JSFacts Engine EngineFacts.

(** *** The parts of a turn record *)

Lemma resolveTurn_financials caps state decl ev :
  financials (resolveTurn caps state decl ev)
  = fst (applyDirectSpending (getPrevBalanceFromState state)
           (detectCashSpending decl ev)
           (Finance.computeFinancials (turnFinanceInput state decl ev))
           (snd (turnDrivers state decl ev)))
  /\ explainers_finance (resolveTurn caps state decl ev)
     = snd (applyDirectSpending (getPrevBalanceFromState state)
              (detectCashSpending decl ev)
              (Finance.computeFinancials (turnFinanceInput state decl ev))
              (snd (turnDrivers state decl ev))).
Proof. split; reflexivity. Qed.

(** The spending step changes nothing of the snapshot but
    [balance.cash]. *)
Lemma applyDirectSpending_frame prev cs (f : FinancialSnapshot) ex :
  let f' := fst (applyDirectSpending prev cs f ex) in
  pnl f' = pnl f /\ cashflow f' = cashflow f /\ cash_open f' = cash_open f
  /\ cash_close f' = cash_close f /\ notes f' = notes f
  /\ balance_ok f' = balance_ok f /\ cash_recon_ok f' = cash_recon_ok f
  /\ retained_earnings (balance f') = retained_earnings (balance f)
  /\ debt (balance f') = debt (balance f).
Proof.
  cbv zeta. unfold applyDirectSpending.
  destruct (gtb cs 0); repeat split; reflexivity.
Qed.

(** *** Context modifications *)

Lemma applyContextMods_frame (s : State) :
  let s' := applyContextMods s in
  st_turn_no s' = st_turn_no s /\ backlog s' = backlog s
  /\ service s' = service s /\ share s' = share s
  /\ cash_runway s' = cash_runway s /\ flags s' = flags s
  /\ recent_moves s' = recent_moves s
  /\ st_financials s' = st_financials s.
Proof.
  cbv zeta. unfold applyContextMods.
  destruct (labor_tense (flags s)); cbn; repeat split; reflexivity.
Qed.

(** With morale at most 100 the modded morale is at most 85. *)
Lemma applyContextMods_morale (s : State) :
  morale s <= 100 -> morale (applyContextMods s) <= 85.
Proof.
  intros Hm. unfold applyContextMods.
  destruct (labor_tense (flags s)); cbn [morale with_morale_credibility].
  - pose proof (min_le_l 100 (morale s * (12 # 10))) as Hl.
    destruct (gtb (Math_min 100 (morale s * (12 # 10))) 85) eqn:E.
    + destruct (max_case 0 (Math_min 100 (morale s * (12 # 10)) * (8 # 10)))
        as [[_ E'] | [_ E']]; rewrite E'; lra.
    + unfold gtb in E. apply ltb_ge in E. exact E.
  - destruct (gtb (morale s) 85) eqn:E.
    + destruct (max_case 0 (morale s * (8 # 10))) as [[_ E'] | [_ E']];
        rewrite E'; lra.
    + unfold gtb in E. apply ltb_ge in E. exact E.
Qed.

Lemma applyContextMods_credibility (s : State) :
  credibility (applyContextMods s)
  = if labor_tense (flags s) then Math_max 0 (credibility s * (9 # 10))
    else credibility s.
Proof.
  unfold applyContextMods. destruct (labor_tense (flags s)); reflexivity.
Qed.

(** *** Applied deltas *)

Lemma or_num_abs (x : Q) : Qabs (or_num x 0) == Qabs x.
Proof.
  unfold or_num, eqb. destruct (Qeq_bool x 0) eqn:E; [|reflexivity].
  apply Qeq_bool_iff in E. rewrite E. reflexivity.
Qed.

Lemma or_num_eq (x : Q) : or_num x 0 == x.
Proof.
  unfold or_num, eqb. destruct (Qeq_bool x 0) eqn:E; [|reflexivity].
  apply Qeq_bool_iff in E. rewrite E. reflexivity.
Qed.

(** Keys outside the raw delta map keep their zero. *)
Lemma clampDeltas_untouched (deltas : obj Q) state caps :
  keys_within metric_keys deltas ->
  d_share (clampDeltas deltas state caps) = 0
  /\ d_cash_runway (clampDeltas deltas state caps) = 0.
Proof.
  unfold clampDeltas.
  assert (H0 : d_share zero_deltas = 0 /\ d_cash_runway zero_deltas = 0)
    by (split; reflexivity).
  revert H0. generalize zero_deltas as acc.
  induction deltas as [|[key delta] rest IH]; intros acc Hacc Hk; simpl.
  - exact Hacc.
  - apply IH.
    + assert (Hin : In key metric_keys) by (apply Hk; left; reflexivity).
      simpl in Hin.
      destruct Hin as [<- | [<- | [<- | [<- | []]]]]; cbn; exact Hacc.
    + intros k Hin. apply Hk. right. exact Hin.
Qed.


(** *** Drivers and parameters of a turn *)

Lemma clamp_scrap x : 0 <= clamp x 0 (25 # 100) <= 25 # 100.
Proof. apply clamp_bounds. discriminate. Qed.

Lemma params_kept_default : params_kept FINANCE_PARAMS_DEFAULT.
Proof. repeat split; vm_compute; discriminate. Qed.

Lemma params_kept_scrap p x :
  params_kept p -> params_kept (set_scrap_rate p (clamp x 0 (25 # 100))).
Proof.
  intros (H1 & H2 & H3 & _). unfold params_kept; cbn.
  repeat split; try assumption; apply clamp_scrap.
Qed.

(** Name the next pair of a chain of [let '(a, b) := ... in ...]. *)
Ltac next_pair d e E :=
  match goal with
  | |- context [let '(a, b) := ?X in _] => destruct X as [d e] eqn:E
  end.

(** A stage that is a conditional between pairs. *)
Ltac stage E :=
  repeat match type of E with
  | (if ?c then _ else _) = _ => destruct c
  | (match ?o with Some _ => _ | None => _ end) = _ => destruct o
  end;
  injection E as <- <-.

Lemma turnDrivers_inv state decl ev :
  let d := fst (fst (turnDrivers state decl ev)) in
  let p := snd (fst (turnDrivers state decl ev)) in
  drivers_in_bounds d /\ opex_base d = 300000 /\ params_kept p.
Proof.
  cbv zeta. unfold turnDrivers.
  next_pair d1 e1 E1.
  assert (H1 : base_kept d1) by (stage E1; split; reflexivity). clear E1.
  next_pair d2 e2 E2.
  assert (H2 : base_kept d2) by (stage E2; exact H1). clear E2 H1.
  next_pair d3 e3 E3.
  assert (H3 : base_kept d3) by (stage E3; exact H2). clear E3 H2.
  next_pair p1 e4 E4.
  assert (Hp1 : params_kept p1)
    by (stage E4;
        [apply params_kept_scrap|]; exact params_kept_default).
  clear E4.
  next_pair dio2 e5 E5. clear E5.
  next_pair dso2 e6 E6. clear E6.
  next_pair d5 e7 E7.
  assert (H5 : days_kept d5).
  { stage E7; (split; [exact H3|]); cbn;
      repeat split; apply clamp_bounds; vm_compute; discriminate. }
  clear E7 H3.
  next_pair p2 e8 E8.
  assert (Hp2 : params_kept p2)
    by (stage E8; try exact Hp1; apply params_kept_scrap; exact Hp1).
  clear E8 Hp1.
  next_pair d6 e9 E9.
  assert (H6 : days_kept d6).
  { stage E9; try exact H5.
    destruct H5 as (Hb & Hs & Hp & Hi). repeat split; cbn;
      try apply Hb; try apply Hs; try apply Hp;
      apply clamp_bounds; vm_compute; discriminate. }
  clear E9 H5.
  destruct H6 as ((Hc & Ho) & Hs & Hp & Hi).
  destruct (is_up _ && negb _); cbn; unfold drivers_in_bounds; cbn.
  all: repeat split; try assumption; try apply Hs; try apply Hp;
    try apply Hi; try apply Hp2;
    try (apply clamp_bounds; vm_compute; discriminate);
    try (rewrite Hc; vm_compute; discriminate).
Qed.


(** *** The amount of a spending instruction *)







(** *** The properties *)

(** X7. A turn never moves market share or cash runway: no signal,
    event channel or penalty writes a raw delta for them, so their applied
    deltas are 0 and, for a state with non-negative share and runway, the
    state after the turn has the share and the runway of the state
    before. *)
Theorem share_and_runway_frozen (caps : Caps) (state : State)
    (decl : string) (ev : EvaluatorOutput) :
  0 <= share state -> 0 <= cash_runway state ->
  let r := resolveTurn caps state decl ev in
  d_share (applied_deltas r) = 0 /\ d_cash_runway (applied_deltas r) = 0
  /\ share (state_after r) == share state
  /\ cash_runway (state_after r) == cash_runway state.
Proof.
  intros Hs Hc. cbv zeta.
  destruct (clampDeltas_untouched
              (applySignals ev (applyContextMods state) caps)
              (applyContextMods state) caps
              (applySignals_keys ev (applyContextMods state) caps))
    as [Hsh Hcr].
  destruct (applyContextMods_frame state)
    as (_ & _ & _ & Hshare & Hrun & _).
  unfold resolveTurn.
  cbn [applied_deltas state_after share cash_runway].
  rewrite Hsh, Hcr, Hshare, Hrun.
  split; [reflexivity|]. split; [reflexivity|].
  change (or_num 0 0) with 0.
  destruct (max_case 0 (share state + 0)) as [[H1 E1] | [H1 E1]];
    destruct (max_case 0 (cash_runway state + 0)) as [[H2 E2] | [H2 E2]];
    rewrite E1, E2; split; lra.
Qed.

Lemma share_and_runway_frozen_witness :
  0 <= share fixture_state /\ 0 <= cash_runway fixture_state
  /\ (let r := resolveTurn DEFAULT_CAPS fixture_state "Test declaration"
                           extreme_output in
      d_share (applied_deltas r) = 0 /\ d_cash_runway (applied_deltas r) = 0
      /\ share (state_after r) == share fixture_state
      /\ cash_runway (state_after r) == cash_runway fixture_state).
Proof.
  assert (H1 : 0 <= share fixture_state) by (vm_compute; discriminate).
  assert (H2 : 0 <= cash_runway fixture_state) by (vm_compute; discriminate).
  split; [exact H1|]. split; [exact H2|].
  exact (share_and_runway_frozen DEFAULT_CAPS fixture_state
           "Test declaration" extreme_output H1 H2).
Defined.

(** X8. For a state with morale at most 100 and non-negative caps, the
    context modifications leave morale at most 85 (morale above 85 is cut by
    a fifth), so the morale after the turn is at most 85 plus the morale
    cap. *)
Theorem morale_ceiling (caps : Caps) (state : State) (decl : string)
    (ev : EvaluatorOutput) :
  caps_nonneg caps -> morale state <= 100 ->
  morale (applyContextMods state) <= 85
  /\ morale (state_after (resolveTurn caps state decl ev))
     <= 85 + cap_morale caps.
Proof.
  intros Hcaps Hm.
  pose proof (applyContextMods_morale state Hm) as Hmod.
  split; [exact Hmod|].
  pose proof (clampDeltas_within caps Hcaps
                (applySignals ev (applyContextMods state) caps)
                (applyContextMods state)) as (Hd & _).
  destruct Hcaps as (Hcm & _).
  unfold resolveTurn. cbn [state_after morale].
  set (dm := d_morale _) in *.
  pose proof (or_num_abs dm) as Ha. pose proof (or_num_eq dm) as He.
  apply Qabs_Qle_condition in Hd.
  pose proof (min_le_r 100 (morale (applyContextMods state) + or_num dm 0))
    as Hr.
  destruct (max_case 0 (Math_min 100
                          (morale (applyContextMods state) + or_num dm 0)))
    as [[_ E] | [_ E]]; rewrite E; lra.
Qed.

Lemma morale_ceiling_witness :
  caps_nonneg DEFAULT_CAPS /\ morale tense_state <= 100
  /\ morale (applyContextMods tense_state) <= 85
  /\ morale (state_after (resolveTurn DEFAULT_CAPS tense_state
                            "Test declaration" extreme_output))
     <= 85 + cap_morale DEFAULT_CAPS.
Proof.
  assert (H1 : caps_nonneg DEFAULT_CAPS)
    by (unfold caps_nonneg; simpl; repeat split; lra).
  assert (H2 : morale tense_state <= 100) by (vm_compute; discriminate).
  split; [exact H1|]. split; [exact H2|].
  exact (morale_ceiling DEFAULT_CAPS tense_state "Test declaration"
           extreme_output H1 H2).
Defined.

(** X9. Under labour tension the context modifications take a tenth off
    credibility before the deltas apply: with non-negative caps the
    credibility after the turn is at most nine tenths of the credibility
    before plus the credibility cap. *)
Theorem labor_tension_erodes_credibility (caps : Caps) (state : State)
    (decl : string) (ev : EvaluatorOutput) :
  caps_nonneg caps -> labor_tense (flags state) = true ->
  0 <= credibility state ->
  credibility (applyContextMods state) == credibility state * (9 # 10)
  /\ credibility (state_after (resolveTurn caps state decl ev))
     <= credibility state * (9 # 10) + cap_credibility caps.
Proof.
  intros Hcaps Ht Hc.
  assert (Hmod : credibility (applyContextMods state)
                 == credibility state * (9 # 10)).
  { rewrite applyContextMods_credibility, Ht.
    destruct (max_case 0 (credibility state * (9 # 10)))
      as [[H E] | [H E]]; rewrite E; lra. }
  split; [exact Hmod|].
  pose proof (clampDeltas_within caps Hcaps
                (applySignals ev (applyContextMods state) caps)
                (applyContextMods state)) as (_ & Hd & _).
  destruct Hcaps as (_ & Hcc & _).
  unfold resolveTurn. cbn [state_after credibility].
  set (dc := d_credibility _) in *.
  pose proof (or_num_eq dc) as He.
  apply Qabs_Qle_condition in Hd.
  pose proof (min_le_r 100
                (credibility (applyContextMods state) + or_num dc 0)) as Hr.
  destruct (max_case 0 (Math_min 100
                          (credibility (applyContextMods state)
                           + or_num dc 0)))
    as [[_ E] | [_ E]]; rewrite E; lra.
Qed.

Lemma labor_tension_erodes_credibility_witness :
  caps_nonneg DEFAULT_CAPS /\ labor_tense (flags tense_state) = true
  /\ 0 <= credibility tense_state
  /\ credibility (applyContextMods tense_state)
     == credibility tense_state * (9 # 10)
  /\ credibility (state_after (resolveTurn DEFAULT_CAPS tense_state
                                 "Test declaration" extreme_output))
     <= credibility tense_state * (9 # 10) + cap_credibility DEFAULT_CAPS.
Proof.
  assert (H1 : caps_nonneg DEFAULT_CAPS)
    by (unfold caps_nonneg; simpl; repeat split; lra).
  assert (H2 : labor_tense (flags tense_state) = true) by reflexivity.
  assert (H3 : 0 <= credibility tense_state) by (vm_compute; discriminate).
  split; [exact H1|]. split; [exact H2|]. split; [exact H3|].
  exact (labor_tension_erodes_credibility DEFAULT_CAPS tense_state
           "Test declaration" extreme_output H1 H2 H3).
Defined.


(** [l.slice(-1)] is empty or the last element. *)
Lemma slice_last_1 {A} (l : list A) :
  (List.length (slice_last 1 l) <= 1)%nat.
Proof.
  unfold slice_last. rewrite length_skipn. lia.
Qed.

Lemma slice_last_all {A} (n : nat) (l : list A) :
  (List.length l <= n)%nat -> slice_last n l = l.
Proof.
  intros H. unfold slice_last.
  replace (List.length l - n)%nat with O by lia. reflexivity.
Qed.

Lemma resolveTurn_recent_moves caps state decl ev :
  recent_moves (state_after (resolveTurn caps state decl ev))
  = slice_last 1 (recent_moves state) ++ [decl].
Proof.
  unfold resolveTurn. cbn [state_after recent_moves].
  destruct (applyContextMods_frame state) as (_ & _ & _ & _ & _ & _ & -> & _).
  apply slice_last_all. rewrite length_app. simpl.
  pose proof (slice_last_1 (recent_moves state)). lia.
Qed.

Lemma slice_last_1_snoc {A} (l : list A) (x : A) :
  slice_last 1 (l ++ [x]) = [x].
Proof.
  unfold slice_last. rewrite length_app. simpl.
  replace (List.length l + 1 - 1)%nat with (List.length l) by lia.
  rewrite skipn_app, skipn_all, Nat.sub_diag. reflexivity.
Qed.

(** X10. [recent_moves] is a window of the last two declarations: after a
    turn it has at most two entries and ends with the declaration, from an
    empty list it is the declaration alone, and after two turns in a row it
    is exactly the two declarations in order. *)
Theorem recent_moves_window (caps1 caps2 : Caps) (state : State)
    (d1 d2 : string) (e1 e2 : EvaluatorOutput) :
  let s1 := state_after (resolveTurn caps1 state d1 e1) in
  let s2 := state_after (resolveTurn caps2 s1 d2 e2) in
  (List.length (recent_moves s1) <= 2)%nat
  /\ last (recent_moves s1) "" = d1
  /\ (recent_moves state = [] -> recent_moves s1 = [d1])
  /\ recent_moves s2 = [d1; d2].
Proof.
  cbv zeta. rewrite !resolveTurn_recent_moves.
  rewrite slice_last_1_snoc.
  split; [|split; [|split]].
  - rewrite length_app. simpl.
    pose proof (slice_last_1 (recent_moves state)). lia.
  - apply last_last.
  - intros ->. reflexivity.
  - reflexivity.
Qed.

(** The drivers of a turn read the state only through its supply flag. *)
Lemma turnDrivers_state s1 s2 decl ev :
  supply_fragile (flags s1) = supply_fragile (flags s2) ->
  turnDrivers s1 decl ev = turnDrivers s2 decl ev.
Proof.
  intros H. unfold turnDrivers. rewrite H. reflexivity.
Qed.

Lemma resolveTurn_state_kept caps state decl ev :
  let s' := state_after (resolveTurn caps state decl ev) in
  flags s' = flags state /\ st_financials s' = st_financials state.
Proof.
  cbv zeta. unfold resolveTurn. cbn [state_after flags st_financials].
  destruct (applyContextMods_frame state) as (_ & _ & _ & _ & _ & -> & _ & ->).
  split; reflexivity.
Qed.

(** X11. The finances of a turn have no memory of earlier turns:
    [resolveTurn] stores no balance sheet in the new state, so the state
    after a turn yields the same previous balance as the state before, and
    the snapshot and the explainers of a following turn are those that the
    same declaration and evaluator output give on the original state. *)
Theorem finance_memoryless (caps0 caps : Caps) (state : State)
    (d0 decl : string) (e0 ev : EvaluatorOutput) :
  let s1 := state_after (resolveTurn caps0 state d0 e0) in
  getPrevBalanceFromState s1 = getPrevBalanceFromState state
  /\ financials (resolveTurn caps s1 decl ev)
     = financials (resolveTurn caps state decl ev)
  /\ explainers_finance (resolveTurn caps s1 decl ev)
     = explainers_finance (resolveTurn caps state decl ev).
Proof.
  cbv zeta.
  destruct (resolveTurn_state_kept caps0 state d0 e0) as [Hf Hs].
  cbv zeta in Hf, Hs.
  set (s1 := state_after (resolveTurn caps0 state d0 e0)) in *.
  assert (Hprev : getPrevBalanceFromState s1 = getPrevBalanceFromState state)
    by (unfold getPrevBalanceFromState; rewrite Hs; reflexivity).
  assert (Hd : turnDrivers s1 decl ev = turnDrivers state decl ev)
    by (apply turnDrivers_state; rewrite Hf; reflexivity).
  assert (Hin : turnFinanceInput s1 decl ev = turnFinanceInput state decl ev)
    by (unfold turnFinanceInput; rewrite Hprev, Hd; reflexivity).
  split; [exact Hprev|].
  destruct (resolveTurn_financials caps s1 decl ev) as [-> ->].
  destruct (resolveTurn_financials caps state decl ev) as [-> ->].
  rewrite Hprev, Hd, Hin. split; reflexivity.
Qed.


(** The finance input of a turn. *)
Lemma turnFinanceInput_params state decl ev :
  let input := turnFinanceInput state decl ev in
  drivers_in_bounds (drivers input) /\ params_kept (params input)
  /\ prev_balance input = getPrevBalanceFromState state
  /\ direct_cash_spending input = None.
Proof.
  cbv zeta. destruct (turnDrivers_inv state decl ev) as (Hd & _ & Hp).
  unfold turnFinanceInput.
  cbn [drivers params prev_balance direct_cash_spending]. auto.
Qed.




(** X13. The finance input of every turn has its drivers within
    [DRIVER_BOUNDS] (units, price, cost, DSO, DPO, DIO and capex), the
    baseline operating expenses, the default period, buffer and
    depreciation life, and a scrap rate between 0 and 0.25; the revenue of
    the turn is therefore at least 1000, and the gross-margin percentage of
    the new state divides by a positive number. *)
Theorem drivers_within_bounds (state : State) (decl : string)
    (ev : EvaluatorOutput) :
  let input := turnFinanceInput state decl ev in
  drivers_in_bounds (drivers input)
  /\ opex_base (drivers input) = 300000
  /\ period_days (params input) = 30
  /\ min_cash_buffer (params input) = 250000
  /\ depreciation_life_years (params input) = 5
  /\ 0 <= nullish (scrap_rate (params input)) 0 <= 25 # 100
  /\ 1000 <= revenue (pnl (Finance.computeFinancials input)).
Proof.
  cbv zeta. destruct (turnDrivers_inv state decl ev) as (Hd & Ho & Hp).
  unfold turnFinanceInput at 1 2 3 4 5 6. cbn [drivers params].
  split; [exact Hd|]. split; [exact Ho|].
  destruct Hp as (H1 & H2 & H3 & H4).
  do 4 (split; [assumption|]).
  unfold Finance.computeFinancials. rewrite FinanceProps.checks_pnl.
  unfold Finance.flows. cbn [Finance.fl_pnl revenue].
  unfold turnFinanceInput. cbn [drivers].
  destruct Hd as (Hu & Hpr & _).
  unfold units_min, price_min in *.
  set (d := fst (fst (turnDrivers state decl ev))) in *.
  nra.
Qed.

(** X14. A turn on a state without stored financials opens with the
    starting balance, whose assets exceed liabilities plus equity by
    300,000: every such turn opens with a cash of 1,000,000, applies the
    retained-earnings plug and records its note, and reports
    [balance_ok = true]. *)
Theorem turn_always_plugs (caps : Caps) (state : State) (decl : string)
    (ev : EvaluatorOutput) :
  st_financials state = None ->
  let f := financials (resolveTurn caps state decl ev) in
  cash_open f = 1000000
  /\ In Finance.note_plug (notes f)
  /\ balance_ok f = true.
Proof.
  intros Hnone. cbv zeta.
  destruct (resolveTurn_financials caps state decl ev) as [-> _].
  set (input := turnFinanceInput state decl ev).
  destruct (turnFinanceInput_params state decl ev)
    as (Hd & (Hper & Hbuf & Hlife & _) & Hprev & Hspend).
  fold input in Hd, Hper, Hbuf, Hlife, Hprev, Hspend.
  assert (Hstart : prev_balance input = STARTING_BALANCE).
  { rewrite Hprev. unfold getPrevBalanceFromState. rewrite Hnone.
    reflexivity. }
  destruct (applyDirectSpending_frame (getPrevBalanceFromState state)
              (detectCashSpending decl ev) (Finance.computeFinancials input)
              (snd (turnDrivers state decl ev)))
    as (_ & _ & -> & _ & -> & -> & _).
  assert (Hdep : depreciation (Finance.fl_pnl (Finance.flows input))
                 <= ppe (prev_balance input) + capex_base (drivers input)).
  { unfold Finance.flows. cbn [Finance.fl_pnl depreciation].
    rewrite Hstart, Hper, Hlife.
    destruct Hd as (_ & _ & _ & _ & _ & _ & Hc & _).
    unfold capex_min in Hc.
    assert (E : ppe STARTING_BALANCE / Math_max 1 5 / 12 * (30 / 30)
                == 100000 # 3) by (vm_compute; reflexivity).
    rewrite E. change (ppe STARTING_BALANCE) with 2000000. lra. }
  assert (Hb0 : 0 <= min_cash_buffer (params input))
    by (rewrite Hbuf; discriminate).
  pose proof (FinanceProps.flows_gap input Hb0 Hdep) as Hgap.
  rewrite Hstart, Hspend in Hgap.
  assert (Eg : assets_of STARTING_BALANCE - liab_eq_of STARTING_BALANCE
               - nullish None 0 == 300000) by (vm_compute; reflexivity).
  rewrite Eg in Hgap.
  destruct (FinanceProps.plug_iff input) as (Hiff & _).
  assert (Hn : ~ Qabs (assets_of (Finance.fl_balance (Finance.flows input))
                       - liab_eq_of (Finance.fl_balance (Finance.flows input)))
                 < tolerance).
  { rewrite Hgap. apply Qle_not_lt. vm_compute. discriminate. }
  split.
  { unfold Finance.computeFinancials.
    destruct (FinanceFacts.checks_cash_close (Finance.flows input))
      as (_ & -> & _).
    unfold Finance.flows. cbn [Finance.fl_cash_open].
    rewrite Hstart. reflexivity. }
  split; [apply Hiff; exact Hn|].
  apply FinanceProps.balance_ok_true.
Qed.

Lemma turn_always_plugs_witness :
  st_financials fixture_state = None
  /\ (let f := financials (resolveTurn DEFAULT_CAPS fixture_state
                                       "Test declaration" neutral_output) in
      cash_open f = 1000000
      /\ In Finance.note_plug (notes f)
          /\ balance_ok f = true).
Proof.
  assert (H : st_financials fixture_state = None) by reflexivity.
  split; [exact H|].
  exact (turn_always_plugs DEFAULT_CAPS fixture_state "Test declaration"
           neutral_output H).
Defined.


Lemma resolveTurn_pnl caps state decl ev :
  let r := resolveTurn caps state decl ev in
  st_pnl (state_after r)
  = Some {| sp_revenue := revenue (pnl (financials r)) / 1000000;
            sp_cogs := cogs (pnl (financials r)) / 1000000;
            sp_gm_percent :=
              gross_profit (pnl (financials r))
              / revenue (pnl (financials r)) * 100;
            sp_opex := opex (pnl (financials r)) / 1000000;
            sp_net := net_income (pnl (financials r)) / 1000000;
            sp_cash := cash (balance (financials r)) / 1000000 |}.
Proof.
  cbv zeta. unfold resolveTurn. cbn [state_after st_pnl financials].
  reflexivity.
Qed.

(** X15. The figures that the server attaches to a turn are the figures
    of the turn's snapshot divided by one million (in [state_after.pnl])
    and multiplied by one million again: revenue, COGS, operating
    expenses and the cash of the balance sheet.  The figure shown as EBIT
    is computed in this way from the net income, which is the EBIT of the
    snapshot because interest and taxes are zero. *)
Theorem displayed_financials (caps : Caps) (state : State)
    (decl : string) (ev : EvaluatorOutput) :
  let r := resolveTurn caps state decl ev in
  exists v,
    Server.turnFinancials r = Some v
    /\ Server.tf_revenue v = revenue (pnl (financials r)) / 1000000 * 1000000
    /\ Server.tf_cogs v = cogs (pnl (financials r)) / 1000000 * 1000000
    /\ Server.tf_opex v = opex (pnl (financials r)) / 1000000 * 1000000
    /\ Server.tf_cash v = cash (balance (financials r)) / 1000000 * 1000000
    /\ Server.tf_ebit v
       = net_income (pnl (financials r)) / 1000000 * 1000000
    /\ net_income (pnl (financials r)) == ebit (pnl (financials r))
    /\ interest (pnl (financials r)) == 0
    /\ taxes (pnl (financials r)) == 0.
Proof.
  cbv zeta. unfold Server.turnFinancials.
  rewrite resolveTurn_pnl.
  eexists. split; [reflexivity|].
  cbn [Server.tf_revenue Server.tf_cogs Server.tf_opex Server.tf_ebit
       Server.tf_cash sp_revenue sp_cogs sp_opex sp_net sp_cash].
  do 5 (split; [reflexivity|]).
  destruct (resolveTurn_financials caps state decl ev) as [-> _].
  destruct (applyDirectSpending_frame (getPrevBalanceFromState state)
              (detectCashSpending decl ev)
              (Finance.computeFinancials (turnFinanceInput state decl ev))
              (snd (turnDrivers state decl ev))) as (-> & _).
  destruct (FinanceProps.no_interest_no_tax
              (turnFinanceInput state decl ev)) as (Hi & Ht & Hn & _).
  split; [exact Hn|]. split; [exact Hi | exact Ht].
Qed.

End EngineProps.

(** ** Further properties of the event generator *)

Module EventProps.
Import JS JSFacts Engine EventFacts.

(** *** Hashing *)

Lemma wrap32_range (z : Z) : (- 2 ^ 31 <= wrap32 z < 2 ^ 31)%Z.
Proof.
  unfold wrap32.
  pose proof (Z.mod_pos_bound (z + 2 ^ 31) (2 ^ 32) eq_refl). lia.
Qed.

Lemma wrap32_congr (a b : Z) :
  (a mod 2 ^ 32 = b mod 2 ^ 32)%Z -> wrap32 a = wrap32 b.
Proof.
  intros H. unfold wrap32. f_equal.
  rewrite (Z.add_mod a), (Z.add_mod b) by discriminate.
  rewrite H. reflexivity.
Qed.

Lemma wrap32_mod (z : Z) : (wrap32 z mod 2 ^ 32 = z mod 2 ^ 32)%Z.
Proof.
  unfold wrap32.
  rewrite <- (Zminus_mod_idemp_l ((z + 2 ^ 31) mod 2 ^ 32)).
  rewrite Z.mod_mod by discriminate.
  rewrite Zminus_mod_idemp_l. f_equal. lia.
Qed.

(** One round of the loop multiplies by 31 and adds the code unit, on
    signed 32-bit integers. *)
Lemma hash_round (h c : Z) :
  wrap32 (wrap32 (wrap32 h * 32) - wrap32 h + c) = wrap32 (31 * h + c).
Proof.
  apply wrap32_congr.
  rewrite Z.add_mod, Zminus_mod, wrap32_mod by discriminate.
  rewrite (Z.mul_mod (wrap32 h)), !wrap32_mod by discriminate.
  rewrite <- Z.mul_mod, <- Zminus_mod, <- Z.add_mod by discriminate.
  f_equal. lia.
Qed.

Lemma hashString_loop_poly (s : string) (h : Z) :
  hashString_loop s (wrap32 h) = wrap32 (poly31 s h).
Proof.
  revert h. induction s as [|c s IH]; intros h; simpl.
  - reflexivity.
  - rewrite hash_round. apply IH.
Qed.

Lemma hashString_loop_0 (s : string) :
  hashString_loop s 0 = wrap32 (poly31 s 0).
Proof. exact (hashString_loop_poly s 0). Qed.

Lemma hashString_range (s : string) : (0 <= hashString s <= 2 ^ 31)%Z.
Proof.
  unfold hashString. rewrite hashString_loop_0.
  pose proof (wrap32_range (poly31 s 0)) as H. lia.
Qed.

(** X16. [hashString] is the absolute value of the base-31 polynomial of
    the code units, reduced to a signed 32-bit integer (the hash code of a
    Java string): the shift-and-subtract loop with its [hash & hash] equals
    the multiplication by 31 modulo 2^32.  It lies between 0 and 2^31. *)
Theorem hashString_polynomial (s : string) :
  hashString s = Z.abs (wrap32 (poly31 s 0))
  /\ (0 <= hashString s <= 2 ^ 31)%Z.
Proof.
  split; [|apply hashString_range].
  unfold hashString. rewrite hashString_loop_0. reflexivity.
Qed.

(** *** Tiers *)

Lemma tierFromRoll_cases (r : Q) :
  (r <= 40 /\ tierFromRoll r = 0%Z)
  \/ (40 < r <= 80 /\ tierFromRoll r = 1%Z)
  \/ (80 < r <= 96 /\ tierFromRoll r = 2%Z)
  \/ (96 < r /\ tierFromRoll r = 3%Z).
Proof.
  unfold tierFromRoll.
  destruct (leb r 40) eqn:E1; [left; apply leb_le in E1; auto|].
  destruct (leb r 80) eqn:E2;
    [right; left; apply leb_le in E2|].
  { split; [split; [|exact E2]|reflexivity].
    apply Qnot_le_lt. intros H. apply leb_le in H. congruence. }
  destruct (leb r 96) eqn:E3;
    [right; right; left; apply leb_le in E3|right; right; right].
  - split; [split; [|exact E3]|reflexivity].
    apply Qnot_le_lt. intros H. apply leb_le in H. congruence.
  - split; [|reflexivity].
    apply Qnot_le_lt. intros H. apply leb_le in H. congruence.
Qed.

Lemma tierFromRoll_mono (r1 r2 : Q) :
  r1 <= r2 -> (tierFromRoll r1 <= tierFromRoll r2)%Z.
Proof.
  intros H.
  destruct (tierFromRoll_cases r1) as [[H1 ->] | [[H1 ->] | [[H1 ->] | [H1 ->]]]];
    destruct (tierFromRoll_cases r2)
      as [[H2 ->] | [[H2 ->] | [[H2 ->] | [H2 ->]]]];
    try lia; exfalso; lra.
Qed.

Lemma tierFromRoll_string (r : Q) :
  In (string_of_Z (tierFromRoll r)) tier_strings
  /\ (0 <= tierFromRoll r <= 3)%Z.
Proof.
  destruct (tierFromRoll_cases r) as [[_ ->] | [[_ ->] | [[_ ->] | [_ ->]]]];
    (split; [vm_compute; tauto | lia]).
Qed.

(** *** The shock table *)

Ltac table_cases :=
  repeat match goal with
  | |- context [if ?c then _ else _] => destruct c
  end.

Lemma applyShock_adverse (cat : string) (t : Z) :
  adverse (shock_effects (applyShock cat t))
  /\ 0 <= shock_flag_bump (applyShock cat t)
  /\ 0 <= shock_tail_risk_bump (applyShock cat t).
Proof.
  unfold applyShock. table_cases.
  all: unfold adverse; cbn; repeat split; discriminate.
Qed.

(** Within the categories and the tiers every row of the table has a
    name. *)
Lemma applyShock_named (cat : string) (t : Z) :
  In cat categories -> (0 <= t <= 3)%Z ->
  shock_name (applyShock cat t) <> "".
Proof.
  intros Hc Ht.
  assert (Hcases : t = 0%Z \/ t = 1%Z \/ t = 2%Z \/ t = 3%Z) by lia.
  simpl in Hc.
  destruct Hcases as [-> | [-> | [-> | ->]]].
  - unfold applyShock. cbn. discriminate.
  - repeat (destruct Hc as [<- | Hc]; [vm_compute; discriminate|]).
    destruct Hc.
  - repeat (destruct Hc as [<- | Hc]; [vm_compute; discriminate|]).
    destruct Hc.
  - repeat (destruct Hc as [<- | Hc]; [vm_compute; discriminate|]).
    destruct Hc.
Qed.

(** X17. No row of the shock table is favourable, for any category and
    tier: revenue, cash, share, NPS and morale deltas are at most 0, COGS,
    operating expenses and backlog deltas at least 0, and the flag and
    tail-risk bumps are non-negative; at tier 0 all deltas are 0. *)
Theorem shock_never_favourable (cat : string) (t : Z) :
  let s := applyShock cat t in
  adverse (shock_effects s)
  /\ 0 <= shock_flag_bump s /\ 0 <= shock_tail_risk_bump s
  /\ (t = 0%Z ->
      shock_effects s
      = {| revenue_delta := 0; cogs_delta := 0; opex_delta := 0;
           cash_delta := 0; share_delta := 0; nps_delta := 0;
           morale_delta := 0; backlog_delta := 0;
           effect_notes := "No immediate hit, but jitters build." |}).
Proof.
  cbv zeta. destruct (applyShock_adverse cat t) as (Ha & Hf & Ht).
  repeat (split; [assumption|]).
  intros ->. reflexivity.
Qed.

(** *** Generated events *)

Lemma inject_Z_range (z lo hi : Z) :
  (lo <= z <= hi)%Z -> inject_Z lo <= inject_Z z <= inject_Z hi.
Proof. intros [H1 H2]. split; rewrite <- Zle_Qle; assumption. Qed.

Lemma category_of_seed (seed : Z) :
  In (nth (Z.to_nat (seed mod 8)) categories "") categories.
Proof.
  apply nth_In.
  pose proof (Z.mod_pos_bound seed 8 eq_refl).
  change (List.length categories) with 8%nat. lia.
Qed.

(** The fields of a generated event. *)
Lemma generate_fields (s : json) (turnIndex : Q) (rd : Readings) :
  readings s = Some rd ->
  let seed := hashString (hashInput s turnIndex) in
  let cat := nth (Z.to_nat (seed mod 8)) categories "" in
  let r := inject_Z (seed mod 100 + 1) in
  let k := tierFromRoll (Math_min 100 (r + shockPressure rd)) in
  exists e,
    generateEnhancedRngEvent s turnIndex = Some e
    /\ roll e = r /\ event_type e = cat /\ tier e = string_of_Z k
    /\ name e = shock_name (applyShock cat k)
    /\ effects e = shock_effects (applyShock cat k)
    /\ flag_bump e = shock_flag_bump (applyShock cat k)
    /\ tail_risk_bump e = shock_tail_risk_bump (applyShock cat k)
    /\ hints e = generateHints s cat k.
Proof.
  intros Hrd. cbv zeta. unfold generateEnhancedRngEvent. rewrite Hrd.
  eexists. split; [reflexivity|]. repeat split; reflexivity.
Qed.

Lemma generate_conforms (s : json) (turnIndex : Q) (e : RngEvent) :
  generateEnhancedRngEvent s turnIndex = Some e ->
  event_conforms e /\ adverse (effects e) /\ event_type e <> "reg_probe".
Proof.
  intros He.
  destruct (readings s) as [rd|] eqn:Hrd;
    [|unfold generateEnhancedRngEvent in He; rewrite Hrd in He;
      discriminate He].
  destruct (generate_fields s turnIndex rd Hrd)
    as (e' & He' & Hr & Hc & Ht & Hn & Hef & _).
  rewrite He in He'. injection He' as <-.
  pose proof (hashString_range (hashInput s turnIndex)) as [Hseed _].
  set (seed := hashString (hashInput s turnIndex)) in *.
  pose proof (category_of_seed seed) as Hcat.
  set (cat := nth (Z.to_nat (seed mod 8)) categories "") in *.
  clearbody cat.
  destruct (tierFromRoll_string
              (Math_min 100 (inject_Z (seed mod 100 + 1) + shockPressure rd)))
    as [Hts Htr].
  set (k := tierFromRoll _) in *. clearbody k.
  unfold event_conforms. rewrite Hr, Hc, Ht, Hn, Hef.
  split; [|split].
  - split; [|split; [exact Hcat|split; [exact Hts|]]].
    + apply (inject_Z_range (seed mod 100 + 1) 1 100).
      pose proof (Z.mod_pos_bound seed 100 eq_refl). lia.
    + apply applyShock_named; assumption.
  - apply applyShock_adverse.
  - intros E. simpl in Hcat. rewrite E in Hcat.
    repeat (destruct Hcat as [Hcat | Hcat]; [discriminate Hcat|]).
    exact Hcat.
Qed.

(** X18. On every state of the right shape the generator returns an event
    within the event schema: the roll is between 1 and 100, the type is one
    of the eight categories (so never [reg_probe], which the finance step
    of [resolveTurn] tests for), the tier is "0" to "3", the event has a
    name, and none of its effects is favourable. *)
Theorem generated_event_conforms (s : json) (turnIndex : Q) :
  is_State s = true ->
  exists e,
    generateRngEvent s turnIndex = Some e
    /\ event_conforms e /\ adverse (effects e)
    /\ event_type e <> "reg_probe".
Proof.
  intros Hs. destruct (generateRngEvent_total s turnIndex Hs) as [e He].
  exists e. split; [exact He|].
  apply (generate_conforms s turnIndex). exact He.
Qed.

Lemma generated_event_conforms_witness :
  is_State fixture_json = true
  /\ exists e,
       generateRngEvent fixture_json 1 = Some e
       /\ event_conforms e /\ adverse (effects e)
       /\ event_type e <> "reg_probe".
Proof.
  assert (H : is_State fixture_json = true) by (vm_compute; reflexivity).
  split; [exact H | exact (generated_event_conforms fixture_json 1 H)].
Defined.

(** *** Shock pressure *)

Lemma total_nonneg (l : list (string * json)) :
  Forall (fun kv => 0 <= summand kv) l -> 0 <= total l.
Proof.
  induction 1 as [|kv l Hkv _ IH]; simpl; lra.
Qed.

Lemma Forall_filter {A} (P : A -> Prop) (f : A -> bool) (l : list A) :
  Forall P l -> Forall P (filter f l).
Proof.
  induction 1 as [|x l Hx _ IH]; simpl; [constructor|].
  destruct (f x); [constructor|]; assumption.
Qed.

Lemma Math_round_nonneg (x : Q) : 0 <= x -> 0 <= Math_round x.
Proof.
  intros H. unfold Math_round.
  change 0 with (inject_Z 0). rewrite <- Zle_Qle.
  change 0%Z with (Qfloor 0). apply Qfloor_resp_le.
  change (inject_Z 0) with 0 in *. lra.
Qed.

Lemma shockPressure_bounds (rd : Readings) :
  shockPressure rd <= 20 /\ (flags_nonneg rd -> 0 <= shockPressure rd).
Proof.
  unfold shockPressure. split; [apply min_le_r|].
  intros Hf.
  assert (H0 : 0 <= Math_round (flagSum (rd_flags rd) * 20)).
  { apply Math_round_nonneg. rewrite flagSum_total.
    pose proof (total_nonneg _ (Forall_filter _ is_pressure _ Hf)). lra. }
  set (p0 := Math_round _) in *.
  destruct (ltb (rd_morale rd) 60), (gtb (rd_backlog rd) 8000),
           (ltb (rd_cash rd) 5);
    match goal with |- 0 <= Math_min ?a 20 =>
      destruct (min_case a 20) as [[_ E] | [_ E]]; rewrite E; lra
    end.
Qed.

Lemma tier_with_pressure (r p : Q) :
  0 <= p -> (tierFromRoll r <= tierFromRoll (Math_min 100 (r + p)))%Z.
Proof.
  intros Hp.
  destruct (min_case 100 (r + p)) as [[Hle E] | [Hle E]].
  - destruct (tierFromRoll_cases (Math_min 100 (r + p)))
      as [[H ->] | [[H ->] | [[H ->] | [H ->]]]];
      try (rewrite E in H; exfalso; lra).
    pose proof (tierFromRoll_string r). lia.
  - apply tierFromRoll_mono. rewrite E. lra.
Qed.

(** X19. The shock pressure is at most 20 and, when no pressure flag is
    negative, at least 0; the tier of the generated event is the tier of
    the roll raised by the pressure and capped at 100, so it is never below
    the tier of the roll that the event reports, and at most 3. *)
Theorem pressure_raises_tier (s : json) (turnIndex : Q) (rd : Readings) :
  readings s = Some rd -> flags_nonneg rd ->
  0 <= shockPressure rd <= 20
  /\ exists e k,
       generateRngEvent s turnIndex = Some e
       /\ tier e = string_of_Z k
       /\ k = tierFromRoll (Math_min 100 (roll e + shockPressure rd))
       /\ (tierFromRoll (roll e) <= k <= 3)%Z.
Proof.
  intros Hrd Hf.
  destruct (shockPressure_bounds rd) as [Hhi Hlo]. specialize (Hlo Hf).
  split; [split; assumption|].
  destruct (generate_fields s turnIndex rd Hrd)
    as (e & He & Hr & _ & Ht & _).
  exists e. eexists. split; [exact He|]. split; [exact Ht|].
  rewrite Hr. split; [reflexivity|]. split.
  - apply tier_with_pressure. exact Hlo.
  - apply tierFromRoll_string.
Qed.

Lemma fixture_flags_nonneg : flags_nonneg fixture_readings.
Proof.
  unfold flags_nonneg, fixture_readings. cbn.
  repeat constructor; discriminate.
Qed.

Lemma pressure_raises_tier_witness :
  readings fixture_json = Some fixture_readings
  /\ flags_nonneg fixture_readings
  /\ 0 <= shockPressure fixture_readings <= 20
  /\ exists e k,
       generateRngEvent fixture_json 1 = Some e
       /\ tier e = string_of_Z k
       /\ k = tierFromRoll
                (Math_min 100 (roll e + shockPressure fixture_readings))
       /\ (tierFromRoll (roll e) <= k <= 3)%Z.
Proof.
  assert (H1 : readings fixture_json = Some fixture_readings) by reflexivity.
  assert (H2 : flags_nonneg fixture_readings) by exact fixture_flags_nonneg.
  split; [exact H1|]. split; [exact H2|].
  exact (pressure_raises_tier fixture_json 1 fixture_readings H1 H2).
Defined.

(** *** The initial state *)

Lemma mod_range (h k : Z) (base hi : Q) :
  (0 < k)%Z -> base + inject_Z (k - 1) <= hi ->
  base <= base + inject_Z (h mod k) <= hi.
Proof.
  intros Hk Hhi. pose proof (Z.mod_pos_bound h k Hk) as Hm.
  destruct (inject_Z_range (h mod k) 0 (k - 1)) as [H1 H2]; [lia|].
  change (inject_Z 0) with 0 in H1. lra.
Qed.

Lemma number_in (lo hi q : Q) :
  lo <= q <= hi -> is_number_in lo hi (Some (JNum q)) = true.
Proof.
  intros [H1 H2]. unfold is_number_in.
  apply andb_true_iff. split; apply leb_le; assumption.
Qed.

Lemma number_from (lo q : Q) :
  lo <= q -> is_number_from lo (Some (JNum q)) = true.
Proof. intros H. unfold is_number_from. apply leb_le. exact H. Qed.

Lemma one_of_nth (l : list string) (i : nat) :
  (i < List.length l)%nat ->
  is_one_of l (Some (JStr (nth i l ""))) = true.
Proof.
  intros Hi. unfold is_one_of. apply existsb_exists.
  exists (nth i l ""). split; [apply nth_In; exact Hi|].
  apply String.eqb_refl.
Qed.

Lemma mod_index (h k : Z) :
  (0 < k)%Z -> (Z.to_nat (h mod k) < Z.to_nat k)%nat.
Proof. intros Hk. pose proof (Z.mod_pos_bound h k Hk). lia. Qed.

Ltac closed_le := vm_compute; discriminate.

(** X20. For every seed the initial state has the shape that the state
    schema asks for, with morale in 75..94, credibility in 70..94, backlog in
    1000..1499, service in 85..99, share in 100..149 and cash runway in
    18..29, a legacy event category and tier from their lists, and no stored
    financials, so its previous balance is the starting balance. *)
Theorem initial_state_valid (seed : string) :
  let s := createInitialState seed in
  is_State (stateObject s) = true
  /\ (75 <= morale s <= 94) /\ (70 <= credibility s <= 94)
  /\ (1000 <= backlog s <= 1499) /\ (85 <= service s <= 99)
  /\ (100 <= share s <= 149) /\ (18 <= cash_runway s <= 29)
  /\ In (le_category (st_event s)) event_categories
  /\ In (le_tier (st_event s)) event_tiers
  /\ getPrevBalanceFromState s = STARTING_BALANCE.
Proof.
  cbv zeta. unfold createInitialState.
  generalize (hashString seed) as h. intros h. cbv zeta.
  cbn [morale credibility backlog service share cash_runway st_event
       le_category le_tier].
  assert (Hm : 75 <= 75 + inject_Z (h mod 20) <= 94)
    by (apply mod_range; [reflexivity | closed_le]).
  assert (Hc : 70 <= 70 + inject_Z (h mod 25) <= 94)
    by (apply mod_range; [reflexivity | closed_le]).
  assert (Hb : 1000 <= 1000 + inject_Z (h mod 500) <= 1499)
    by (apply mod_range; [reflexivity | closed_le]).
  assert (Hs : 85 <= 85 + inject_Z (h mod 15) <= 99)
    by (apply mod_range; [reflexivity | closed_le]).
  assert (Hsh : 100 <= 100 + inject_Z (h mod 50) <= 149)
    by (apply mod_range; [reflexivity | closed_le]).
  assert (Hr : 18 <= 18 + inject_Z (h mod 12) <= 29)
    by (apply mod_range; [reflexivity | closed_le]).
  split.
  { unfold is_State.
    repeat (apply andb_true_intro; split); try reflexivity;
      try (apply leb_le;
           cbn [morale credibility backlog service share cash_runway];
           lra).
    - apply (one_of_nth event_categories). apply (mod_index h 5 eq_refl).
    - apply (one_of_nth event_tiers). apply (mod_index h 4 eq_refl). }
  repeat (split; [assumption|]).
  split; [apply nth_In; apply (mod_index h 5 eq_refl)|].
  split; [apply nth_In; apply (mod_index h 4 eq_refl)|].
  reflexivity.
Qed.

(** The readings of an initial state do not depend on the seed. *)
Lemma initial_readings (seed : string) :
  exists rd,
    readings (stateObject (createInitialState seed)) = Some rd
    /\ shockPressure rd = 7.
Proof.
  unfold createInitialState.
  generalize (hashString seed) as h. intros h. cbv zeta.
  eexists. split; [reflexivity|]. vm_compute. reflexivity.
Qed.

Lemma initial_hints (seed cat : string) (k : Z) :
  In cat categories ->
  generateHints (stateObject (createInitialState seed)) cat k = [].
Proof.
  unfold createInitialState.
  generalize (hashString seed) as h. intros h. cbv zeta.
  intros Hc. simpl in Hc.
  repeat (destruct Hc as [<- | Hc]; [reflexivity|]). destruct Hc.
Qed.

(** X21. The first event of a run: for every seed the generator returns
    an event on the initial state at turn index 0; the shock pressure of an
    initial state is 7 whatever the seed, so the tier is the tier of
    roll + 7, and the event carries no hints. *)
Theorem first_event_of_run (seed : string) :
  exists e,
    generateRngEvent (stateObject (createInitialState seed)) 0 = Some e
    /\ event_conforms e
    /\ tier e = string_of_Z (tierFromRoll (Math_min 100 (roll e + 7)))
    /\ hints e = [].
Proof.
  destruct (initial_readings seed) as (rd & Hrd & Hp).
  destruct (generate_fields _ 0 rd Hrd)
    as (e & He & Hr & Hc & Ht & _ & _ & _ & _ & Hh).
  exists e. split; [exact He|].
  split; [apply (generate_conforms _ 0 e He)|].
  rewrite Hp in Ht. rewrite Hr. split; [exact Ht|].
  rewrite Hh. apply initial_hints.
  apply category_of_seed.
Qed.

(** X22. The flags of an initial state are not independent: margin push
    equals supply fragility, the tail-risk flag implies supply fragility and
    allowed temps, labour tension implies allowed temps, and the overtime
    headroom is the morale minus 75. *)
Theorem initial_flags_linked (seed : string) :
  let s := createInitialState seed in
  margin_push (pressures s) = supply_fragile (flags s)
  /\ (flag_tail_risk (flags s) = true ->
      supply_fragile (flags s) = true
      /\ temps_allowed (headroom s) = true)
  /\ (labor_tense (flags s) = true -> temps_allowed (headroom s) = true)
  /\ ot_pct (headroom s) == morale s - 75.
Proof.
  cbv zeta. unfold createInitialState.
  generalize (hashString seed) as h. intros h. cbv zeta.
  cbn [margin_push pressures supply_fragile flags flag_tail_risk
       temps_allowed headroom labor_tense ot_pct morale].
  split; [reflexivity|]. split; [|split].
  - intros H. apply Z.eqb_eq in H.
    split; apply Z.eqb_eq; Z.div_mod_to_equations; lia.
  - intros H. apply Z.eqb_eq in H.
    apply Z.eqb_eq; Z.div_mod_to_equations; lia.
  - lra.
Qed.

End EventProps.

(** ** Properties of the rule-based evaluator *)

Module EvaluatorProps.
Import JS JSFacts Engine Evaluator EventFacts EventProps.

(** *** Strengths of the CEO signals *)

Ltac next_pair d e E :=
  match goal with
  | |- context [let '(a, b) := ?X in _] => destruct X as [d e] eqn:E
  end.

Ltac stage E :=
  repeat match type of E with
  | (if ?c then _ else _) = _ => destruct c
  end;
  injection E as <- <-.

Lemma min_1_ok (x : Q) : 0 <= x -> 0 <= Math_min 1 x <= 1.
Proof.
  intros H. destruct (min_case 1 x) as [[_ E] | [H1 E]]; rewrite E; lra.
Qed.

Lemma generateSignalForMetric_ok (decl : string) (st : State)
    (metric : string) :
  strength_ok (generateSignalForMetric decl st metric).
Proof.
  unfold generateSignalForMetric, strength_ok.
  destruct (_ =? 0)%nat; [cbn; lra|].
  next_pair d s0 E.
  assert (H : 5 # 10 <= s0 <= 8 # 10)
    by (stage E; split; discriminate).
  clear E.
  destruct (labor_tense (flags st) && _), (supply_fragile (flags st) && _);
    cbn [strength].
  - apply min_1_ok.
    pose proof (min_1_ok (s0 * (12 # 10))). lra.
  - apply min_1_ok. lra.
  - apply min_1_ok. lra.
  - lra.
Qed.

Lemma generateCEOSignals_ok (decl : string) (st : State) :
  let s := generateCEOSignals decl st in
  strength_ok (sig_morale s) /\ strength_ok (sig_credibility s)
  /\ strength_ok (sig_backlog_pressure s)
  /\ strength_ok (sig_service_risk s).
Proof.
  cbv zeta. unfold generateCEOSignals.
  destruct (test rx_cold _); [|destruct (test rx_warm _)].
  - unfold strength_ok. destruct (labor_tense (flags st)); cbn;
      repeat split; discriminate.
  - unfold strength_ok. destruct (labor_tense (flags st)); cbn;
      repeat split; discriminate.
  - cbn [sig_morale sig_credibility sig_backlog_pressure sig_service_risk].
    repeat split; apply generateSignalForMetric_ok.
Qed.

(** *** Impact channels *)

Lemma all_values_set {V} (P : V -> Prop) (k : string) (v : V) (o : obj V) :
  P v -> all_values P o -> all_values P (set k v o).
Proof.
  intros Hv. induction 1 as [|[k' v'] o Hkv Ho IH]; simpl.
  - constructor; [exact Hv | constructor].
  - destruct (String.eqb k k'); constructor; auto.
Qed.

Lemma all_values_get {V} (P : V -> Prop) (k : string) (o : obj V) :
  all_values P o ->
  match get k o with Some v => P v | None => True end.
Proof.
  induction 1 as [|[k' v'] o Hkv _ IH]; simpl; [exact I|].
  destruct (String.eqb k k'); [exact Hkv | exact IH].
Qed.

Lemma scaled_ok (x k : Q) : 0 < k -> 0 <= Math_min (Math_abs x / k) 1 <= 1.
Proof.
  intros Hk.
  assert (H : 0 <= Math_abs x / k).
  { apply Qle_shift_div_l; [exact Hk|]. unfold Math_abs.
    pose proof (Qabs_nonneg x). lra. }
  destruct (min_case (Math_abs x / k) 1) as [[H1 E] | [H1 E]];
    rewrite E; lra.
Qed.

(** The tier strings parse to their numbers. *)
Lemma parseInt_tier (t : string) :
  In t tier_strings ->
  exists k, parseInt (or_str (Some t) "0") = Some k /\ (0 <= k <= 3)%Z
            /\ t = string_of_Z k.
Proof.
  simpl. intros [<- | [<- | [<- | [<- | []]]]].
  - exists 0%Z. repeat split; try reflexivity; lia.
  - exists 1%Z. repeat split; try reflexivity; lia.
  - exists 2%Z. repeat split; try reflexivity; lia.
  - exists 3%Z. repeat split; try reflexivity; lia.
Qed.

Lemma legacyImpact_factors (ty : string) :
  Forall (fun ch => 0 <= snd ch <= 1) (legacyImpact ty).
Proof.
  unfold legacyImpact.
  repeat match goal with
  | |- context [if ?c then _ else _] => destruct c
  end; repeat constructor; cbn; discriminate.
Qed.

Lemma legacy_fold_ok (r : Q) (l : list (string * Direction * Q))
    (acc : obj DirStrength) :
  0 <= r <= 100 ->
  Forall (fun ch => 0 <= snd ch <= 1) l ->
  all_values strength_ok acc ->
  all_values strength_ok
    (fold_left
       (fun impact ch =>
          let '(key, d, factor) := ch in
          set key {| dir := d; strength := Math_min 1 (r / 100 * factor) |}
              impact)
       l acc).
Proof.
  intros Hr Hl. revert acc.
  induction Hl as [|[[key d] f] l Hf _ IH]; intros acc Hacc; simpl.
  - exact Hacc.
  - apply IH. apply all_values_set; [|exact Hacc].
    unfold strength_ok. cbn [strength]. simpl in Hf.
    apply min_1_ok.
    assert (H : 0 <= r / 100) by (apply Qle_shift_div_l; lra).
    nra.
Qed.

Lemma generateEventImpact_ok (p : EventPacket) (st : State) :
  packet_in_schema p ->
  all_values strength_ok (generateEventImpact p st).
Proof.
  intros [Hroll Htier]. unfold generateEventImpact.
  destruct (rp_effects p) as [ef|].
  - cbv zeta.
    assert (H1 : all_values strength_ok
                   (if negb (eqb (morale_delta ef) 0)
                    then set "morale"
                           {| dir := if gtb (morale_delta ef) 0
                                     then up else down;
                              strength :=
                                Math_min (Math_abs (morale_delta ef) / 10) 1 |}
                           []
                    else [])).
    { destruct (negb _); [|constructor].
      apply all_values_set; [|constructor].
      apply scaled_ok. reflexivity. }
    set (i1 := if negb (eqb (morale_delta ef) 0) then _ else _) in *.
    clearbody i1.
    assert (H2 : all_values strength_ok
                   (if negb (eqb (backlog_delta ef) 0)
                    then set "backlog_pressure"
                           {| dir := if gtb (backlog_delta ef) 0
                                     then up else down;
                              strength :=
                                Math_min (Math_abs (backlog_delta ef) / 2000)
                                         1 |}
                           i1
                    else i1)).
    { destruct (negb _); [|exact H1].
      apply all_values_set; [|exact H1].
      apply scaled_ok. reflexivity. }
    set (i2 := if negb (eqb (backlog_delta ef) 0) then _ else _) in *.
    clearbody i2. clear H1.
    assert (H3 : all_values strength_ok
                   (if negb (eqb (nps_delta ef) 0)
                    then set "service_risk"
                           {| dir := if ltb (nps_delta ef) 0
                                     then up else down;
                              strength :=
                                Math_min (Math_abs (nps_delta ef) / 20) 1 |}
                           i2
                    else i2)).
    { destruct (negb _); [|exact H2].
      apply all_values_set; [|exact H2].
      apply scaled_ok. reflexivity. }
    set (i3 := if negb (eqb (nps_delta ef) 0) then _ else _) in *.
    clearbody i3. clear H2.
    destruct (rp_tier p) as [t|].
    + destruct (parseInt_tier t Htier) as (k & -> & Hk & _).
      destruct (0 <? k)%Z; [|exact H3].
      apply all_values_set; [|exact H3].
      unfold strength_ok. cbn [strength].
      destruct (inject_Z_range k 0 3 Hk) as [Ha Hb].
      change (inject_Z 0) with 0 in Ha. change (inject_Z 3) with 3 in Hb.
      lra.
    + exact H3.
  - apply legacy_fold_ok; [lra | apply legacyImpact_factors | constructor].
Qed.

(** *** The nonsense penalty *)

Lemma getDeterministicPenalty_range (decl : string) (lo hi : Q) :
  lo <= hi ->
  lo <= getDeterministicPenalty decl lo hi
  /\ getDeterministicPenalty decl lo hi <= lo + (99 # 100) * (hi - lo).
Proof.
  intros H. unfold getDeterministicPenalty.
  pose proof (Z.mod_pos_bound (hashString decl) 100 eq_refl) as Hm.
  destruct (inject_Z_range (hashString decl mod 100) 0 99) as [H0 H99];
    [lia|].
  change (inject_Z 0) with 0 in H0. change (inject_Z 99) with 99 in H99.
  set (m := inject_Z (hashString decl mod 100)) in *.
  assert (E : m / 100 == m * (1 # 100)) by (field; discriminate).
  rewrite E. split; nra.
Qed.

(** X23. For an event packet within its schema (roll from 1 to 100, tier
    among "0" to "3" when given), the output of the rule-based evaluator
    meets every numeric constraint of the output schema: the four CEO
    signals and every impact channel present have a strength between 0 and
    1, and the nonsense penalty is between 0 and 1. *)
Theorem rule_output_in_schema (decl : string) (st : State)
    (p : EventPacket) (caps : Caps) :
  packet_in_schema p ->
  output_in_schema (evaluateWithRules decl st p caps).
Proof.
  intros Hp. unfold output_in_schema, evaluateWithRules.
  cbn [eo_signals eo_event eo_penalties impact_channels nonsense_penalty].
  destruct (generateCEOSignals_ok decl st) as (H1 & H2 & H3 & H4).
  pose proof (generateEventImpact_ok p st Hp) as Hi.
  unfold channels_of, channel_ok.
  cbn [ic_morale ic_credibility ic_backlog_pressure ic_service_risk].
  repeat (split; [assumption|]).
  split; [exact (all_values_get strength_ok "morale" _ Hi)|].
  split; [exact (all_values_get strength_ok "credibility" _ Hi)|].
  split; [exact (all_values_get strength_ok "backlog_pressure" _ Hi)|].
  split; [exact (all_values_get strength_ok "service_risk" _ Hi)|].
  destruct (isNonsense decl); [|split; discriminate].
  destruct (getDeterministicPenalty_range decl (1 # 10) (3 # 10))
    as [Ha Hb]; [discriminate|].
  split; lra.
Qed.

Lemma probe_packet_in_schema : packet_in_schema probe_packet.
Proof.
  unfold packet_in_schema, probe_packet. cbn.
  split; [split; discriminate | exact I].
Qed.

Lemma rule_output_in_schema_witness :
  packet_in_schema probe_packet
  /\ output_in_schema
       (evaluateWithRules
          "We need to improve our operational efficiency and focus on quality."
          tense_state probe_packet DEFAULT_CAPS).
Proof.
  assert (H : packet_in_schema probe_packet) by exact probe_packet_in_schema.
  split; [exact H|].
  exact (rule_output_in_schema
           "We need to improve our operational efficiency and focus on quality."
           tense_state probe_packet DEFAULT_CAPS H).
Defined.

(** X24. The rule-based evaluator charges a nonsense penalty exactly when
    the declaration is judged nonsense: then it is between 0.1 and 0.298,
    otherwise it is 0. A declaration shorter than 10 characters, or one
    without any letter, is always charged. *)
Theorem penalty_iff_nonsense (decl : string) (st : State) (p : EventPacket)
    (caps : Caps) :
  let pen := nonsense_penalty
               (eo_penalties (evaluateWithRules decl st p caps)) in
  (isNonsense decl = true -> 1 # 10 <= pen <= 298 # 1000)
  /\ (isNonsense decl = false -> pen = 0)
  /\ ((String.length decl < 10)%nat -> 1 # 10 <= pen)
  /\ (no_letter decl = true -> 1 # 10 <= pen).
Proof.
  cbv zeta. unfold evaluateWithRules. cbn [eo_penalties nonsense_penalty].
  destruct (getDeterministicPenalty_range decl (1 # 10) (3 # 10))
    as [Ha Hb]; [discriminate|].
  assert (Hn : isNonsense decl = true ->
               1 # 10 <= (if isNonsense decl
                          then getDeterministicPenalty decl (1 # 10) (3 # 10)
                          else 0) <= 298 # 1000).
  { intros ->. split; [exact Ha|].
    eapply Qle_trans; [exact Hb|]. discriminate. }
  split; [exact Hn|]. split; [intros ->; reflexivity|].
  split.
  - intros Hlen. apply Hn. unfold isNonsense.
    apply Nat.ltb_lt in Hlen. rewrite Hlen.
    rewrite orb_true_r. reflexivity.
  - intros Hl. apply Hn. unfold isNonsense. rewrite Hl.
    apply orb_true_r.
Qed.

(** *** Engine events seen by the evaluator *)

Lemma get_set_other {V} (k k' : string) (v : V) (o : obj V) :
  k <> k' -> get k (set k' v o) = get k o.
Proof.
  intros Hne. apply String.eqb_neq in Hne.
  induction o as [|[k1 v1] o IH]; cbn [get set].
  - rewrite Hne. reflexivity.
  - destruct (String.eqb k' k1) eqn:E1; cbn [get].
    + apply String.eqb_eq in E1. subst k1. rewrite Hne. reflexivity.
    + destruct (String.eqb k k1); [reflexivity | exact IH].
Qed.


Lemma nonzero_adverse_up (x : Q) :
  0 <= x -> negb (eqb x 0) = true -> gtb x 0 = true.
Proof.
  intros H Hn. unfold gtb. apply ltb_lt.
  apply negb_true_iff in Hn. unfold eqb in Hn.
  destruct (Qlt_le_dec 0 x) as [Hlt | Hle]; [exact Hlt|].
  assert (E : x == 0) by lra.
  apply Qeq_bool_iff in E. congruence.
Qed.

Lemma nonzero_adverse_down (x : Q) :
  x <= 0 -> negb (eqb x 0) = true -> gtb x 0 = false /\ ltb x 0 = true.
Proof.
  intros H Hn. apply negb_true_iff in Hn. unfold eqb in Hn.
  split.
  - unfold gtb. apply ltb_ge. exact H.
  - apply ltb_lt. destruct (Qlt_le_dec x 0) as [Hlt | Hle]; [exact Hlt|].
    assert (E : x == 0) by lra.
    apply Qeq_bool_iff in E. congruence.
Qed.

Lemma effects_impact_adverse (p : EventPacket) (ef : Effects) (t : string)
    (st : State) :
  rp_effects p = Some ef -> rp_tier p = Some t -> In t tier_strings ->
  adverse ef ->
  let ic := channels_of (generateEventImpact p st) in
  impact_adverse ic
  /\ (t = "0" -> ic_credibility ic = None)
  /\ (t <> "0" ->
      exists k, t = string_of_Z k
                /\ ic_credibility ic
                   = Some {| dir := down;
                             strength := inject_Z k * (25 # 100) |}).
Proof.
  intros Hef Ht Hin (_ & _ & _ & _ & _ & Hnps & Hmor & Hbl). cbv zeta.
  unfold generateEventImpact. rewrite Hef, Ht. cbv zeta.
  destruct (negb (eqb (morale_delta ef) 0)) eqn:Em;
    [destruct (nonzero_adverse_down _ Hmor Em) as [-> _]|];
    (destruct (negb (eqb (backlog_delta ef) 0)) eqn:Eb;
     [rewrite (nonzero_adverse_up _ Hbl Eb)|]);
    (destruct (negb (eqb (nps_delta ef) 0)) eqn:En;
     [destruct (nonzero_adverse_down _ Hnps En) as [_ ->]|]);
    simpl in Hin; destruct Hin as [<- | [<- | [<- | [<- | []]]]];
    (split; [unfold impact_adverse; cbn; repeat split; reflexivity|]);
    (split; [intros E; first [reflexivity | discriminate E]|]);
    intros Hne; try (exfalso; apply Hne; reflexivity).
  all: first [ exists 1%Z; split; reflexivity
             | exists 2%Z; split; reflexivity
             | exists 3%Z; split; reflexivity ].
Qed.

(** X25. On a valid state the engine generates an event, its packet is
    within the schema, and every impact channel the rule-based evaluator
    derives from it points the adverse way (morale and credibility down,
    backlog pressure and service risk up). The credibility channel is
    absent exactly for tier 0, the morale channel exactly when the event
    has no morale effect. *)
Theorem engine_event_impact (s : json) (turnIndex : Q) (st : State) :
  is_State s = true ->
  exists e,
    generateRngEvent s turnIndex = Some e
    /\ packet_in_schema (packet_of e)
    /\ (let ic := channels_of (generateEventImpact (packet_of e) st) in
        impact_adverse ic
        /\ (ic_credibility ic = None <-> tier e = "0")
        /\ (ic_morale ic = None <-> morale_delta (effects e) == 0)).
Proof.
  intros Hs. destruct (generateRngEvent_total s turnIndex Hs) as [e He].
  exists e. split; [exact He|].
  destruct (generate_conforms s turnIndex e He)
    as ((Hroll & _ & Htier & _) & Hadv & _).
  split; [split; [exact Hroll | exact Htier]|].
  destruct (effects_impact_adverse (packet_of e) (effects e) (tier e) st
              eq_refl eq_refl Htier Hadv) as (Ha & H0 & Hk).
  cbv zeta in *. split; [exact Ha|]. split.
  - split; [|exact H0].
    intros Hnone.
    destruct (string_dec (tier e) "0") as [E | E]; [exact E|].
    destruct (Hk E) as (k & _ & Hc). rewrite Hc in Hnone. discriminate Hnone.
  - unfold generateEventImpact, channels_of.
    cbn [packet_of rp_effects rp_tier ic_morale]. cbv zeta.
    assert (Hget : forall i : obj DirStrength,
               get "morale"
                 (match parseInt (or_str (Some (tier e)) "0") with
                  | Some k =>
                      if (0 <? k)%Z
                      then set "credibility"
                             {| dir := down;
                                strength := inject_Z k * (25 # 100) |} i
                      else i
                  | None => i
                  end)
               = get "morale" i).
    { intros i. destruct (parseInt _) as [k|]; [|reflexivity].
      destruct (0 <? k)%Z; [|reflexivity].
      apply get_set_other. discriminate. }
    rewrite Hget. unfold eqb.
    destruct (Qeq_bool (morale_delta (effects e)) 0) eqn:Em; cbn [negb].
    + apply Qeq_bool_iff in Em.
      destruct (negb _), (negb _); cbn; split; auto.
    + assert (Hne : ~ morale_delta (effects e) == 0)
        by (intros E; apply Qeq_bool_iff in E; congruence).
      destruct (negb _), (negb _); cbn; split; intros H;
        try discriminate H; contradiction.
Qed.

Lemma engine_event_impact_witness :
  is_State fixture_json = true
  /\ exists e,
       generateRngEvent fixture_json 1 = Some e
       /\ packet_in_schema (packet_of e)
       /\ (let ic := channels_of
                       (generateEventImpact (packet_of e) fixture_state) in
           impact_adverse ic
           /\ (ic_credibility ic = None <-> tier e = "0")
           /\ (ic_morale ic = None <-> morale_delta (effects e) == 0)).
Proof.
  assert (H : is_State fixture_json = true) by (vm_compute; reflexivity).
  split; [exact H|].
  exact (engine_event_impact fixture_json 1 fixture_state H).
Defined.

(** *** Synergy *)

Lemma determineSynergy_adverse (signals : Signals)
    (impact : obj DirStrength) :
  impact_adverse (channels_of impact) ->
  (determineSynergy signals impact = aligned -> ceo_adverse signals)
  /\ (determineSynergy signals impact = undermined ->
      ceo_favourable signals).
Proof.
  unfold impact_adverse, channels_of, determineSynergy, signal_entries,
    ceo_adverse, ceo_favourable.
  cbn [ic_morale ic_credibility ic_backlog_pressure ic_service_risk
       fold_left].
  destruct signals as [[dm sm] [dc sc] [db sb] [ds ss]].
  cbn [sig_morale sig_credibility sig_backlog_pressure sig_service_risk dir].
  intros (Hm & Hc & Hb & Hs).
  destruct (get "morale" impact) as [[? ?]|]; simpl in Hm; subst;
    destruct (get "credibility" impact) as [[? ?]|]; simpl in Hc; subst;
    destruct (get "backlog_pressure" impact) as [[? ?]|]; simpl in Hb; subst;
    destruct (get "service_risk" impact) as [[? ?]|]; simpl in Hs; subst.
  all: destruct dm, dc, db, ds; cbn; split; intros H;
    try discriminate H; tauto.
Qed.

(** X26. Against an event generated by the engine, the rule-based
    evaluator reports the synergy [aligned] only if some CEO signal itself
    points the adverse way (morale or credibility down, backlog pressure or
    service risk up), and [undermined] only if some CEO signal points the
    favourable way. *)
Theorem synergy_reads_ceo_direction (decl : string) (s : json)
    (turnIndex : Q) (st : State) (caps : Caps) :
  is_State s = true ->
  exists e,
    generateRngEvent s turnIndex = Some e
    /\ (let o := evaluateWithRules decl st (packet_of e) caps in
        (synergy (eo_integrated o) = aligned -> ceo_adverse (eo_signals o))
        /\ (synergy (eo_integrated o) = undermined ->
            ceo_favourable (eo_signals o))).
Proof.
  intros Hs. destruct (generateRngEvent_total s turnIndex Hs) as [e He].
  exists e. split; [exact He|].
  destruct (generate_conforms s turnIndex e He)
    as ((_ & _ & Htier & _) & Hadv & _).
  destruct (effects_impact_adverse (packet_of e) (effects e) (tier e) st
              eq_refl eq_refl Htier Hadv) as (Ha & _).
  cbv zeta. unfold evaluateWithRules.
  cbn [eo_integrated synergy eo_signals].
  apply determineSynergy_adverse. exact Ha.
Qed.

Lemma synergy_reads_ceo_direction_witness :
  is_State fixture_json = true
  /\ option_map
       (fun e =>
          (tier e,
           synergy (eo_integrated
                      (evaluateWithRules "We promise and guarantee delivery"
                         fixture_state (packet_of e) DEFAULT_CAPS))))
       (generateRngEvent fixture_json 10)
     = Some ("1", aligned)
  /\ exists e,
       generateRngEvent fixture_json 10 = Some e
       /\ (let o := evaluateWithRules "We promise and guarantee delivery"
                                      fixture_state (packet_of e)
                                      DEFAULT_CAPS in
           (synergy (eo_integrated o) = aligned ->
            ceo_adverse (eo_signals o))
           /\ (synergy (eo_integrated o) = undermined ->
               ceo_favourable (eo_signals o))).
Proof.
  assert (H : is_State fixture_json = true) by (vm_compute; reflexivity).
  split; [exact H|].
  split; [vm_compute; reflexivity|].
  exact (synergy_reads_ceo_direction "We promise and guarantee delivery"
           fixture_json 10 fixture_state DEFAULT_CAPS H).
Defined.

End EvaluatorProps.

(** * Properties on binary64 numbers *)

(** ** Facts about binary64 arithmetic *)

Module B64Facts.
Import Floats.PrimFloat Floats.FloatOps Floats.FloatAxioms Floats.SpecFloat.
Import B64 Spec64.
Local Open Scope float_scope.

(** *** Sums with a zero *)

Lemma SF_zero : Prim2SF 0 = S754_zero false.
Proof. reflexivity. Qed.

Lemma SF_neg_zero : Prim2SF (- 0) = S754_zero true.
Proof. reflexivity. Qed.

(** [x + -0] is [x], bit for bit. *)
Lemma add_neg_zero (x : float) : x + - 0 = x.
Proof.
  apply Prim2SF_inj. rewrite add_spec, SF_neg_zero.
  destruct (Prim2SF x) as [[|]|[|]| |s m e]; reflexivity.
Qed.

(** Adding [n] after [0] and adding [0 + n] give the same number. *)
Lemma add_zero_assoc (x n : float) : x + 0 + n = x + (0 + n).
Proof.
  apply Prim2SF_inj. rewrite !add_spec, SF_zero.
  destruct (Prim2SF x) as [[|]|[|]| |s m e],
           (Prim2SF n) as [[|]|[|]| |s' m' e']; reflexivity.
Qed.

Lemma cond_Zopp_negb (s : bool) (m : Z) :
  cond_Zopp (negb s) m = (- cond_Zopp s m)%Z.
Proof. destruct s; simpl; lia. Qed.

(** [x + (-y)] is [x - y]. *)
Lemma SFadd_opp (x y : spec_float) :
  SF64add x (SFopp y) = SF64sub x y.
Proof.
  destruct x as [[|]|[|]| |s m e], y as [[|]|[|]| |s' m' e'];
    try reflexivity;
    unfold SF64add, SF64sub, SFadd, SFsub, SFopp;
    rewrite cond_Zopp_negb, Z.add_opp_r; reflexivity.
Qed.

Lemma add_opp (x y : float) : x + - y = x - y.
Proof.
  apply Prim2SF_inj. rewrite add_spec, sub_spec, opp_spec.
  apply SFadd_opp.
Qed.

(** Subtracting [d] after adding [0], and adding [0 - d]. *)
Lemma sub_zero_assoc (x d : float) : x + 0 - d = x + (0 - d).
Proof.
  apply Prim2SF_inj. rewrite sub_spec, !add_spec, sub_spec, SF_zero.
  destruct (Prim2SF x) as [[|]|[|]| |s m e],
           (Prim2SF d) as [[|]|[|]| |s' m' e'];
    try reflexivity;
    change (SF64sub (S754_zero false) (S754_finite ?a ?b ?c))
      with (SFopp (S754_finite a b c));
    change (SF64add (S754_finite ?a ?b ?c) (S754_zero false))
      with (S754_finite a b c);
    rewrite SFadd_opp; reflexivity.
Qed.

(** *** Classes of numbers *)

Lemma SFcompare_refl (x : spec_float) :
  x <> S754_nan -> SFcompare x x = Some Eq.
Proof.
  destruct x as [s|[|]| |[|] m e]; intros H; try reflexivity;
    try (exfalso; apply H; reflexivity);
    unfold SFcompare; rewrite Z.compare_refl, Pos.compare_cont_refl;
    reflexivity.
Qed.

Lemma is_nan_spec (x : float) :
  is_nan x = match Prim2SF x with S754_nan => true | _ => false end.
Proof.
  unfold is_nan. rewrite eqb_spec. unfold SFeqb.
  destruct (Prim2SF x) as [s|s| |s m e] eqn:E; try reflexivity;
    rewrite SFcompare_refl by discriminate; reflexivity.
Qed.


Lemma is_finite_spec (x : float) :
  is_finite x = true ->
  (exists s, Prim2SF x = S754_zero s)
  \/ (exists s m e, Prim2SF x = S754_finite s m e).
Proof.
  unfold is_finite, is_infinity. rewrite is_nan_spec, eqb_spec, abs_spec.
  destruct (Prim2SF x) as [s|s| |s m e]; simpl; intros H;
    try discriminate H; eauto.
Qed.

(** A finite number minus itself is [+0]. *)
Lemma sub_diag (x : float) : is_finite x = true -> x - x = 0.
Proof.
  intros H. apply Prim2SF_inj. rewrite sub_spec, SF_zero.
  destruct (is_finite_spec x H) as [[s ->] | (s & m & e & ->)].
  - destruct s; reflexivity.
  - unfold SF64sub, SFsub. rewrite Z.sub_diag. reflexivity.
Qed.

(** *** The order *)

Lemma SFcompare_antisym (x y : spec_float) :
  SFcompare y x = option_map CompOpp (SFcompare x y).
Proof.
  destruct x as [s|[|]| |[|] m e], y as [s'|[|]| |[|] m' e'];
    try reflexivity; try (destruct s; reflexivity);
    try (destruct s'; reflexivity);
    unfold SFcompare; rewrite (Z.compare_antisym e e');
    destruct (e ?= e')%Z; simpl; try reflexivity;
    rewrite (Pos.compare_cont_antisym m m' Eq); simpl;
    destruct (Pos.compare_cont Eq m m'); reflexivity.
Qed.

Lemma SFopp_involutive (x : spec_float) : SFopp (SFopp x) = x.
Proof. destruct x as [s|s| |s m e]; simpl; rewrite ?negb_involutive; reflexivity. Qed.

Lemma SFcompare_opp (x y : spec_float) :
  SFcompare (SFopp x) (SFopp y) = SFcompare y x.
Proof.
  rewrite (SFcompare_antisym x y).
  destruct x as [s|[|]| |[|] m e], y as [s'|[|]| |[|] m' e'];
    try reflexivity; try (destruct s; reflexivity);
    try (destruct s'; reflexivity);
    unfold SFcompare, SFopp, negb, option_map;
    destruct (e ?= e')%Z; simpl; try reflexivity;
    destruct (Pos.compare_cont Eq m m'); reflexivity.
Qed.

(** The magnitude of a number: itself, or its opposite when the sign bit
    is set. *)
Lemma SFabs_cases (x : spec_float) :
  SFcompare (SFabs x) = SFcompare x \/ SFcompare (SFabs x) = SFcompare (SFopp x).
Proof.
  destruct x as [[|]|[|]| |[|] m e]; simpl; auto.
Qed.

Lemma SFabs_nonneg (c : spec_float) :
  SFnonneg c -> SFleb (SFabs c) c = true /\ SFleb (SFabs (SFopp c)) c = true.
Proof.
  unfold SFnonneg, SFleb.
  destruct c as [s|[|]| |[|] m e]; simpl; intros H; try discriminate H;
    try (split; reflexivity);
    rewrite Z.compare_refl, Pos.compare_cont_refl; split; reflexivity.
Qed.

Lemma SFabs_between (x c : spec_float) :
  SFltb x c = true -> SFltb (SFopp c) x = true -> SFleb (SFabs x) c = true.
Proof.
  intros Hlt Hgt.
  assert (Hle : SFleb x c = true).
  { unfold SFleb. unfold SFltb in Hlt.
    destruct (SFcompare x c) as [[| |]|]; try discriminate Hlt; reflexivity. }
  assert (Hle' : SFleb (SFopp x) c = true).
  { unfold SFleb. rewrite <- (SFopp_involutive c), SFcompare_opp.
    unfold SFltb in Hgt.
    destruct (SFcompare (SFopp c) x) as [[| |]|]; try discriminate Hgt;
      reflexivity. }
  unfold SFleb in *.
  destruct (SFabs_cases x) as [-> | ->]; assumption.
Qed.

(** *** [Math.max], [Math.min] and the clamp *)

Lemma nonneg_not_nan (c : float) : (0 <=? c) = true -> is_nan c = false.
Proof.
  rewrite leb_spec, is_nan_spec, SF_zero.
  destruct (Prim2SF c) as [s|s| |s m e]; intros H; try reflexivity.
  discriminate H.
Qed.

Lemma is_nan_opp (c : float) : is_nan (- c) = is_nan c.
Proof.
  rewrite !is_nan_spec, opp_spec.
  destruct (Prim2SF c) as [s|s| |s m e]; reflexivity.
Qed.

(** What [Math.max] and [Math.min] return for two numbers that are not
    NaN: one of the two, or a zero when both are zeros. *)
Lemma Math_max_cases (a b : float) :
  is_nan a = false -> is_nan b = false ->
  (Math_max a b = b /\ (a <? b) = true)
  \/ Math_max a b = a
  \/ ((Math_max a b = 0 \/ Math_max a b = - 0)
      /\ is_zero a = true /\ is_zero b = true).
Proof.
  intros Ha Hb. unfold Math_max. rewrite Ha, Hb. cbn [orb].
  destruct (is_zero a) eqn:Za, (is_zero b) eqn:Zb; cbn [andb];
    try (destruct (a <? b); auto; fail).
  right; right. destruct (get_sign a && get_sign b); auto.
Qed.

Lemma Math_min_cases (a b : float) :
  is_nan a = false -> is_nan b = false ->
  (Math_min a b = b /\ (b <? a) = true)
  \/ Math_min a b = a
  \/ ((Math_min a b = 0 \/ Math_min a b = - 0)
      /\ is_zero a = true /\ is_zero b = true).
Proof.
  intros Ha Hb. unfold Math_min. rewrite Ha, Hb. cbn [orb].
  destruct (is_zero a) eqn:Za, (is_zero b) eqn:Zb; cbn [andb];
    try (destruct (b <? a); auto; fail).
  right; right. destruct (get_sign a || get_sign b); auto.
Qed.




(** The clamp of [clampDeltas]: for a cap that is zero or positive and a
    delta that is not NaN, whatever its size, the result is within the
    cap. *)
Lemma clamp_within (cap x : float) :
  (0 <=? cap) = true -> is_nan x = false ->
  within_cap cap (Math_max (- cap) (Math_min cap x)).
Proof.
  intros Hc Hx. unfold within_cap, Math_abs.
  pose proof (nonneg_not_nan cap Hc) as Hn.
  assert (Hcs : SFnonneg (Prim2SF cap))
    by (unfold SFnonneg; rewrite <- SF_zero, <- leb_spec; exact Hc).
  destruct (SFabs_nonneg _ Hcs) as [Habs Habs'].
  assert (Hzero : forall z, z = 0 \/ z = - 0 -> (abs z <=? cap) = true).
  { intros z [-> | ->]; exact Hc. }
  assert (Hcap : (abs cap <=? cap) = true)
    by (rewrite leb_spec, abs_spec; exact Habs).
  assert (Hopp : (abs (- cap) <=? cap) = true)
    by (rewrite leb_spec, abs_spec, opp_spec; exact Habs').
  assert (Hm : is_nan (Math_min cap x) = false).
  { destruct (Math_min_cases cap x Hn Hx)
      as [[-> _] | [-> | [[-> | ->] _]]]; auto. }
  destruct (Math_max_cases (- cap) (Math_min cap x))
    as [[-> Hlo] | [-> | [Hz _]]];
    [rewrite is_nan_opp; exact Hn | exact Hm | | exact Hopp
    | apply Hzero; exact Hz].
  destruct (Math_min_cases cap x Hn Hx)
    as [[E Hhi] | [-> | [Hz _]]];
    [ | exact Hcap | apply Hzero; exact Hz].
  rewrite E in *. rewrite leb_spec, abs_spec.
  apply SFabs_between.
  - rewrite <- ltb_spec. exact Hhi.
  - rewrite <- opp_spec, <- ltb_spec. exact Hlo.
Qed.

(** *** Products *)







End B64Facts.

(** ** The financial engine and the delta clamp on binary64 numbers *)

Module Finance64Facts.
Import Floats.PrimFloat Floats.FloatOps Floats.FloatAxioms Floats.SpecFloat.
Import B64 Spec64 Finance64 B64Facts.
Local Open Scope float_scope.
Local Open Scope list_scope.

(** *** The financing step *)

(** The financing step pushes the debt-draw or the dividend note, or
    nothing. *)
Lemma financing_pushes (buf : float) (pol : option Policy) (st : Financing) :
  f_notes (financing buf pol st) = f_notes st
  \/ f_notes (financing buf pol st) = f_notes st ++ [NoteDebtDraw]
  \/ f_notes (financing buf pol st) = f_notes st ++ [NoteDividend].
Proof.
  unfold financing.
  destruct (f_cash_close_prov st <? buf); [auto|].
  destruct (_ && _ && _); [|auto].
  destruct (gtb _ 0); auto.
Qed.

(** The notes before the checks hold neither the plug note nor the
    reconciliation note. *)
Lemma notes_before_checks (input : FinanceInput) :
  ~ In NotePlug (f_notes (fl_fin (flows input)))
  /\ ~ In NoteRecon (f_notes (fl_fin (flows input))).
Proof.
  unfold flows. cbn [fl_fin].
  match goal with
  | |- context [financing ?b ?p ?s] =>
      destruct (financing_pushes b p s) as [-> | [-> | ->]]
  end;
    cbn [f_notes]; rewrite ?in_app_iff;
    destruct (gtb _ 0); simpl; split; intros H;
    repeat (destruct H as [H | H]; try discriminate H); try exact H.
Qed.

(** Started with [cff = 0] and a provisional close [p + 0], the financing
    step ends with a provisional close that is [p + cff], bit for bit:
    the draw and the dividend move both by the same amount. *)
Lemma financing_in_step (buf : float) (pol : option Policy) (p : float)
    (d re : float) (ns : list Note) :
  let fin := financing buf pol
               {| f_cff := 0; f_debt := d; f_retained_earnings := re;
                  f_cash_close_prov := p + 0; f_notes := ns |} in
  f_cash_close_prov fin = p + f_cff fin.
Proof.
  cbv zeta. unfold financing.
  cbn [f_cash_close_prov f_cff f_debt f_retained_earnings f_notes].
  destruct (p + 0 <? buf).
  - cbn [f_cash_close_prov f_cff]. apply add_zero_assoc.
  - destruct (_ && _ && _); [|reflexivity].
    destruct (gtb _ 0); [|reflexivity].
    cbn [f_cash_close_prov f_cff]. apply sub_zero_assoc.
Qed.

(** The cash close of line 70 is the sum of the reconciliation, added up
    from the returned fields. *)
Lemma line70_is_sum (input : FinanceInput) :
  fl_cash_close (flows input)
  = reconciled_sum (computeFinancials input) (spending input).
Proof.
  unfold reconciled_sum, computeFinancials, checks, spending.
  destruct (negb (Math_abs _ <? tolerance)); cbn [cash_open cashflow cfo cfi cff];
    unfold flows; cbn [fl_cash_close fl_cash_open fl_cfo fl_cfi fl_fin];
    apply add_opp.
Qed.


End Finance64Facts.

Module Finance64Claims.
Import Floats.PrimFloat Floats.FloatOps Floats.FloatAxioms Floats.SpecFloat.
Import B64 Spec64 Finance64 B64Facts Finance64Facts.
Local Open Scope float_scope.
Local Open Scope list_scope.

(** C3, as amended.  On binary64 numbers [computeFinancials] always
    returns [balance_ok = true].  A balance sheet that is built within
    1e-6 of the identity assets = liabilities + equity is returned as
    built, without the plug note; otherwise the difference is added to the
    retained earnings, nothing else changes, and the plug note is
    recorded.  How closely the plugged sheet balances is not checked
    again. *)
Theorem balance_plug (input : FinanceInput) :
  let r := computeFinancials input in
  let b0 := fl_balance (flows input) in
  balance_ok r = true
  /\ ((Math_abs (imbalance b0) <? tolerance) = true ->
      balance r = b0
      /\ (Math_abs (imbalance (balance r)) <? tolerance) = true
      /\ ~ In NotePlug (notes r))
  /\ ((Math_abs (imbalance b0) <? tolerance) = false ->
      balance r
      = with_retained_earnings b0 (retained_earnings b0 + imbalance b0)
      /\ In NotePlug (notes r)).
Proof.
  cbv zeta. destruct (notes_before_checks input) as [Hplug Hrecon].
  unfold computeFinancials, checks, imbalance, assets_of, liab_eq_of in *.
  set (w := flows input) in *.
  destruct (Math_abs (cash (fl_balance w) + ar (fl_balance w)
                      + inventory (fl_balance w) + ppe (fl_balance w)
                      - (ap (fl_balance w) + debt (fl_balance w)
                         + other_equity (fl_balance w)
                         + retained_earnings (fl_balance w)))
            <? tolerance) eqn:E;
    cbn [negb balance_ok balance notes].
  - split; [reflexivity|]. split; [|intros H; discriminate H].
    intros _. split; [reflexivity|]. split; [exact E|].
    destruct (negb _); [rewrite in_app_iff|]; intros H;
      try (destruct H as [H | [H | []]]; [|discriminate H]);
      apply Hplug; exact H.
  - split; [reflexivity|]. split; [intros H; discriminate H|].
    intros _. split; [reflexivity|].
    destruct (negb _); rewrite ?in_app_iff; simpl; auto.
Qed.

(** Both branches occur: on an opening sheet that balances the sheet is
    built in balance and returned without a plug; on the starting balance
    of the engine, which is 300,000 out of balance, the plug is
    applied. *)
Lemma balance_plug_cases :
  (Math_abs (imbalance (fl_balance (flows balanced_input))) <? tolerance)
  = true
  /\ notes (computeFinancials balanced_input) = [NoteDebtDraw]
  /\ imbalance (fl_balance (flows baseline_input)) = 300000
  /\ notes (computeFinancials baseline_input) = [NoteDebtDraw; NotePlug].
Proof. repeat split; vm_compute; reflexivity. Qed.

(** C3, as stated, fails on binary64 numbers: with a million units made
    at 7000 (all drivers within their bounds, default parameters) the plug
    is applied and [balance_ok] is true, yet the returned balance sheet is
    off by 2^-19, about 1.9e-6, which is not within 1e-6. *)
Lemma balance_identity_counterexample :
  let r := computeFinancials costly_input in
  balance_ok r = true
  /\ In NotePlug (notes r)
  /\ imbalance (balance r) = 1.9073486328125e-06
  /\ (Math_abs (imbalance (balance r)) <? tolerance) = false.
Proof.
  cbv zeta. split; [vm_compute; reflexivity|].
  split; [vm_compute; auto|].
  split; vm_compute; reflexivity.
Qed.


(** On the baseline the sum is 250000, positive and finite. *)
Lemma cash_close_baseline :
  let r := computeFinancials baseline_input in
  reconciled_sum r (spending baseline_input) = 250000
  /\ cash_close r = 250000.
Proof. cbv zeta. split; vm_compute; reflexivity. Qed.


(** C10, as amended.  Without direct cash spending (none, or 0) and with
    a finite cash close, [computeFinancials] returns
    [cash_recon_ok = true] and does not push the drift note: the
    financing step moves the provisional close and CFF by the same amount,
    and with a spending of 0 the cash close of line 70 is the provisional
    close bit for bit.  With a direct spending the two are added up in
    different orders and can differ by rounding. *)
Theorem cash_recon_without_spending (input : FinanceInput) :
  spending input = 0 ->
  is_finite (reconciled_sum (computeFinancials input) 0) = true ->
  cash_recon_ok (computeFinancials input) = true
  /\ ~ In NoteRecon (notes (computeFinancials input)).
Proof.
  intros Hs Hfin.
  pose proof (line70_is_sum input) as Hsum. rewrite Hs in Hsum.
  rewrite <- Hsum in Hfin.
  assert (Hprov : f_cash_close_prov (fl_fin (flows input))
                  = fl_cash_close (flows input)).
  { unfold flows, spending in *. rewrite Hs.
    cbn [fl_fin fl_cash_close].
    change (- 0) with (- (0)). rewrite !add_neg_zero.
    apply financing_in_step. }
  assert (Hrec : (Math_abs (fl_cash_close (flows input)
                            - f_cash_close_prov (fl_fin (flows input)))
                  <? tolerance) = true).
  { rewrite Hprov. unfold Math_abs. rewrite (sub_diag _ Hfin). reflexivity. }
  destruct (notes_before_checks input) as [Hplug Hrecon].
  unfold computeFinancials, checks. rewrite Hrec.
  destruct (negb (Math_abs _ <? tolerance));
    cbn [cash_recon_ok notes negb]; split; try reflexivity;
    rewrite ?in_app_iff; intros H;
    try (destruct H as [H | [H | []]]; [|discriminate H]);
    apply Hrecon; exact H.
Qed.

Lemma cash_recon_without_spending_witness :
  spending baseline_input = 0
  /\ is_finite (reconciled_sum (computeFinancials baseline_input) 0) = true
  /\ cash_recon_ok (computeFinancials baseline_input) = true
  /\ ~ In NoteRecon (notes (computeFinancials baseline_input)).
Proof.
  assert (H1 : spending baseline_input = 0) by reflexivity.
  assert (H2 : is_finite
                 (reconciled_sum (computeFinancials baseline_input) 0) = true)
    by (vm_compute; reflexivity).
  split; [exact H1|]. split; [exact H2|].
  exact (cash_recon_without_spending baseline_input H1 H2).
Defined.

(** C10, as stated, fails on binary64 numbers: with the default buffer of
    250000, every driver within its bounds and a direct spending of 0.1,
    the cash close of line 70 is 249999.99999847412 while the provisional
    close is 250000; [cash_recon_ok] is false and the drift note is
    pushed. *)
Lemma cash_recon_reachable_counterexample :
  let r := computeFinancials heavy_spending_input in
  (0 <=? min_cash_buffer (params heavy_spending_input)) = true
  /\ fl_cash_close (flows heavy_spending_input) = 249999.99999847412
  /\ f_cash_close_prov (fl_fin (flows heavy_spending_input)) = 250000
  /\ cash_recon_ok r = false
  /\ In NoteRecon (notes r).
Proof.
  cbv zeta. split; [vm_compute; reflexivity|].
  split; [vm_compute; reflexivity|].
  split; [vm_compute; reflexivity|].
  split; [vm_compute; reflexivity|].
  vm_compute. auto.
Qed.

End Finance64Claims.

Module Engine64Facts.
Import Floats.PrimFloat Floats.FloatOps Floats.FloatAxioms Floats.SpecFloat.
Import B64 Spec64 Engine64 B64Facts.
Local Open Scope float_scope.
Local Open Scope list_scope.

(** Clamping under a fixed configuration of caps that are zero or
    positive. *)
Section Clamping.

Variable caps : Caps.
Hypothesis caps_ok : caps_nonneg caps.


Ltac field_done :=
  unfold within_caps;
  cbn [d_morale d_credibility d_service d_backlog d_share d_cash_runway];
  repeat split; auto using clamp_within.



End Clamping.

End Engine64Facts.

Module Engine64Claims.
Import Floats.PrimFloat Floats.FloatOps Floats.FloatAxioms Floats.SpecFloat.
Import B64 Spec64 Engine64 B64Facts Engine64Facts.
Local Open Scope float_scope.
Local Open Scope list_scope.





End Engine64Claims.
